(** * Nova model objects of mimic: servers, creation behaviors, collections

    A shallow embedding of [mimic/model/nova_objects.py].  Python objects
    that are mutated through references (the [Server] instances held by a
    collection and captured by scheduled callbacks) live in an explicit
    store; exceptions are values of the result type; the JSON documents the
    code receives are values of [json]. *)

From Stdlib Require Import PrimFloat.
From Stdlib Require Import QArith ZArith String Ascii List DecimalString
  DecimalZ DecimalPos.
From Stdlib Require SpecFloat FloatOps FloatAxioms.
From stdpp Require Import base list strings gmap.

Open Scope string_scope.

Set Warnings "-register-all,-inexact-float".

(** ** JSON values and Python exceptions *)

(** What [json.loads] produces: Python's [None], [bool], [int], [float],
    [unicode], [list] and [dict].  A [float] is a binary64 value, with the
    arithmetic of the processor.  A [dict] is kept as an association list
    read through its first binding for a key. *)
Inductive json : Type :=
| JNull
| JBool (b : bool)
| JInt (n : Z)
| JFloat (f : float)
| JStr (s : string)
| JArr (xs : list json)
| JObj (kvs : list (string * json)).

Inductive exn : Type :=
| KeyError (key : string)
| TypeError
| AttributeError
| ValueError (msg : string)
| OverflowError
| ReError
| Dangling.

Inductive result (A : Type) : Type :=
| Ok (a : A)
| Raise (e : exn).

Arguments Ok {A} a.
Arguments Raise {A} e.

Definition result_bind {A B} (r : result A) (k : A -> result B) : result B :=
  match r with
  | Ok a => k a
  | Raise e => Raise e
  end.

(** ** Python operations on JSON values *)

Fixpoint dict_lookup (kvs : list (string * json)) (k : string) : option json :=
  match kvs with
  | [] => None
  | (k', v) :: rest => if String.eqb k' k then Some v else dict_lookup rest k
  end.

(** [d[k] = v] on a dict: the binding is replaced in place, or added. *)
Fixpoint dict_set (kvs : list (string * json)) (k : string) (v : json)
  : list (string * json) :=
  match kvs with
  | [] => [(k, v)]
  | (k', v') :: rest =>
      if String.eqb k' k then (k', v) :: rest else (k', v') :: dict_set rest k v
  end.

(** [needle in haystack] on two strings. *)
Fixpoint str_contains (needle haystack : string) : bool :=
  String.prefix needle haystack
  || match haystack with
     | EmptyString => false
     | String _ rest => str_contains needle rest
     end.

(** Truth value of an object, as tested by [if x], [x or y]. *)
Definition py_truthy (j : json) : bool :=
  match j with
  | JNull => false
  | JBool b => b
  | JInt n => negb (n =? 0)%Z
  | JFloat f => negb (f =? 0)%float
  | JStr s => negb (String.eqb s "")
  | JArr xs => match xs with [] => false | _ => true end
  | JObj kvs => match kvs with [] => false | _ => true end
  end.

(** [x or y] *)
Definition py_or (x y : json) : json := if py_truthy x then x else y.

(** [d.get(k, default)]; only a dict has the method. *)
Definition py_get (d : json) (k : string) (default : json) : result json :=
  match d with
  | JObj kvs =>
      Ok (match dict_lookup kvs k with Some v => v | None => default end)
  | _ => Raise AttributeError
  end.

(** [d[k]] with a string key. *)
Definition py_getitem (d : json) (k : string) : result json :=
  match d with
  | JObj kvs =>
      match dict_lookup kvs k with Some v => Ok v | None => Raise (KeyError k) end
  | _ => Raise TypeError
  end.

(** [d[k] = v] with a string key. *)
Definition py_setitem (d : json) (k : string) (v : json) : result json :=
  match d with
  | JObj kvs => Ok (JObj (dict_set kvs k v))
  | _ => Raise TypeError
  end.

(** [k in d] with a string [k]: key membership on a dict, substring on a
    string, element membership on a list, [TypeError] on anything else. *)
Definition py_contains (k : string) (d : json) : result bool :=
  match d with
  | JObj kvs => Ok (match dict_lookup kvs k with Some _ => true | None => false end)
  | JStr s => Ok (str_contains k s)
  | JArr xs =>
      Ok (existsb (fun x => match x with JStr s => String.eqb s k | _ => false end) xs)
  | _ => Raise TypeError
  end.

(** [x -= 1] on the value held by a dict entry. *)
Definition py_decrement (x : json) : result json :=
  match x with
  | JInt n => Ok (JInt (n - 1))
  | JBool b => Ok (JInt ((if b then 1 else 0) - 1))
  | JFloat f => Ok (JFloat (f - 1)%float)
  | _ => Raise TypeError
  end.

(** [str(n)] for an integer. *)
Definition str_of_Z (n : Z) : string := NilZero.string_of_int (Z.to_int n).

(** An integer as a [float], as [float(n)] and the arithmetic on mixed
    operands make it: the nearest binary64 value, ties to even, and
    [OverflowError] when that is beyond the largest one. *)
Definition float_of_int (n : Z) : result float :=
  let f := FloatOps.SF2Prim
             (SpecFloat.binary_normalize FloatOps.prec FloatOps.emax n 0 false) in
  if is_infinity f then Raise OverflowError else Ok f.

(** ** The random source

    [random.randrange] and the helpers built on it read a global generator;
    here it is a stream of draws with a cursor, threaded through the store. *)
Record Entropy : Type := { draws : nat -> Z; cursor : nat }.

Definition randrange (stop : Z) (e : Entropy) : Z * Entropy :=
  ((draws e (cursor e) mod stop)%Z, {| draws := draws e; cursor := S (cursor e) |}).

(** ** What the module imports

    The standard library functions and the helpers of [mimic.util.helper]
    the module calls, taken as parameters. *)
Class Runtime : Type := {
  (** [json.loads] on a string; [None] when it raises [ValueError]. *)
  loads : string -> option json;
  (** [json.dumps] *)
  dumps : json -> string;
  (** [float] on a string; [None] when it raises [ValueError]. *)
  float_of_string : string -> option float;
  (** whether [re.compile(pattern)] returns, rather than raise *)
  re_compiles : string -> bool;
  (** [re.compile(pattern).match(subject)] as a truth value *)
  re_match : string -> string -> bool;
  (** [str] of a value that is not already a string or an integer *)
  py_repr : json -> string;
  (** [mimic.util.helper.seconds_to_timestamp], which raises on a time it
      cannot convert *)
  seconds_to_timestamp : float -> result string;
  (** [mimic.util.helper.random_string] *)
  random_string : nat -> Entropy -> string * Entropy
}.

(** ** Addresses *)

Inductive Address : Type :=
| IPv4Address (address : string)
| IPv6Address (address : string).

(** [IPv4Address.json], [IPv6Address.json] *)
Definition address_json (a : Address) : json :=
  match a with
  | IPv4Address address => JObj [("addr", JStr address); ("version", JInt 4)]
  | IPv6Address address => JObj [("addr", JStr address); ("version", JInt 6)]
  end.

(** ** Servers *)

(** The attributes of a [Server], except [collection], the reference back
    to the one collection of the store below. *)
Record Server : Type := {
  server_id : string;
  server_name : json;
  metadata : json;
  creation_time : float;
  update_time : float;
  public_ips : list Address;
  private_ips : list Address;
  status : string;
  flavor_ref : json;
  image_ref : json;
  disk_config : json;
  admin_password : string;
  creation_request_json : json
}.

(** [server.status = value] *)
Definition set_status (value : string) (s : Server) : Server :=
  {| server_id := server_id s; server_name := server_name s;
     metadata := metadata s; creation_time := creation_time s;
     update_time := update_time s; public_ips := public_ips s;
     private_ips := private_ips s; status := value;
     flavor_ref := flavor_ref s; image_ref := image_ref s;
     disk_config := disk_config s; admin_password := admin_password s;
     creation_request_json := creation_request_json s |}.

(** The request document once the dict under its [server], [metadata]
    entries has become [value].  The constructor binds the [metadata]
    attribute to that very dict whenever it counts as true
    ([server_json.get("metadata") or {}]), and to a dict of its own
    otherwise. *)
Definition with_request_metadata (value : json) (creation_json : json) : json :=
  match creation_json with
  | JObj kvs =>
      match dict_lookup kvs "server" with
      | Some (JObj server_json) =>
          match dict_lookup server_json "metadata" with
          | Some md =>
              if py_truthy md
              then JObj (dict_set kvs "server"
                           (JObj (dict_set server_json "metadata" value)))
              else creation_json
          | None => creation_json
          end
      | _ => creation_json
      end
  | _ => creation_json
  end.

(** The effect of an item assignment on the dict the [metadata] attribute
    refers to, which has become [value].  The request document kept in
    [creation_request_json] refers to the same dict and changes with it. *)
Definition set_metadata (value : json) (s : Server) : Server :=
  {| server_id := server_id s; server_name := server_name s;
     metadata := value; creation_time := creation_time s;
     update_time := update_time s; public_ips := public_ips s;
     private_ips := private_ips s; status := status s;
     flavor_ref := flavor_ref s; image_ref := image_ref s;
     disk_config := disk_config s; admin_password := admin_password s;
     creation_request_json :=
       with_request_metadata value (creation_request_json s) |}.

(** ** Creation behaviors

    The closures of the module as data.  [hooked function] is what
    [default_with_hook(function)] returns; [set_building duration] and
    [set_error] are the two functions it is applied to;
    [fail_without_creating] carries the two values its closure captured;
    [default_behavior] is [default_create_behavior] called without a hook. *)
Inductive Hook : Type :=
| set_building (duration : json)
| set_error.

Inductive Behavior : Type :=
| default_behavior
| hooked (function : Hook)
| fail_without_creating (status_code failure_message : json).

(** ** Criteria and the behavior registry *)

(** Modelled from the spec: [Criterion] of [mimic.model.behaviors], which
    is not part of the sources: a named predicate over a single extracted
    attribute value. *)
Record Criterion : Type := {
  name : string;
  predicate : json -> result bool
}.

(** Modelled from the spec: [BehaviorRegistry] of [mimic.model.behaviors],
    which is not part of the sources: entries in registration order, each a
    behavior with its criteria, and the default behavior of the event, here
    [default_create_behavior]. *)
Record BehaviorRegistry : Type := {
  registered_behaviors : list (Behavior * list Criterion)
}.

(** ** The virtual clock *)

(** A reference to a [Server] object. *)
Abbreviation loc := nat (only parsing).

(** The one closure the module schedules:
    [lambda: setattr(server, "status", value)]. *)
Inductive Callback : Type :=
| setattr_status (server : loc) (value : string).

Record DelayedCall : Type := { time : float; func : Callback }.

(** Modelled from the spec: the injected Virtual Clock, a current time and
    the calls scheduled on it, kept in nondecreasing time order, calls for
    the same instant in registration order.  Times are the floats the
    program computes with: the reading of the clock, the duration that
    [float(metadata['server_building'])] gives and their sum. *)
Record Clock : Type := { rightNow : float; calls : list DelayedCall }.

(** [clock.seconds()] *)
Definition seconds (c : Clock) : float := rightNow c.

Fixpoint insert_call (dc : DelayedCall) (cs : list DelayedCall)
  : list DelayedCall :=
  match cs with
  | [] => [dc]
  | c :: rest =>
      if (time c <=? time dc)%float then c :: insert_call dc rest
      else dc :: c :: rest
  end.

(** [clock.callLater(delay, f)]: the call is due at [seconds() + delay]. *)
Definition callLater (delay : float) (f : Callback) (c : Clock) : Clock :=
  {| rightNow := rightNow c;
     calls := insert_call {| time := (rightNow c + delay)%float; func := f |}
                (calls c) |}.

(** ** The store *)

(** A collection of servers, in a given region, for a given tenant.
    [servers] holds references into the store of [Server] objects. *)
Record RegionalServerCollection : Type := {
  tenant_id : string;
  region_name : string;
  clock : Clock;
  servers : list loc;
  create_behavior_registry : BehaviorRegistry
}.

(** The collection, the [Server] objects allocated so far (a reference is
    an index in [heap]) and the random source. *)
Record World : Type := {
  collection : RegionalServerCollection;
  heap : list Server;
  entropy : Entropy
}.

Definition with_clock (c : Clock) (w : World) : World :=
  {| collection :=
       {| tenant_id := tenant_id (collection w);
          region_name := region_name (collection w);
          clock := c;
          servers := servers (collection w);
          create_behavior_registry := create_behavior_registry (collection w) |};
     heap := heap w; entropy := entropy w |}.

Definition with_servers (l : list loc) (w : World) : World :=
  {| collection :=
       {| tenant_id := tenant_id (collection w);
          region_name := region_name (collection w);
          clock := clock (collection w);
          servers := l;
          create_behavior_registry := create_behavior_registry (collection w) |};
     heap := heap w; entropy := entropy w |}.

Definition with_heap (h : list Server) (w : World) : World :=
  {| collection := collection w; heap := h; entropy := entropy w |}.

Definition with_entropy (e : Entropy) (w : World) : World :=
  {| collection := collection w; heap := heap w; entropy := e |}.

(** Running a scheduled closure. *)
Definition run_callback (f : Callback) (h : list Server) : list Server :=
  match f with
  | setattr_status server value => alter (set_status value) server h
  end.

(** Running calls one after the other. *)
Definition run_calls (cs : list DelayedCall) (h : list Server) : list Server :=
  fold_left (fun h c => run_callback (func c) h) cs h.

(** A call is due when the clock reads its time or more, in the order of
    floats: a time that is not a number is never due, and nothing is due
    on a clock whose reading is not a number. *)
Definition due (now : float) (c : DelayedCall) : bool := (time c <=? now)%float.

(** Modelled from the spec: advancing the Virtual Clock, which the test
    harness does, adds the amount to its reading, a sum of floats, and
    fires the scheduled calls that have become due, in the order of the
    sequence; the others stay scheduled.  The sequence is in the order of
    the times as long as these are numbers, so that the due calls are then
    the ones at its front; the statements on runs are about clocks on which
    no call is scheduled for a time that is not a number, see [timely]. *)
Definition advance (amount : float) (w : World) : World :=
  let now := (rightNow (clock (collection w)) + amount)%float in
  let cs := calls (clock (collection w)) in
  with_heap (run_calls (List.filter (due now) cs) (heap w))
    (with_clock {| rightNow := now;
                   calls := List.filter (fun c => negb (due now c)) cs |} w).

(** ** Computations on the store that may raise

    An exception does not undo the effects that came before it, so a
    computation returns the store it reached in both cases. *)
Definition M (A : Type) : Type := World -> result A * World.

Definition ret {A} (a : A) : M A := fun w => (Ok a, w).

Definition bind {A B} (m : M A) (k : A -> M B) : M B :=
  fun w => match m w with
           | (Ok a, w') => k a w'
           | (Raise e, w') => (Raise e, w')
           end.

Definition lift {A} (r : result A) : M A := fun w => (r, w).

Definition gets {A} (f : World -> A) : M A := fun w => (Ok (f w), w).

Definition modify (f : World -> World) : M unit := fun w => (Ok tt, f w).

Definition raise {A} (e : exn) : M A := fun w => (Raise e, w).

Notation "'let*' x ':=' m 'in' k" := (bind m (fun x => k))
  (at level 10, x pattern, m at level 100, k at level 200).

(** Reading the object behind a reference.  A reference a program holds
    always denotes an object; the second case is there for totality. *)
Definition deref (l : loc) : M Server :=
  fun w => match heap w !! l with
           | Some s => (Ok s, w)
           | None => (Raise Dangling, w)
           end.

(** [randrange(stop)] on the random source of the store *)
Definition draw (stop : Z) : M Z :=
  fun w => let '(n, e) := randrange stop (entropy w) in (Ok n, with_entropy e w).

(** ** The HTTP request object, as far as the module uses it *)
Record Request : Type := { code : json }.

Definition setResponseCode (c : json) (http : Request) : Request :=
  {| code := c |}.

(** [twisted.web.http.ACCEPTED], [twisted.web.http.NOT_FOUND] *)
Definition ACCEPTED : json := JInt 202.
Definition NOT_FOUND : json := JInt 404.

Section Nova.

Context `{RT : Runtime}.

(** [loads(x)] *)
Definition py_loads (x : json) : result json :=
  match x with
  | JStr s => match loads s with
              | Some v => Ok v
              | None => Raise (ValueError "No JSON object could be decoded")
              end
  | _ => Raise TypeError
  end.

(** [float(x)] *)
Definition py_float (x : json) : result float :=
  match x with
  | JStr s => match float_of_string s with
              | Some f => Ok f
              | None => Raise (ValueError "could not convert string to float")
              end
  | JInt n => float_of_int n
  | JFloat f => Ok f
  | JBool b => Ok (if b then 1 else 0)%float
  | _ => Raise TypeError
  end.

(** A number as the right operand of [+] with a float on the left. *)
Definition py_number (x : json) : result float :=
  match x with
  | JInt n => float_of_int n
  | JFloat f => Ok f
  | JBool b => Ok (if b then 1 else 0)%float
  | _ => Raise TypeError
  end.

(** An argument of [str.format] under a plain replacement field. *)
Definition format_arg (x : json) : string :=
  match x with
  | JStr s => s
  | JInt n => str_of_Z n
  | _ => py_repr x
  end.

Definition static_defaults : list (string * json) :=
  [ ("OS-EXT-STS:power_state", JInt 1);
    ("OS-EXT-STS:task_state", JNull);
    ("accessIPv4", JStr "198.101.241.238");
    ("accessIPv6", JStr "2001:4800:780e:0510:d87b:9cbc:ff04:513a");
    ("key_name", JNull);
    ("hostId", JStr "33ccb6c82f3625748b6f2338f54d8e9df07cc583251e001355569056");
    ("progress", JInt 100);
    ("user_id", JStr "170454") ].

(** [template.update({...})] *)
Definition dict_update (d new : list (string * json)) : list (string * json) :=
  fold_left (fun acc kv => dict_set acc (fst kv) (snd kv)) new d.

Section Payloads.

Variable tenant_id : string.
Variable absolutize_url : string -> string.

Definition addresses_json (self : Server) : json :=
  JObj [ ("private", JArr (map address_json (private_ips self)));
         ("public", JArr (map address_json (public_ips self))) ].

Definition links_json (self : Server) : json :=
  JArr [ JObj [ ("href", JStr (absolutize_url
                   ("v2/" ++ tenant_id ++ "/servers/" ++ server_id self)));
                ("rel", JStr "self") ];
         JObj [ ("href", JStr (absolutize_url
                   (tenant_id ++ "/servers/" ++ server_id self)));
                ("rel", JStr "bookmark") ] ].

Definition brief_json (self : Server) : json :=
  JObj [ ("name", server_name self);
         ("links", links_json self);
         ("id", JStr (server_id self)) ].

(** The value under ["image"] in [detail_json]. *)
Definition image_json (self : Server) : json :=
  match image_ref self with
  | JNull => JStr ""
  | _ =>
      JObj [ ("id", image_ref self);
             ("links", JArr [ JObj [
                ("href", JStr (absolutize_url
                   (tenant_id ++ "/images/" ++ format_arg (flavor_ref self))));
                ("rel", JStr "bookmark") ] ]) ]
  end.

(** [detail_json]: the two timestamps are made first of what can raise,
    [created] before [updated]. *)
Definition detail_json (self : Server) : result json :=
  result_bind (seconds_to_timestamp (creation_time self)) (fun created =>
  result_bind (seconds_to_timestamp (update_time self)) (fun updated =>
  Ok (JObj (dict_update static_defaults
    [ ("id", JStr (server_id self));
      ("OS-DCF:diskConfig", disk_config self);
      ("OS-EXT-STS:vm_state", JStr (status self));
      ("addresses", addresses_json self);
      ("created", JStr created);
      ("updated", JStr updated);
      ("flavor", JObj [
         ("id", flavor_ref self);
         ("links", JArr [ JObj [
            ("href", JStr (absolutize_url
               (tenant_id ++ "/flavors/" ++ format_arg (flavor_ref self))));
            ("rel", JStr "bookmark") ] ]) ]);
      ("image", image_json self);
      ("links", links_json self);
      ("metadata", metadata self);
      ("name", server_name self);
      ("tenant_id", JStr tenant_id);
      ("status", JStr (status self)) ])))).

Definition creation_response_json (self : Server) : json :=
  JObj [ ("server", JObj [
     ("OS-DCF:diskConfig", disk_config self);
     ("id", JStr (server_id self));
     ("links", links_json self);
     ("adminPass", JStr (admin_password self)) ]) ].

End Payloads.

(** ** Behavior creators *)

(** [default_with_hook(function)] *)
Definition default_with_hook (function : Hook) : Behavior := hooked function.

(** [create_fail_behavior(parameters)] *)
Definition create_fail_behavior (parameters : json) : result Behavior :=
  result_bind (py_get parameters "code" (JInt 500)) (fun status_code =>
  result_bind (py_get parameters "message" (JStr "Server creation failed."))
    (fun failure_message =>
  Ok (fail_without_creating status_code failure_message))).

(** [create_building_behavior(parameters)] *)
Definition create_building_behavior (parameters : json) : result Behavior :=
  result_bind (py_getitem parameters "duration") (fun duration =>
  Ok (default_with_hook (set_building duration))).

(** [create_error_status_behavior()] *)
Definition create_error_status_behavior : Behavior :=
  default_with_hook set_error.

(** [metadata_to_creation_behavior(metadata)]; [Ok None] is the [None] it
    returns when no key is recognised. *)
Definition metadata_to_creation_behavior (metadata : json)
  : result (option Behavior) :=
  result_bind (py_contains "create_server_failure" metadata) (fun has_failure =>
  if has_failure : bool then
    result_bind (py_getitem metadata "create_server_failure") (fun v =>
    result_bind (py_loads v) (fun parameters =>
    result_bind (create_fail_behavior parameters) (fun b => Ok (Some b))))
  else
  result_bind (py_contains "server_building" metadata) (fun has_building =>
  if has_building : bool then
    result_bind (py_getitem metadata "server_building") (fun v =>
    result_bind (py_float v) (fun d =>
    result_bind (create_building_behavior (JObj [("duration", JFloat d)]))
      (fun b => Ok (Some b))))
  else
  result_bind (py_contains "server_error" metadata) (fun has_error =>
  if has_error : bool then Ok (Some create_error_status_behavior)
  else Ok None))).

(** ** Criteria *)

(** Modelled from the spec: [regexp_predicate] of [mimic.model.behaviors]:
    a regular-expression match against a string attribute. *)
Definition regexp_predicate (value : string) (attribute : json) : result bool :=
  if re_compiles value then
    match attribute with
    | JStr s => Ok (re_match value s)
    | _ => Raise TypeError
    end
  else Raise ReError.

Definition server_name_criterion (value : string) : Criterion :=
  {| name := "server_name"; predicate := regexp_predicate value |}.

(** The loop of the predicate of [metadata_criterion]: for each pair the
    pattern is compiled, then [attribute.get(k, "")] is looked up, then
    matched. *)
Fixpoint metadata_predicate (value : list (string * string)) (attribute : json)
  : result bool :=
  match value with
  | [] => Ok true
  | (k, v) :: rest =>
      if re_compiles v then
        result_bind (py_get attribute k (JStr "")) (fun subject =>
        match subject with
        | JStr s =>
            if re_match v s then metadata_predicate rest attribute
            else Ok false
        | _ => Raise TypeError
        end)
      else Raise ReError
  end.

Definition metadata_criterion (value : list (string * string)) : Criterion :=
  {| name := "metadata"; predicate := metadata_predicate value |}.

(** ** The behavior registry *)

(** Modelled from the spec: evaluation of one criterion against an
    attribute bundle; an attribute the bundle does not have is taken as
    absent. *)
Definition evaluate (c : Criterion) (attributes : list (string * json))
  : result bool :=
  predicate c (match dict_lookup attributes (name c) with
               | Some v => v
               | None => JNull
               end).

(** Modelled from the spec: all criteria of an entry evaluate true. *)
Fixpoint all_criteria (cs : list Criterion) (attributes : list (string * json))
  : result bool :=
  match cs with
  | [] => Ok true
  | c :: rest =>
      result_bind (evaluate c attributes) (fun b =>
      if b : bool then all_criteria rest attributes else Ok false)
  end.

(** Modelled from the spec: dispatch scans the entries in registration order
    and returns the first whose criteria all evaluate true, the default
    behavior if none does. *)
Fixpoint scan_entries (entries : list (Behavior * list Criterion))
    (attributes : list (string * json)) : result Behavior :=
  match entries with
  | [] => Ok default_behavior
  | (b, cs) :: rest =>
      result_bind (all_criteria cs attributes) (fun ok =>
      if ok : bool then Ok b else scan_entries rest attributes)
  end.

Definition behavior_for_attributes (r : BehaviorRegistry)
    (attributes : list (string * json)) : result Behavior :=
  scan_entries (registered_behaviors r) attributes.

(** ** Creating a server *)

(** [disk_config in ["AUTO", "MANUAL"]] *)
Definition auto_or_manual (disk_config : json) : bool :=
  match disk_config with
  | JStr s => String.eqb s "AUTO" || String.eqb s "MANUAL"
  | _ => false
  end.

(** The default of the [ipsegment] parameter: [lambda: randrange(255)]. *)
Definition default_ipsegment : M Z := draw 255.

(** [Server.from_creation_request_json(collection, creation_json, ipsegment)];
    the attribute values are computed in the order of the keyword
    arguments of the constructor call. *)
Definition from_creation_request_json (creation_json : json) (ipsegment : M Z)
  : M loc :=
  let* now := gets (fun w => seconds (clock (collection w))) in
  let* server_json := lift (py_getitem creation_json "server") in
  let* given := lift (py_get server_json "OS-DCF:diskConfig" JNull) in
  let disk_config := py_or given (JStr "AUTO") in
  if negb (auto_or_manual disk_config) then
    raise (ValueError "OS-DCF:diskConfig not either AUTO or MANUAL")
  else
  (* the keyword arguments of [cls(...)], left to right *)
      let* server_name := lift (py_getitem server_json "name") in
      let* r := draw 9999999999 in
      let* md := lift (py_get server_json "metadata" JNull) in
      let* a := ipsegment in
      let* b := ipsegment in
      let* c := ipsegment in
      let* flavor_ref := lift (py_getitem server_json "flavorRef") in
      let* given_image := lift (py_getitem server_json "imageRef") in
      let* admin_password :=
        (fun w => let '(p, e) := random_string 12 (entropy w) in
                  (Ok p, with_entropy e w)) in
      let self :=
        {| server_name := server_name;
           server_id := "test-server" ++ str_of_Z r ++ "-id-" ++ str_of_Z r;
           metadata := py_or md (JObj []);
           creation_time := now;
           update_time := now;
           private_ips :=
             [ IPv4Address ("10.180." ++ str_of_Z a ++ "." ++ str_of_Z b) ];
           public_ips :=
             [ IPv4Address ("198.101.241." ++ str_of_Z c);
               IPv6Address "2001:4800:780e:0510:d87b:9cbc:ff04:513a" ];
           creation_request_json := creation_json;
           flavor_ref := flavor_ref;
           image_ref := py_or given_image (JStr "");
           disk_config := disk_config;
           status := "ACTIVE";
           admin_password := admin_password |} in
      let* l := gets (fun w => length (heap w)) in
      let* _ := modify (fun w => with_heap (heap w ++ [self]) w) in
      let* _ := modify (fun w =>
                  with_servers (servers (collection w) ++ [l]) w) in
      ret l.

(** The functions handed to [default_with_hook]. *)
Definition run_hook (function : Hook) (server : loc) : M unit :=
  match function with
  | set_building duration =>
      let* _ := modify (fun w =>
                  with_heap (alter (set_status "BUILD") server (heap w)) w) in
      let* delay := lift (py_number duration) in
      modify (fun w =>
        with_clock (callLater delay (setattr_status server "ACTIVE")
                      (clock (collection w))) w)
  | set_error =>
      modify (fun w => with_heap (alter (set_status "ERROR") server (heap w)) w)
  end.

(** [default_create_behavior(collection, http, json, absolutize_url,
    ipsegment, hook)] *)
Definition default_create_behavior (http : Request) (creation_json : json)
    (absolutize_url : string -> string) (ipsegment : M Z)
    (hook : option Hook) : M (string * Request) :=
  let* new_server := from_creation_request_json creation_json ipsegment in
  let* _ := match hook with
            | Some function => run_hook function new_server
            | None => ret tt
            end in
  let* self := deref new_server in
  let* tenant := gets (fun w => tenant_id (collection w)) in
  let response := creation_response_json tenant absolutize_url self in
  ret (dumps response, setResponseCode ACCEPTED http).

(** Modelled from the spec: [invalid_resource] of [mimic.util.helper], which
    is not part of the sources: an error payload embedding the code and the
    message. *)
Definition invalid_resource (message response_code : json) : json :=
  JObj [("message", message); ("code", response_code)].

(** Calling a behavior: [behavior(collection, http, json, absolutize_url)]. *)
Definition call_behavior (behavior : Behavior) (http : Request)
    (creation_json : json) (absolutize_url : string -> string)
  : M (string * Request) :=
  match behavior with
  | default_behavior =>
      default_create_behavior http creation_json absolutize_url
        default_ipsegment None
  | hooked function =>
      default_create_behavior http creation_json absolutize_url
        default_ipsegment (Some function)
  | fail_without_creating status_code failure_message =>
      ret (dumps (invalid_resource failure_message status_code),
           setResponseCode status_code http)
  end.

(** ** The operations of [RegionalServerCollection] *)

(** [self.server_by_id(server_id)]: the first server of the sequence with
    that id.  A reference that denotes no object would be passed over; a
    well-formed store has none. *)
Fixpoint find_by_id (h : list Server) (refs : list loc) (id : string)
  : option loc :=
  match refs with
  | [] => None
  | l :: rest =>
      match h !! l with
      | Some server =>
          if String.eqb (server_id server) id then Some l
          else find_by_id h rest id
      | None => find_by_id h rest id
      end
  end.

Definition server_by_id (id : string) (w : World) : option loc :=
  find_by_id (heap w) (servers (collection w)) id.

(** [self.request_creation(creation_http_request, creation_json,
    absolutize_url)] *)
Definition request_creation (creation_http_request : Request)
    (creation_json : json) (absolutize_url : string -> string)
  : M (string * Request) :=
  let* server_part := lift (py_get creation_json "server" (JObj [])) in
  let* md := lift (py_get server_part "metadata" (JObj [])) in
  let* override := lift (metadata_to_creation_behavior md) in
  let* behavior :=
    match override with
    | Some b => ret b
    | None =>
        let* tenant := gets (fun w => tenant_id (collection w)) in
        let* server_json := lift (py_getitem creation_json "server") in
        let* server_name := lift (py_getitem server_json "name") in
        let* server_json' := lift (py_getitem creation_json "server") in
        let* md' := lift (py_get server_json' "metadata" JNull) in
        let* registry :=
          gets (fun w => create_behavior_registry (collection w)) in
        lift (behavior_for_attributes registry
                [ ("tenant_id", JStr tenant);
                  ("server_name", server_name);
                  ("metadata", md') ])
    end in
  call_behavior behavior creation_http_request creation_json absolutize_url.

(** [self.request_read(http_get_request, server_id, absolutize_url)] *)
Definition request_read (http_get_request : Request) (id : string)
    (absolutize_url : string -> string) : M (option string * Request) :=
  let* found := gets (server_by_id id) in
  match found with
  | None => ret (None, setResponseCode (JInt 404) http_get_request)
  | Some l =>
      let* server := deref l in
      let* tenant := gets (fun w => tenant_id (collection w)) in
      let* detail := lift (detail_json tenant absolutize_url server) in
      ret (Some (dumps (JObj [("server", detail)])), http_get_request)
  end.

(** [self.request_ips(http_get_ips_request, server_id)] *)
Definition request_ips (http_get_ips_request : Request) (id : string)
  : M (option string * Request) :=
  let http := setResponseCode (JInt 200) http_get_ips_request in
  let* found := gets (server_by_id id) in
  match found with
  | None => ret (None, setResponseCode NOT_FOUND http)
  | Some l =>
      let* server := deref l in
      ret (Some (dumps (JObj [("addresses", addresses_json server)])), http)
  end.

(** The payload of one server in a list. *)
Definition list_item (tenant : string) (absolutize_url : string -> string)
    (include_details : bool) (server : Server) : result json :=
  if include_details then detail_json tenant absolutize_url server
  else Ok (brief_json tenant absolutize_url server).

(** The list comprehension of [request_list]: for each server in turn the
    filter is tested, then the payload is made. *)
Fixpoint list_payloads (tenant : string) (absolutize_url : string -> string)
    (include_details : bool) (filter_name : string)
    (h : list Server) (refs : list loc) : result (list json) :=
  match refs with
  | [] => Ok []
  | l :: rest =>
      match h !! l with
      | None => Raise Dangling
      | Some server =>
          result_bind (py_contains filter_name (server_name server)) (fun keep =>
          if keep : bool then
            result_bind (list_item tenant absolutize_url include_details server)
              (fun item =>
            result_bind (list_payloads tenant absolutize_url include_details
                           filter_name h rest) (fun items => Ok (item :: items)))
          else list_payloads tenant absolutize_url include_details
                 filter_name h rest)
      end
  end.

(** [self.request_list(http_get_request, include_details, absolutize_url,
    name)] *)
Definition request_list (http_get_request : Request) (include_details : bool)
    (absolutize_url : string -> string) (filter_name : string)
  : M (string * Request) :=
  let* tenant := gets (fun w => tenant_id (collection w)) in
  let* items := (fun w =>
    (list_payloads tenant absolutize_url include_details filter_name
       (heap w) (servers (collection w)), w)) in
  ret (dumps (JObj [("servers", JArr items)]), http_get_request).

(** [self.servers.remove(server)]: the first element equal to the server
    goes.  Servers compare by their attributes; an element equal to the
    server has its id, and the server is the first of the sequence with
    that id, so the element that goes is the server itself. *)
Fixpoint remove_first (l : loc) (refs : list loc) : list loc :=
  match refs with
  | [] => []
  | l' :: rest => if Nat.eqb l' l then rest else l' :: remove_first l rest
  end.

(** [self.request_delete(http_delete_request, server_id)] *)
Definition request_delete (http_delete_request : Request) (id : string)
  : M (string * Request) :=
  let* found := gets (server_by_id id) in
  match found with
  | None => ret ("", setResponseCode (JInt 404) http_delete_request)
  | Some l =>
      let really_delete : M (string * Request) :=
        let* _ := modify (fun w =>
                    with_servers (remove_first l (servers (collection w))) w) in
        ret ("", setResponseCode (JInt 204) http_delete_request) in
      let* server := deref l in
      let* has_failure :=
        lift (py_contains "delete_server_failure" (metadata server)) in
      if has_failure : bool then
        let* v := lift (py_getitem (metadata server) "delete_server_failure") in
        let* srvfail := lift (py_loads v) in
        let* times := lift (py_getitem srvfail "times") in
        if py_truthy times then
          let* times' := lift (py_decrement times) in
          let* srvfail' := lift (py_setitem srvfail "times" times') in
          let* md' := lift (py_setitem (metadata server) "delete_server_failure"
                              (JStr (dumps srvfail'))) in
          let* _ := modify (fun w =>
                      with_heap (alter (set_metadata md') l (heap w)) w) in
          ret ("", setResponseCode (JInt 500) http_delete_request)
        else really_delete
      else really_delete
  end.

End Nova.

(** ** Well-formed requests

    The creation request of the external interface:
    [{server: {name: string (required), metadata: mapping<string,string>
    (optional), flavorRef: string (required), imageRef: string (nullable),
    "OS-DCF:diskConfig": "AUTO"|"MANUAL" (optional)}}]. *)

Definition is_string (j : json) : bool :=
  match j with JStr _ => true | _ => false end.

Definition string_or_null (j : json) : bool :=
  match j with JStr _ | JNull => true | _ => false end.

Definition string_mapping (j : json) : bool :=
  match j with
  | JObj kvs => forallb (fun kv => is_string (snd kv)) kvs
  | _ => false
  end.

Definition optional (check : json -> bool) (o : option json) : bool :=
  match o with Some v => check v | None => true end.

Definition required (check : json -> bool) (o : option json) : bool :=
  match o with Some v => check v | None => false end.

(** Everything but the disk configuration. *)
Definition valid_fields (server_json : list (string * json)) : bool :=
  required is_string (dict_lookup server_json "name")
  && optional string_mapping (dict_lookup server_json "metadata")
  && required is_string (dict_lookup server_json "flavorRef")
  && required string_or_null (dict_lookup server_json "imageRef").

Definition valid_server_json (server_json : list (string * json)) : bool :=
  valid_fields server_json
  && optional auto_or_manual (dict_lookup server_json "OS-DCF:diskConfig").

Definition server_json_of (creation_json : json) : option (list (string * json)) :=
  match creation_json with
  | JObj kvs => match dict_lookup kvs "server" with
                | Some (JObj server_json) => Some server_json
                | _ => None
                end
  | _ => None
  end.

Definition valid_request (creation_json : json) : bool :=
  match server_json_of creation_json with
  | Some server_json => valid_server_json server_json
  | None => false
  end.

(** The metadata mapping of a request, empty when it has none. *)
Definition metadata_of (creation_json : json) : list (string * json) :=
  match server_json_of creation_json with
  | Some server_json => match dict_lookup server_json "metadata" with
                        | Some (JObj md) => md
                        | _ => []
                        end
  | None => []
  end.

Definition has_key (kvs : list (string * json)) (k : string) : bool :=
  match dict_lookup kvs k with Some _ => true | None => false end.

(** No key of the metadata asks for an override. *)
Definition no_override (md : list (string * json)) : bool :=
  negb (has_key md "create_server_failure")
  && negb (has_key md "server_building")
  && negb (has_key md "server_error").

(** The value [from_creation_request_json] binds to [disk_config]. *)
Definition chosen_disk_config (server_json : list (string * json)) : json :=
  py_or (match dict_lookup server_json "OS-DCF:diskConfig" with
         | Some v => v
         | None => JNull
         end) (JStr "AUTO").

(** The attribute bundle [request_creation] hands to the registry. *)
Definition creation_attributes (tenant : string)
    (server_json : list (string * json)) : list (string * json) :=
  [ ("tenant_id", JStr tenant);
    ("server_name", match dict_lookup server_json "name" with
                    | Some v => v
                    | None => JNull
                    end);
    ("metadata", match dict_lookup server_json "metadata" with
                 | Some v => v
                 | None => JNull
                 end) ].

(** ** Well-formed stores *)

Definition target (c : DelayedCall) : loc :=
  match func c with setattr_status server _ => server end.

Definition status_at (w : World) (l : loc) : option string :=
  status <$> heap w !! l.

Definition id_at (w : World) (l : loc) : option string :=
  server_id <$> heap w !! l.

(** What holds of the store between two operations: the collection holds
    each of its servers once and only servers that exist; there is at most
    one scheduled call per server, each the transition to [ACTIVE] of a
    server that is in [BUILD]. *)
Record wf (w : World) : Prop := {
  wf_nodup : NoDup (servers (collection w));
  wf_bound : Forall (fun l => l < length (heap w)) (servers (collection w));
  wf_targets : NoDup (target <$> calls (clock (collection w)));
  wf_pending : Forall (fun c => func c = setattr_status (target c) "ACTIVE"
                                /\ status_at w (target c) = Some "BUILD")
                 (calls (clock (collection w)))
}.

(** A collection as it is constructed: no servers, nothing scheduled. *)
Definition empty_world (tenant region : string) (now : float)
    (registry : BehaviorRegistry) (e : Entropy) : World :=
  {| collection := {| tenant_id := tenant; region_name := region;
                      clock := {| rightNow := now; calls := [] |};
                      servers := [];
                      create_behavior_registry := registry |};
     heap := []; entropy := e |}.

(** The identifiers of the servers of the collection, in its order. *)
Definition collection_ids (w : World) : list string :=
  omap (id_at w) (servers (collection w)).

(** A check of [wf] that computes. *)
Fixpoint distinct (l : list nat) : bool :=
  match l with
  | [] => true
  | x :: rest => negb (existsb (Nat.eqb x) rest) && distinct rest
  end.

Definition pending_build (w : World) (c : DelayedCall) : bool :=
  match func c with
  | setattr_status l v =>
      String.eqb v "ACTIVE"
      && match status_at w l with
         | Some st => String.eqb st "BUILD"
         | None => false
         end
  end.

Definition wf_check (w : World) : bool :=
  distinct (servers (collection w))
  && forallb (fun l => Nat.ltb l (length (heap w))) (servers (collection w))
  && distinct (target <$> calls (clock (collection w)))
  && forallb (pending_build w) (calls (clock (collection w))).

(** ** The effects of the requests on the store *)

(** What a creation leaves behind: a new object at the end of the heap and
    its reference at the end of the collection. *)
Definition appended (s : Server) (e : Entropy) (w : World) : World :=
  with_servers (servers (collection w) ++ [length (heap w)])
    (with_heap (heap w ++ [s]) (with_entropy e w)).

(** What the hook of a [build] behavior adds to a creation: the call that
    takes the new server to [ACTIVE]. *)
Definition scheduled (delay : float) (s : Server) (e : Entropy) (w : World) : World :=
  with_clock (callLater delay (setattr_status (length (heap w)) "ACTIVE")
                (clock (collection w)))
    (appended s e w).

(** The call the hook of a [build] behavior schedules for the server it is
    given. *)
Definition build_call (now delay : float) (l : loc) : DelayedCall :=
  {| time := (now + delay)%float; func := setattr_status l "ACTIVE" |}.

(** The effects a creation request can have on the store. *)
Inductive creation_effect (w : World) : World -> Prop :=
| effect_none e :
    creation_effect w (with_entropy e w)
| effect_created s e :
    status s = "ACTIVE" \/ status s = "ERROR" \/ status s = "BUILD" ->
    creation_effect w (appended s e w)
| effect_scheduled delay s e :
    status s = "BUILD" ->
    creation_effect w (scheduled delay s e w).

(** The effects a delete request can have on the store. *)
Inductive delete_effect (w : World) : World -> Prop :=
| effect_kept :
    delete_effect w w
| effect_counted l md :
    delete_effect w (with_heap (alter (set_metadata md) l (heap w)) w)
| effect_removed l :
    delete_effect w (with_servers (remove_first l (servers (collection w))) w).

(** ** The override resolver and registry dispatch, as specified *)

(** The resolver in the words of the specification: the three recognised
    keys in fixed priority order, each routed to its creator. *)
Definition resolve_by_priority `{RT : Runtime} (md : list (string * json))
  : result (option Behavior) :=
  match dict_lookup md "create_server_failure" with
  | Some v =>
      result_bind (py_loads v) (fun parameters =>
      result_bind (create_fail_behavior parameters) (fun b => Ok (Some b)))
  | None =>
      match dict_lookup md "server_building" with
      | Some v =>
          result_bind (py_float v) (fun duration =>
          Ok (Some (hooked (set_building (JFloat duration)))))
      | None =>
          match dict_lookup md "server_error" with
          | Some _ => Ok (Some (hooked set_error))
          | None => Ok None
          end
      end
  end.

(** Registry dispatch for a request, then the call of the behavior found. *)
Definition dispatch_through_registry `{RT : Runtime} (http : Request)
    (creation_json : json) (server_json : list (string * json))
    (absolutize_url : string -> string) : M (string * Request) :=
  fun w =>
    match behavior_for_attributes (create_behavior_registry (collection w))
            (creation_attributes (tenant_id (collection w)) server_json) with
    | Ok b => call_behavior b http creation_json absolutize_url w
    | Raise x => (Raise x, w)
    end.

(** ** Runs

    What can happen to a collection between two observations: the requests
    it serves and the advances of its clock. *)
Inductive Action : Type :=
| do_creation (http : Request) (creation_json : json)
    (absolutize_url : string -> string)
| do_delete (http : Request) (id : string)
| do_read (http : Request) (id : string) (absolutize_url : string -> string)
| do_ips (http : Request) (id : string)
| do_list (http : Request) (include_details : bool)
    (absolutize_url : string -> string) (filter_name : string)
| do_advance (amount : float).

(** The store an action leaves, whether the request returns or raises. *)
Definition perform `{RT : Runtime} (a : Action) (w : World) : World :=
  match a with
  | do_creation http creation_json absolutize_url =>
      snd (request_creation http creation_json absolutize_url w)
  | do_delete http id => snd (request_delete http id w)
  | do_read http id absolutize_url => snd (request_read http id absolutize_url w)
  | do_ips http id => snd (request_ips http id w)
  | do_list http include_details absolutize_url filter_name =>
      snd (request_list http include_details absolutize_url filter_name w)
  | do_advance amount => advance amount w
  end.

Definition run `{RT : Runtime} (actions : list Action) (w : World) : World :=
  fold_left (fun w a => perform a w) actions w.

(** What the clock reads after each of the advances of a run, when it
    reads [now] at the start: each advance adds its amount to the reading,
    in floating point. *)
Fixpoint readings (now : float) (actions : list Action) : list float :=
  match actions with
  | [] => []
  | do_advance amount :: rest =>
      (now + amount)%float :: readings (now + amount)%float rest
  | _ :: rest => readings now rest
  end.

(** Whether one of the advances of a run leaves the clock at [t] or later. *)
Definition reached (t now : float) (actions : list Action) : bool :=
  existsb (fun reading => (t <=? reading)%float) (readings now actions).

(** Whether every call scheduled on the clock is for a time that is a
    number.  A duration such as ["nan"] schedules a call that is never due
    and that compares with no other, so that the order of the sequence is
    no longer the order of the times. *)
Definition timely (w : World) : bool :=
  forallb (fun c => negb (is_nan (time c))) (calls (clock (collection w))).

(** Whether that holds at the start of a run and after each of its
    actions. *)
Fixpoint timely_run `{RT : Runtime} (actions : list Action) (w : World)
  : bool :=
  timely w
  && match actions with
     | [] => true
     | a :: rest => timely_run rest (perform a w)
     end.

(** Whether the sequence of calls is in the order of the times. *)
Fixpoint in_order (cs : list DelayedCall) : bool :=
  match cs with
  | [] => true
  | c :: rest =>
      forallb (fun c' => (time c <=? time c')%float) rest && in_order rest
  end.

(** The loop of an advance of the clock on a sequence in the order of the
    times: calls are popped from its front and fired while the first one is
    due.  It gives the calls that fire and those that stay. *)
Fixpoint pop_due (now : float) (cs : list DelayedCall)
  : list DelayedCall * list DelayedCall :=
  match cs with
  | [] => ([], [])
  | c :: rest =>
      if due now c
      then let (fired, left) := pop_due now rest in (c :: fired, left)
      else ([], cs)
  end.

(** The amounts of the advances of a run. *)
Fixpoint amounts (actions : list Action) : list float :=
  match actions with
  | [] => []
  | do_advance amount :: rest => amount :: amounts rest
  | _ :: rest => amounts rest
  end.

(** The number a finite float stands for. *)
Definition exact (f : float) : Q :=
  match FloatOps.Prim2SF f with
  | SpecFloat.S754_finite s m e =>
      let n := if s then Zneg m else Zpos m in
      match e with
      | Zneg k => n # (2 ^ k)
      | _ => inject_Z (n * 2 ^ e)
      end
  | _ => 0
  end.

(** The time a run advances the clock by, the sum of the amounts as
    numbers. *)
Definition advanced_by (actions : list Action) : Q :=
  fold_right (fun amount total => (exact amount + total)%Q) 0%Q
    (amounts actions).

(** What a request, as opposed to an advance of the clock, leaves of the
    store: the time, the calls that were scheduled, and the status of the
    servers that exist; the calls it adds are for servers it creates. *)
Record quiet (w w' : World) : Prop := {
  quiet_time : rightNow (clock (collection w')) = rightNow (clock (collection w));
  quiet_calls : calls (clock (collection w)) ⊆ calls (clock (collection w'));
  quiet_status : forall l, l < length (heap w) -> status_at w' l = status_at w l;
  quiet_targets : forall l, l < length (heap w) ->
                    l ∈ target <$> calls (clock (collection w')) ->
                    l ∈ target <$> calls (clock (collection w));
  quiet_heap : length (heap w) <= length (heap w')
}.

(** The stores a collection goes through, from its construction. *)
Inductive reachable `{RT : Runtime} : World -> Prop :=
| reachable_empty tenant region now registry e :
    reachable (empty_world tenant region now registry e)
| reachable_perform w a :
    reachable w -> reachable (perform a w).

(** What a step can do to the servers: an existing one keeps its status or
    goes from [BUILD] to [ACTIVE]; a new one starts in one of the three
    statuses. *)
Definition status_step (w w' : World) : Prop :=
  (forall l s, heap w !! l = Some s ->
     exists s', heap w' !! l = Some s'
                /\ (status s' = status s
                    \/ (status s = "BUILD" /\ status s' = "ACTIVE")))
  /\ (forall l s', heap w !! l = None -> heap w' !! l = Some s' ->
        status s' = "ACTIVE" \/ status s' = "ERROR" \/ status s' = "BUILD").

(** ** A runtime to run the model on concrete inputs

    Stand-ins for the imported functions, on the fragment of their domain
    the examples need: JSON texts without escapes and without fractions,
    integer literals for [float], literal patterns for [re], times counted
    in whole seconds for the timestamps.  The theorems hold for every
    [Runtime]. *)
Module Sample.

Definition dquote : ascii := ascii_of_nat 34.

Definition quoted (s : string) : string :=
  String dquote (s ++ String dquote "").

Fixpoint print_json (j : json) : string :=
  match j with
  | JNull => "null"
  | JBool true => "true"
  | JBool false => "false"
  | JInt n => str_of_Z n
  | JFloat f =>
      match FloatOps.Prim2SF f with
      | SpecFloat.S754_zero _ => "0.0"
      | SpecFloat.S754_infinity s => if s then "-Infinity" else "Infinity"
      | SpecFloat.S754_nan => "NaN"
      | SpecFloat.S754_finite s m e =>
          (if s then "-" else "") ++ str_of_Z (Zpos m) ++ "p" ++ str_of_Z e
      end
  | JStr s => quoted s
  | JArr xs =>
      "[" ++ (fix items (xs : list json) : string :=
                match xs with
                | [] => ""
                | [x] => print_json x
                | x :: rest => print_json x ++ ", " ++ items rest
                end) xs ++ "]"
  | JObj kvs =>
      "{" ++ (fix members (kvs : list (string * json)) : string :=
                match kvs with
                | [] => ""
                | [(k, v)] => quoted k ++ ": " ++ print_json v
                | (k, v) :: rest => quoted k ++ ": " ++ print_json v ++ ", " ++ members rest
                end) kvs ++ "}"
  end.

Definition is_space (c : ascii) : bool :=
  Ascii.eqb c " " || Ascii.eqb c (ascii_of_nat 10) || Ascii.eqb c (ascii_of_nat 9).

Definition is_numeric (c : ascii) : bool :=
  Ascii.eqb c "-" || (48 <=? nat_of_ascii c)%nat && (nat_of_ascii c <=? 57)%nat.

Fixpoint skip_spaces (s : string) : string :=
  match s with
  | String c rest => if is_space c then skip_spaces rest else s
  | EmptyString => s
  end.

(** The characters up to the closing quote, and what follows it. *)
Fixpoint read_string (s : string) : option (string * string) :=
  match s with
  | EmptyString => None
  | String c rest =>
      if Ascii.eqb c dquote then Some ("", rest)
      else if Ascii.eqb c "\" then None
      else match read_string rest with
           | Some (body, rest') => Some (String c body, rest')
           | None => None
           end
  end.

Fixpoint read_numeric (s : string) : string * string :=
  match s with
  | String c rest =>
      if is_numeric c then
        let '(digits, rest') := read_numeric rest in (String c digits, rest')
      else ("", s)
  | EmptyString => ("", s)
  end.

Definition expect (word : string) (v : json) (s : string) : option (json * string) :=
  if String.prefix word s
  then Some (v, String.substring (String.length word)
                  (String.length s - String.length word) s)
  else None.

Fixpoint read_value (fuel : nat) (s : string) : option (json * string) :=
  match fuel with
  | O => None
  | S fuel =>
      match skip_spaces s with
      | EmptyString => None
      | String c rest as s' =>
          if Ascii.eqb c dquote then
            match read_string rest with
            | Some (body, rest') => Some (JStr body, rest')
            | None => None
            end
          else if Ascii.eqb c "[" then
            match skip_spaces rest with
            | String "]" rest' => Some (JArr [], rest')
            | _ => match read_items fuel rest with
                   | Some (xs, rest') => Some (JArr xs, rest')
                   | None => None
                   end
            end
          else if Ascii.eqb c "{" then
            match skip_spaces rest with
            | String "}" rest' => Some (JObj [], rest')
            | _ => match read_members fuel rest with
                   | Some (kvs, rest') => Some (JObj kvs, rest')
                   | None => None
                   end
            end
          else if is_numeric c then
            let '(digits, rest') := read_numeric s' in
            match NilZero.int_of_string digits with
            | Some d => Some (JInt (Z.of_int d), rest')
            | None => None
            end
          else match expect "null" JNull s' with
               | Some r => Some r
               | None =>
                   match expect "true" (JBool true) s' with
                   | Some r => Some r
                   | None => expect "false" (JBool false) s'
                   end
               end
      end
  end
with read_items (fuel : nat) (s : string) : option (list json * string) :=
  match fuel with
  | O => None
  | S fuel =>
      match read_value fuel s with
      | Some (x, rest) =>
          match skip_spaces rest with
          | String "," rest' =>
              match read_items fuel rest' with
              | Some (xs, rest'') => Some (x :: xs, rest'')
              | None => None
              end
          | String "]" rest' => Some ([x], rest')
          | _ => None
          end
      | None => None
      end
  end
with read_members (fuel : nat) (s : string)
  : option (list (string * json) * string) :=
  match fuel with
  | O => None
  | S fuel =>
      match skip_spaces s with
      | String c rest =>
          if Ascii.eqb c dquote then
            match read_string rest with
            | Some (k, rest') =>
                match skip_spaces rest' with
                | String ":" rest'' =>
                    match read_value fuel rest'' with
                    | Some (v, rest3) =>
                        match skip_spaces rest3 with
                        | String "," rest4 =>
                            match read_members fuel rest4 with
                            | Some (kvs, rest5) => Some ((k, v) :: kvs, rest5)
                            | None => None
                            end
                        | String "}" rest4 => Some ([(k, v)], rest4)
                        | _ => None
                        end
                    | None => None
                    end
                | _ => None
                end
            | None => None
            end
          else None
      | EmptyString => None
      end
  end.

Definition read_json (s : string) : option json :=
  match read_value (S (String.length s)) s with
  | Some (v, rest) =>
      match skip_spaces rest with
      | EmptyString => Some v
      | _ => None
      end
  | None => None
  end.

Definition read_float (s : string) : option float :=
  match NilZero.int_of_string s with
  | Some d => match float_of_int (Z.of_int d) with
              | Ok f => Some f
              | Raise _ => Some (if (Z.of_int d <? 0)%Z then neg_infinity
                                 else infinity)
              end
  | None => None
  end.

(** The whole seconds of a time; none for a time that is not finite. *)
Definition whole_seconds (f : float) : option Z :=
  match FloatOps.Prim2SF f with
  | SpecFloat.S754_zero _ => Some 0%Z
  | SpecFloat.S754_finite s m e => Some (Z.shiftl (if s then Zneg m else Zpos m) e)
  | _ => None
  end.

(** Times from year 1 to year 9999 are converted, the others raise. *)
Definition timestamp (f : float) : result string :=
  match whole_seconds f with
  | Some n =>
      if ((-62135596800 <=? n) && (n <? 253402300800))%Z
      then Ok (str_of_Z n)
      else Raise (ValueError "year is out of range")
  | None => Raise (ValueError "cannot convert float to integer")
  end.

Definition repr (j : json) : string :=
  match j with
  | JNull => "None"
  | JBool true => "True"
  | JBool false => "False"
  | _ => print_json j
  end.

Definition alphabet : string :=
  "abcdefghijklmnopqrstuvwxyzABCDEFGHIJKLMNOPQRSTUVWXYZ0123456789".

Fixpoint random_letters (length : nat) (e : Entropy) : string * Entropy :=
  match length with
  | O => ("", e)
  | S length =>
      let '(n, e') := randrange 62 e in
      let '(rest, e'') := random_letters length e' in
      (match String.get (Z.to_nat n) alphabet with
       | Some c => String c rest
       | None => rest
       end, e'')
  end.

Definition runtime : Runtime :=
  {| loads := read_json;
     dumps := print_json;
     float_of_string := read_float;
     re_compiles := fun _ => true;
     re_match := String.prefix;
     py_repr := repr;
     seconds_to_timestamp := timestamp;
     random_string := random_letters |}.

End Sample.

(** ** Concrete requests and a concrete collection *)
Module Scenario.

#[local] Existing Instance Sample.runtime.

Definition absolutize_url (path : string) : string := "http://mimic/" ++ path.

Definition http : Request := {| code := JInt 200 |}.

(** A collection without servers whose random source always draws 7. *)
Definition fresh (registry : BehaviorRegistry) : World :=
  empty_world "tenant" "ORD" 0 registry {| draws := fun _ => 7%Z; cursor := 0 |}.

Definition no_behaviors : BehaviorRegistry := {| registered_behaviors := [] |}.

Definition server_fields : list (string * json) :=
  [ ("name", JStr "web"); ("flavorRef", JStr "2"); ("imageRef", JStr "img") ].

Definition request_with (extra : list (string * json)) : json :=
  JObj [ ("server", JObj (server_fields ++ extra)%list) ].

Definition plain_request : json := request_with [].

Definition building_request : json :=
  request_with [ ("metadata", JObj [("server_building", JStr "5")]) ].

Definition one_second_request : json :=
  request_with [ ("metadata", JObj [("server_building", JStr "1")]) ].

Definition failure_text : string :=
  Sample.print_json (JObj [("code", JInt 503); ("message", JStr "boom")]).

Definition failing_request : json :=
  request_with [ ("metadata", JObj [("create_server_failure", JStr failure_text)]) ].

Definition stubborn_request : json :=
  request_with
    [ ("metadata",
       JObj [("delete_server_failure",
              JStr (Sample.print_json (JObj [("times", JInt 2)])))]) ].

Definition empty_disk_config_request : json :=
  request_with [ ("OS-DCF:diskConfig", JStr "") ].

Definition bad_disk_config_request : json :=
  request_with [ ("OS-DCF:diskConfig", JStr "FAST") ].

(** A registry with one behavior, selected by a metadata criterion. *)
Definition metadata_registry : BehaviorRegistry :=
  {| registered_behaviors :=
       [ (hooked set_error, [ metadata_criterion [("role", "db")] ]) ] |}.

(** The id every server gets from the random source of [fresh]. *)
Definition the_id : string := "test-server7-id-7".

End Scenario.

(** The worlds and the server the scenario goes through. *)
Module Outcome.

Import Scenario.

#[local] Existing Instance Sample.runtime.

(** After the creation of [plain_request] in [fresh no_behaviors]. *)
Definition created : World :=
  snd (request_creation http plain_request absolutize_url (fresh no_behaviors)).

(** After the creation of [building_request]. *)
Definition building : World :=
  snd (request_creation http building_request absolutize_url (fresh no_behaviors)).

(** After the creation of [building_request] and the delete of its server. *)
Definition building_deleted : World :=
  snd (request_delete http the_id building).

(** After the creation of [stubborn_request]. *)
Definition stubborn : World :=
  snd (request_creation http stubborn_request absolutize_url (fresh no_behaviors)).

(** The server [created] holds. *)
Definition web_server : Server :=
  {| server_id := the_id;
     server_name := JStr "web";
     metadata := JObj [];
     creation_time := 0;
     update_time := 0;
     public_ips := [ IPv4Address "198.101.241.7";
                     IPv6Address "2001:4800:780e:0510:d87b:9cbc:ff04:513a" ];
     private_ips := [ IPv4Address "10.180.7.7" ];
     status := "ACTIVE";
     flavor_ref := JStr "2";
     image_ref := JStr "img";
     disk_config := JStr "AUTO";
     admin_password := "hhhhhhhhhhhh";
     creation_request_json := plain_request |}.

End Outcome.

(** ** The servers a collection holds *)

(** The servers of the collection, in the order of its sequence. *)
Definition held (w : World) : list Server :=
  omap (fun l => heap w !! l) (servers (collection w)).

(** The random source after [n] more draws. *)
Definition drawn (n : nat) (e : Entropy) : Entropy :=
  {| draws := draws e; cursor := n + cursor e |}.

(** The values of a sequence of outcomes, or the first exception in it. *)
Fixpoint collect {A} (outcomes : list (result A)) : result (list A) :=
  match outcomes with
  | [] => Ok []
  | r :: rest =>
      result_bind r (fun a =>
      result_bind (collect rest) (fun values => Ok (a :: values)))
  end.

(** [filter_name in server.server_name] for a name that is a string. *)
Definition name_contains (filter_name : string) (s : Server) : bool :=
  match server_name s with
  | JStr n => str_contains filter_name n
  | _ => false
  end.

(** A name on which [in] raises: neither a string, a list nor a dict. *)
Definition unsearchable (j : json) : bool :=
  match j with
  | JNull | JBool _ | JInt _ | JFloat _ => true
  | _ => false
  end.

(** [attribute.get(k, "")] on a mapping of strings. *)
Definition text_at (md : list (string * json)) (k : string) : string :=
  match dict_lookup md k with
  | Some (JStr s) => s
  | _ => ""
  end.

(** The descriptor [{"times": n}] of a delete that is to fail [n] times. *)
Definition failure_descriptor (n : Z) : json := JObj [("times", JInt n)].

(** Whether two outcomes of a request agree but for the body of the
    response: both return with the same request object, or both raise the
    same exception. *)
Definition same_outcome (r r' : result (string * Request)) : Prop :=
  match r, r' with
  | Ok (_, http), Ok (_, http') => http = http'
  | Raise x, Raise x' => x = x'
  | _, _ => False
  end.

(** ** The collections of a tenant *)

(** [GlobalServerCollections]: the regional collections of a tenant, by
    region name.  [global_clock] is the clock the object was given, which
    it hands to the collections it constructs. *)
Record GlobalServerCollections : Type := {
  global_tenant_id : string;
  global_clock : Clock;
  regional_collections : gmap string RegionalServerCollection
}.

(** [self.collection_for_region(region_name)]: the collection returned,
    and the object after the call.  A collection is constructed with the
    defaults of its attributes: no servers, and a registry nothing is
    registered in. *)
Definition collection_for_region (region_name : string)
    (self : GlobalServerCollections)
  : RegionalServerCollection * GlobalServerCollections :=
  match regional_collections self !! region_name with
  | Some c => (c, self)
  | None =>
      let c := {| tenant_id := global_tenant_id self;
                  region_name := region_name;
                  clock := global_clock self;
                  servers := [];
                  create_behavior_registry := {| registered_behaviors := [] |} |} in
      (c, {| global_tenant_id := global_tenant_id self;
             global_clock := global_clock self;
             regional_collections :=
               <[region_name := c]> (regional_collections self) |})
  end.

(** Every collection is filed under its region and has the tenant of the
    object that holds it. *)
Definition filed (self : GlobalServerCollections) : Prop :=
  map_Forall (fun name c => region_name c = name
                            /\ tenant_id c = global_tenant_id self)
    (regional_collections self).

Definition filed_check (self : GlobalServerCollections) : bool :=
  forallb (fun kc => String.eqb (region_name (snd kc)) (fst kc)
                     && String.eqb (tenant_id (snd kc)) (global_tenant_id self))
    (map_to_list (regional_collections self)).

(** More requests, and the collections they leave. *)
Module Cases.

Import Scenario.

#[local] Existing Instance Sample.runtime.

Definition numbered_request : json :=
  JObj [ ("server", JObj [ ("name", JInt 5); ("flavorRef", JStr "2");
                           ("imageRef", JStr "img") ]) ].

Definition flavorless_request : json :=
  JObj [ ("server", JObj [ ("name", JStr "web") ]) ].

Definition imageless_request : json :=
  JObj [ ("server", JObj [ ("name", JStr "web"); ("flavorRef", JStr "2");
                           ("imageRef", JNull) ]) ].

Definition error_request : json :=
  request_with [ ("metadata", JObj [("server_error", JStr "1")]) ].

Definition null_metadata_request : json :=
  request_with [ ("metadata", JNull) ].

Definition unreadable_failure_request : json :=
  request_with [ ("metadata", JObj [("create_server_failure", JStr "oops")]) ].

Definition negative_request : json :=
  request_with
    [ ("metadata",
       JObj [("delete_server_failure",
              JStr (Sample.print_json (JObj [("times", JInt (-1))])))]) ].

Definition garbled_request : json :=
  request_with [ ("metadata", JObj [("delete_server_failure", JStr "oops")]) ].

Definition after (creation_json : json) (w : World) : World :=
  snd (request_creation http creation_json absolutize_url w).

(** Two servers under one id. *)
Definition twins : World := after plain_request Outcome.created.

(** A tenant with a collection in one region. *)
Definition tenant : GlobalServerCollections :=
  {| global_tenant_id := "tenant";
     global_clock := {| rightNow := 0; calls := [] |};
     regional_collections := {[ "ORD" := collection Outcome.created ]} |}.

End Cases.

(** * Properties *)

(** ** Facts that do not depend on the imported functions *)

Lemma run_callback_length f h : length (run_callback f h) = length h.
Proof. destruct f. simpl. apply length_alter. Qed.

Lemma run_calls_length cs h : length (run_calls cs h) = length h.
Proof.
  revert h. induction cs as [|c cs IH]; intros h; [reflexivity|].
  simpl. unfold run_calls in IH. rewrite IH. apply run_callback_length.
Qed.

Lemma run_calls_other cs h l :
  l ∉ target <$> cs -> run_calls cs h !! l = h !! l.
Proof.
  revert h. induction cs as [|c cs IH]; intros h Hl; [reflexivity|].
  simpl in *. unfold run_calls in IH. rewrite IH.
  - unfold target in Hl. destruct (func c) as [l' v]. simpl.
    apply list_lookup_alter_ne. intros ->. apply Hl. left.
  - intros H. apply Hl. right. exact H.
Qed.

Lemma set_status_twice v s : set_status v (set_status v s) = set_status v s.
Proof. reflexivity. Qed.

Lemma run_calls_target cs h l :
  Forall (fun c => func c = setattr_status (target c) "ACTIVE") cs ->
  l ∈ target <$> cs ->
  run_calls cs h !! l = set_status "ACTIVE" <$> h !! l.
Proof.
  revert h. induction cs as [|c cs IH]; intros h Hf Hl.
  - inversion Hl.
  - inversion Hf as [|? ? Hc Hcs]; subst. simpl.
    fold (run_calls cs (run_callback (func c) h)).
    destruct (decide (l ∈ target <$> cs)) as [Hin|Hnin].
    + rewrite (IH _ Hcs Hin).
      rewrite Hc. simpl. destruct (decide (target c = l)) as [->|Hne].
      * rewrite list_lookup_alter_eq. destruct (h !! l); reflexivity.
      * rewrite list_lookup_alter_ne by exact Hne. reflexivity.
    + rewrite run_calls_other by exact Hnin.
      simpl in Hl. apply elem_of_cons in Hl as [->|Hl]; [|contradiction].
      rewrite Hc. simpl. apply list_lookup_alter_eq.
Qed.

Lemma filter_elem (f : DelayedCall -> bool) cs c :
  c ∈ List.filter f cs <-> c ∈ cs /\ f c = true.
Proof. rewrite !list_elem_of_In. apply filter_In. Qed.

Lemma filter_targets f cs l :
  l ∈ target <$> List.filter f cs -> l ∈ target <$> cs.
Proof.
  intros Hin. apply list_elem_of_fmap in Hin as (c & -> & Hc).
  apply list_elem_of_fmap. exists c. split; [reflexivity|].
  apply filter_elem in Hc. apply Hc.
Qed.

Lemma filter_targets_nodup f cs :
  NoDup (target <$> cs) -> NoDup (target <$> List.filter f cs).
Proof.
  induction cs as [|c cs IH]; simpl; [auto|]. intros Hnd.
  apply NoDup_cons in Hnd as [Hc Hnd]. destruct (f c); simpl; [|auto].
  apply NoDup_cons. split; [|auto].
  intros Hin. apply Hc. apply (filter_targets f cs _ Hin).
Qed.

(** With one call per server, a server with a call that passes a test has
    none that fails it. *)
Lemma filter_targets_apart f cs l :
  NoDup (target <$> cs) ->
  l ∈ target <$> List.filter f cs ->
  l ∉ target <$> List.filter (fun c => negb (f c)) cs.
Proof.
  induction cs as [|c cs IH]; simpl; [intros _ H; inversion H|].
  intros Hnd. apply NoDup_cons in Hnd as [Hc Hnd].
  destruct (f c); simpl.
  - intros Hin. apply elem_of_cons in Hin as [->|Hin]; [|auto].
    intros Hin'. apply Hc. apply (filter_targets _ cs _ Hin').
  - intros Hin Hin'. apply elem_of_cons in Hin' as [->|Hin']; [|exact (IH Hnd Hin Hin')].
    apply Hc. apply (filter_targets f cs _ Hin).
Qed.

Lemma advance_servers a w :
  servers (collection (advance a w)) = servers (collection w).
Proof. reflexivity. Qed.

Lemma advance_reading a w :
  rightNow (clock (collection (advance a w)))
  = (rightNow (clock (collection w)) + a)%float.
Proof. reflexivity. Qed.

Lemma wf_advance a w : wf w -> wf (advance a w).
Proof.
  intros Hwf. pose proof (wf_targets w Hwf) as Hnd.
  pose proof (wf_pending w Hwf) as Hp. rewrite Forall_forall in Hp.
  constructor; simpl.
  - apply (wf_nodup w Hwf).
  - rewrite run_calls_length. apply (wf_bound w Hwf).
  - apply filter_targets_nodup, Hnd.
  - apply Forall_forall. intros c Hc.
    pose proof Hc as Hc'. apply filter_elem in Hc' as [Hin _].
    destruct (Hp c Hin) as [Hfc Hst]. split; [exact Hfc|].
    unfold status_at in *. simpl. rewrite run_calls_other; [exact Hst|].
    intros Hdue.
    apply (filter_targets_apart _ _ _ Hnd Hdue).
    apply list_elem_of_fmap. exists c. split; [reflexivity | exact Hc].
Qed.

Lemma advance_unscheduled a w l :
  l ∉ target <$> calls (clock (collection w)) ->
  heap (advance a w) !! l = heap w !! l.
Proof.
  intros Hl. simpl. apply run_calls_other. intros Hin. apply Hl.
  apply (filter_targets _ _ _ Hin).
Qed.

(** A scheduled call fires in the first advance that leaves the clock at
    its time or later, and stays scheduled until then. *)
Lemma advance_pending a w c :
  wf w ->
  c ∈ calls (clock (collection w)) ->
  (due (rightNow (clock (collection w)) + a) c = true ->
     status_at (advance a w) (target c) = Some "ACTIVE"
     /\ target c ∉ target <$> calls (clock (collection (advance a w))))
  /\ (due (rightNow (clock (collection w)) + a) c = false ->
     status_at (advance a w) (target c) = Some "BUILD"
     /\ c ∈ calls (clock (collection (advance a w)))).
Proof.
  intros Hwf Hc. pose proof (wf_targets w Hwf) as Hnd.
  pose proof (wf_pending w Hwf) as Hp.
  assert (Hst : status_at w (target c) = Some "BUILD").
  { rewrite Forall_forall in Hp. apply (Hp c Hc). }
  split; intros Hdue.
  - assert (Hin : target c ∈ target <$>
              List.filter (due (rightNow (clock (collection w)) + a))
                (calls (clock (collection w)))).
    { apply list_elem_of_fmap. exists c. split; [reflexivity|].
      apply filter_elem. auto. }
    split.
    + unfold status_at in *. simpl. rewrite run_calls_target.
      * destruct (heap w !! target c); [reflexivity | discriminate].
      * apply Forall_forall. intros c' Hc'. apply filter_elem in Hc' as [Hc' _].
        rewrite Forall_forall in Hp. apply (Hp c' Hc').
      * exact Hin.
    + simpl. apply (filter_targets_apart _ _ _ Hnd Hin).
  - assert (Hin : c ∈ List.filter
              (fun c => negb (due (rightNow (clock (collection w)) + a) c))
              (calls (clock (collection w)))).
    { apply filter_elem. split; [exact Hc|]. rewrite Hdue. reflexivity. }
    split; [|exact Hin].
    unfold status_at in *. simpl. rewrite run_calls_other; [exact Hst|].
    intros Hfired. apply (filter_targets_apart _ _ _ Hnd Hfired).
    apply list_elem_of_fmap. exists c. split; [reflexivity | exact Hin].
Qed.

(** Across an advance a server keeps its attributes, or goes from [BUILD]
    to [ACTIVE]. *)
Lemma advance_heap a w l s :
  wf w ->
  heap w !! l = Some s ->
  heap (advance a w) !! l = Some s
  \/ (status s = "BUILD" /\ heap (advance a w) !! l = Some (set_status "ACTIVE" s)).
Proof.
  intros Hwf Hs. pose proof (wf_pending w Hwf) as Hp.
  rewrite Forall_forall in Hp. simpl.
  destruct (decide (l ∈ target <$>
              List.filter (due (rightNow (clock (collection w)) + a))
                (calls (clock (collection w))))) as [Hin|Hnin].
  - right.
    pose proof Hin as Hin'.
    apply list_elem_of_fmap in Hin' as (c & -> & Hc).
    apply filter_elem in Hc as [Hc _].
    destruct (Hp c Hc) as [Hf Hst].
    unfold status_at in Hst. rewrite Hs in Hst. injection Hst as Hst.
    split; [exact Hst|]. rewrite run_calls_target.
    + rewrite Hs. reflexivity.
    + apply Forall_forall. intros c' Hc'. apply filter_elem in Hc' as [Hc' _].
      apply (Hp c' Hc').
    + exact Hin.
  - left. rewrite run_calls_other by exact Hnin. exact Hs.
Qed.

Lemma with_entropy_same w : with_entropy (entropy w) w = w.
Proof. destruct w. reflexivity. Qed.

Lemma alter_snoc {A} (f : A -> A) (h : list A) (x : A) :
  alter f (length h) (h ++ [x])%list = (h ++ [f x])%list.
Proof.
  replace (length h) with (length h + 0) by lia.
  rewrite alter_app_r. reflexivity.
Qed.

Lemma lookup_snoc {A} (h : list A) (x : A) : (h ++ [x])%list !! length h = Some x.
Proof. apply list_lookup_middle. reflexivity. Qed.

Lemma insert_call_perm dc cs : insert_call dc cs ≡ₚ dc :: cs.
Proof.
  induction cs as [|c cs IH]; simpl; [reflexivity|].
  destruct (time c <=? time dc)%float; [|reflexivity].
  rewrite IH. apply Permutation_swap.
Qed.

Lemma status_at_appended s e w l :
  l < length (heap w) -> status_at (appended s e w) l = status_at w l.
Proof. intros Hl. unfold status_at. simpl. rewrite lookup_app_l by exact Hl. reflexivity. Qed.

Lemma status_at_new s e w :
  status_at (appended s e w) (length (heap w)) = Some (status s).
Proof. unfold status_at. simpl. rewrite lookup_snoc. reflexivity. Qed.

Lemma status_at_bound w l st : status_at w l = Some st -> l < length (heap w).
Proof.
  unfold status_at. intros H. apply lookup_lt_is_Some.
  destruct (heap w !! l); [eauto | discriminate].
Qed.

Lemma wf_appended s e w : wf w -> wf (appended s e w).
Proof.
  intros Hwf. constructor; simpl.
  - apply NoDup_app. split; [apply (wf_nodup w Hwf)|]. split; [|apply NoDup_singleton].
    intros l Hl Hl'. apply list_elem_of_singleton in Hl'. subst l.
    pose proof (wf_bound w Hwf) as Hb. rewrite Forall_forall in Hb.
    specialize (Hb _ Hl). lia.
  - rewrite length_app. simpl. apply Forall_app. split.
    + eapply Forall_impl; [apply (wf_bound w Hwf)|]. simpl. intros. lia.
    + repeat constructor. lia.
  - apply (wf_targets w Hwf).
  - eapply Forall_impl; [apply (wf_pending w Hwf)|]. simpl.
    intros c [Hf Hst]. split; [exact Hf|].
    rewrite <- Hst. apply (status_at_appended s e w).
    eapply status_at_bound. exact Hst.
Qed.

Lemma wf_scheduled delay s e w :
  wf w -> status s = "BUILD" -> wf (scheduled delay s e w).
Proof.
  intros Hwf Hs. pose proof (wf_appended s e w Hwf) as Hwf'.
  constructor; simpl.
  - apply (wf_nodup _ Hwf').
  - apply (wf_bound _ Hwf').
  - rewrite insert_call_perm. simpl. apply NoDup_cons. split; [|apply (wf_targets w Hwf)].
    intros Hin. apply list_elem_of_fmap in Hin as (c & Hc & Hin).
    pose proof (wf_pending w Hwf) as Hp. rewrite Forall_forall in Hp.
    destruct (Hp c Hin) as [_ Hst]. apply status_at_bound in Hst.
    unfold target in Hc at 1. simpl in Hc. lia.
  - rewrite insert_call_perm. constructor.
    + split; [reflexivity|]. unfold target. simpl.
      change (status_at (appended s e w) (length (heap w)) = Some "BUILD").
      rewrite status_at_new, Hs. reflexivity.
    + exact (wf_pending _ Hwf').
Qed.

Lemma wf_with_entropy e w : wf w -> wf (with_entropy e w).
Proof. intros [H1 H2 H3 H4]. constructor; assumption. Qed.

Lemma wf_creation_effect w w' : wf w -> creation_effect w w' -> wf w'.
Proof.
  intros Hwf [e|s e Hs|delay s e Hs].
  - apply wf_with_entropy, Hwf.
  - apply wf_appended, Hwf.
  - apply wf_scheduled; assumption.
Qed.

Lemma wf_empty_world tenant region now registry e :
  wf (empty_world tenant region now registry e).
Proof. constructor; simpl; constructor. Qed.

Lemma remove_first_subseteq l refs : remove_first l refs ⊆ refs.
Proof.
  induction refs as [|l' refs IH]; simpl; [reflexivity|].
  destruct (Nat.eqb l' l).
  - intros x Hx. right. exact Hx.
  - intros x Hx. apply elem_of_cons in Hx as [->|Hx]; [left | right; auto].
Qed.

Lemma remove_first_nodup l refs : NoDup refs -> NoDup (remove_first l refs).
Proof.
  induction 1 as [|l' refs Hl' Hnd IH]; simpl; [constructor|].
  destruct (Nat.eqb l' l); [exact Hnd|].
  constructor; [|exact IH]. intros Hin. apply Hl'.
  apply (remove_first_subseteq l refs). exact Hin.
Qed.

Lemma remove_first_gone l refs : NoDup refs -> l ∉ remove_first l refs.
Proof.
  induction 1 as [|l' refs Hl' Hnd IH]; simpl; [apply not_elem_of_nil|].
  destruct (Nat.eqb l' l) eqn:E.
  - apply Nat.eqb_eq in E. subst. exact Hl'.
  - apply Nat.eqb_neq in E. intros Hin.
    apply elem_of_cons in Hin as [->|Hin]; [congruence | contradiction].
Qed.

Lemma remove_first_other l l' refs :
  l' <> l -> l' ∈ refs -> l' ∈ remove_first l refs.
Proof.
  intros Hne. induction refs as [|x refs IH]; simpl; [auto|].
  intros Hin. destruct (Nat.eqb x l) eqn:E.
  - apply Nat.eqb_eq in E. subst.
    apply elem_of_cons in Hin as [->|Hin]; [congruence | exact Hin].
  - apply elem_of_cons in Hin as [->|Hin]; [left | right; auto].
Qed.

Lemma status_set_metadata md l (h : list Server) l' :
  status <$> alter (set_metadata md) l h !! l' = status <$> h !! l'.
Proof.
  destruct (decide (l = l')) as [->|Hne].
  - rewrite list_lookup_alter_eq. destruct (h !! l'); reflexivity.
  - rewrite list_lookup_alter_ne by exact Hne. reflexivity.
Qed.

Lemma wf_delete_effect w w' : wf w -> delete_effect w w' -> wf w'.
Proof.
  intros Hwf [|l md|l]; [exact Hwf| |].
  - destruct Hwf as [H1 H2 H3 H4]. constructor; simpl; try assumption.
    + rewrite length_alter. exact H2.
    + eapply Forall_impl; [exact H4|]. simpl. intros c [Hf Hst].
      split; [exact Hf|]. unfold status_at in *. simpl.
      rewrite status_set_metadata. exact Hst.
  - destruct Hwf as [H1 H2 H3 H4]. constructor; simpl; try assumption.
    + apply remove_first_nodup, H1.
    + rewrite Forall_forall in H2 |- *. intros x Hx. apply H2.
      apply (remove_first_subseteq l _ x Hx).
Qed.

Lemma omap_lookup_snoc {B} (f : Server -> B) (h : list Server) s refs :
  Forall (fun l => l < length h) refs ->
  omap (fun l => f <$> (h ++ [s])%list !! l) refs
  = omap (fun l => f <$> h !! l) refs.
Proof.
  induction 1 as [|l refs Hl Hb IH]; [reflexivity|].
  cbn [omap list_omap]. rewrite lookup_app_l by exact Hl.
  destruct (h !! l); simpl; rewrite IH; reflexivity.
Qed.

Lemma collection_ids_appended s e w :
  wf w ->
  collection_ids (appended s e w) = (collection_ids w ++ [server_id s])%list.
Proof.
  intros Hwf. unfold collection_ids, id_at. simpl.
  rewrite omap_app. f_equal.
  - apply omap_lookup_snoc, (wf_bound w Hwf).
  - simpl. rewrite lookup_snoc. reflexivity.
Qed.

Lemma find_by_id_elem h refs id l :
  find_by_id h refs id = Some l -> l ∈ refs.
Proof.
  induction refs as [|l' refs IH]; simpl; [discriminate|].
  destruct (h !! l') as [s|].
  - destruct (String.eqb (server_id s) id).
    + intros [= ->]. left.
    + intros H. right. auto.
  - intros H. right. auto.
Qed.

Lemma find_by_id_some h refs id l :
  find_by_id h refs id = Some l ->
  exists s, h !! l = Some s /\ server_id s = id.
Proof.
  induction refs as [|l' refs IH]; simpl; [discriminate|].
  destruct (h !! l') as [s|] eqn:E; [|exact IH].
  destruct (String.eqb_spec (server_id s) id) as [Hid|_]; [|exact IH].
  intros [= <-]. eauto.
Qed.

Lemma distinct_sound l : distinct l = true -> NoDup l.
Proof.
  induction l as [|x l IH]; simpl; [constructor|].
  intros H. apply andb_prop in H as [Hx Hl]. constructor; [|auto].
  intros Hin. apply negb_true_iff in Hx.
  assert (existsb (Nat.eqb x) l = true); [|congruence].
  apply existsb_exists. exists x. split; [|apply Nat.eqb_refl].
  apply list_elem_of_In. exact Hin.
Qed.

Lemma wf_check_sound w : wf_check w = true -> wf w.
Proof.
  unfold wf_check. intros H.
  apply andb_prop in H as [H H5]. apply andb_prop in H as [H H4].
  apply andb_prop in H as [H1 H2].
  constructor.
  - apply distinct_sound, H1.
  - apply Forall_forall. intros l Hl. rewrite forallb_forall in H2.
    apply Nat.ltb_lt, H2. apply list_elem_of_In. exact Hl.
  - apply distinct_sound, H4.
  - apply Forall_forall. intros c Hc. rewrite forallb_forall in H5.
    specialize (H5 c (proj1 (list_elem_of_In _ _) Hc)).
    unfold pending_build, target in *. destruct (func c) as [l v].
    apply andb_prop in H5 as [Hv Hst]. apply String.eqb_eq in Hv. subst v.
    split; [reflexivity|].
    destruct (status_at w l) as [st|]; [|discriminate].
    apply String.eqb_eq in Hst. congruence.
Qed.

Lemma advance_calls_subseteq a w :
  calls (clock (collection (advance a w))) ⊆ calls (clock (collection w)).
Proof. intros c Hc. simpl in Hc. apply filter_elem in Hc. apply Hc. Qed.

Lemma valid_server_json_disk sj :
  valid_server_json sj = true ->
  valid_fields sj = true /\ auto_or_manual (chosen_disk_config sj) = true.
Proof.
  intros Hv. apply andb_prop in Hv as [Hf Hd]. split; [exact Hf|].
  unfold chosen_disk_config.
  destruct (dict_lookup sj "OS-DCF:diskConfig") as [v|]; [|reflexivity].
  simpl in Hd. unfold py_or.
  destruct v; simpl in Hd; try discriminate.
  destruct (py_truthy (JStr s)); [exact Hd | reflexivity].
Qed.

Lemma valid_fields_metadata sj :
  valid_fields sj = true ->
  optional string_mapping (dict_lookup sj "metadata") = true.
Proof.
  unfold valid_fields. intros Hf.
  apply andb_prop in Hf as [Hf _]. apply andb_prop in Hf as [Hf _].
  apply andb_prop in Hf as [_ Hf]. exact Hf.
Qed.

Lemma build_call_scheduled delay s e w :
  build_call (rightNow (clock (collection w))) delay (length (heap w))
  ∈ calls (clock (collection (scheduled delay s e w))).
Proof. simpl. rewrite insert_call_perm. left. Qed.

Lemma creation_effect_heap w w' :
  creation_effect w w' ->
  (forall l s, heap w !! l = Some s -> heap w' !! l = Some s)
  /\ (forall l s', heap w !! l = None -> heap w' !! l = Some s' ->
        status s' = "ACTIVE" \/ status s' = "ERROR" \/ status s' = "BUILD").
Proof.
  assert (Hnew : forall (h : list Server) s l s',
            h !! l = None -> (h ++ [s])%list !! l = Some s' -> s' = s).
  { intros h s l s' Hnone Hsome. apply lookup_ge_None in Hnone.
    rewrite lookup_app_r in Hsome by exact Hnone.
    destruct (l - length h) as [|n]; simpl in Hsome; [congruence|].
    destruct n; discriminate. }
  intros [e|s e Hs|delay s e Hs]; simpl.
  - split; [auto|]. intros l s' H1 H2. congruence.
  - split.
    + intros l s0 Hl. apply lookup_app_l_Some. exact Hl.
    + intros l s' H1 H2. rewrite (Hnew _ _ _ _ H1 H2). exact Hs.
  - split.
    + intros l s0 Hl. apply lookup_app_l_Some. exact Hl.
    + intros l s' H1 H2. rewrite (Hnew _ _ _ _ H1 H2). auto.
Qed.

Lemma delete_effect_heap w w' :
  delete_effect w w' ->
  (forall l s, heap w !! l = Some s ->
     exists s', heap w' !! l = Some s' /\ status s' = status s)
  /\ (forall l, heap w !! l = None -> heap w' !! l = None).
Proof.
  intros [|l0 md|l0]; simpl.
  - split; [|auto]. intros l s Hl. exists s. auto.
  - split.
    + intros l s Hl. destruct (decide (l0 = l)) as [->|Hne].
      * rewrite list_lookup_alter_eq, Hl. simpl. eauto.
      * rewrite list_lookup_alter_ne by exact Hne. eauto.
    + intros l Hl. destruct (decide (l0 = l)) as [->|Hne].
      * rewrite list_lookup_alter_eq, Hl. reflexivity.
      * rewrite list_lookup_alter_ne by exact Hne. exact Hl.
  - split; [|auto]. intros l s Hl. exists s. auto.
Qed.

Lemma advance_heap_none a w l :
  heap w !! l = None -> heap (advance a w) !! l = None.
Proof.
  intros Hl. apply lookup_ge_None. simpl. rewrite run_calls_length.
  apply lookup_ge_None. exact Hl.
Qed.

Lemma quiet_same w : quiet w w.
Proof. constructor; auto. Qed.

Lemma quiet_creation_effect w w' : creation_effect w w' -> quiet w w'.
Proof.
  intros [e|s e Hs|delay s e Hs].
  - constructor; auto.
  - constructor; simpl; auto.
    + intros l Hl. apply (status_at_appended s e w l Hl).
    + rewrite length_app. lia.
  - constructor; simpl; auto.
    + intros c Hc. rewrite insert_call_perm. right. exact Hc.
    + intros l Hl. apply (status_at_appended s e w l Hl).
    + intros l Hl. rewrite insert_call_perm. simpl. intros Hin.
      apply elem_of_cons in Hin as [Heq|Hin]; [|exact Hin].
      unfold target in Heq. simpl in Heq. lia.
    + rewrite length_app. lia.
Qed.

Lemma quiet_delete_effect w w' : delete_effect w w' -> quiet w w'.
Proof.
  intros [|l0 md|l0]; [apply quiet_same| |].
  - constructor; simpl; auto.
    + intros l _. unfold status_at. simpl. apply status_set_metadata.
    + rewrite length_alter. lia.
  - constructor; simpl; auto.
Qed.

Lemma str_contains_empty s : str_contains "" s = true.
Proof. destruct s; reflexivity. Qed.

Lemma filter_name_contains_empty ss :
  Forall (fun s => is_string (server_name s) = true) ss ->
  List.filter (name_contains "") ss = ss.
Proof.
  induction 1 as [|s ss Hs _ IH]; [reflexivity|].
  cbn [List.filter]. unfold name_contains at 1.
  destruct (server_name s); try discriminate.
  rewrite str_contains_empty. f_equal. exact IH.
Qed.

Lemma py_contains_raises k d x : py_contains k d = Raise x -> x = TypeError.
Proof. destruct d; simpl; congruence. Qed.

Lemma find_by_id_snoc h refs s id :
  Forall (fun l => l < length h) refs ->
  find_by_id (h ++ [s])%list (refs ++ [length h])%list id
  = match find_by_id h refs id with
    | Some l => Some l
    | None => if String.eqb (server_id s) id then Some (length h) else None
    end.
Proof.
  induction 1 as [|l refs Hl Hb IH]; simpl.
  - rewrite lookup_snoc. reflexivity.
  - rewrite lookup_app_l by exact Hl. apply lookup_lt_is_Some in Hl as [s0 Hs0].
    rewrite Hs0. destruct (String.eqb (server_id s0) id); [reflexivity | exact IH].
Qed.

Lemma find_by_id_none h refs id :
  Forall (fun l => l < length h) refs ->
  find_by_id h refs id = None <-> id ∉ omap (fun l => server_id <$> h !! l) refs.
Proof.
  induction 1 as [|l refs Hl Hb IH]; simpl.
  - split; [intros _; apply not_elem_of_nil | reflexivity].
  - apply lookup_lt_is_Some in Hl as [s Hs]. rewrite Hs. simpl.
    destruct (String.eqb_spec (server_id s) id) as [->|Hne].
    + split; [discriminate|]. intros Hnin. exfalso. apply Hnin. left.
    + rewrite IH. split.
      * intros Hnin Hin. apply elem_of_cons in Hin as [->|Hin]; [congruence | auto].
      * intros Hnin Hin. apply Hnin. right. exact Hin.
Qed.

Lemma find_by_id_remove_other h refs l s id id' :
  h !! l = Some s ->
  server_id s = id ->
  id' <> id ->
  find_by_id h (remove_first l refs) id' = find_by_id h refs id'.
Proof.
  intros Hs Hid Hne. induction refs as [|x refs IH]; [reflexivity|].
  simpl. destruct (Nat.eqb_spec x l) as [->|Hx].
  - rewrite Hs. rewrite Hid.
    destruct (String.eqb_spec id id') as [->|_]; [congruence | reflexivity].
  - simpl. destruct (h !! x) as [sx|]; [|exact IH].
    destruct (String.eqb (server_id sx) id'); [reflexivity | exact IH].
Qed.

Lemma find_by_id_remove_same h refs l id :
  Forall (fun l => l < length h) refs ->
  NoDup (omap (fun l => server_id <$> h !! l) refs) ->
  find_by_id h refs id = Some l ->
  find_by_id h (remove_first l refs) id = None.
Proof.
  induction 1 as [|x refs Hx Hb IH]; simpl; [discriminate|].
  apply lookup_lt_is_Some in Hx as [sx Hsx]. rewrite Hsx. simpl.
  intros Hnd. apply NoDup_cons in Hnd as [Hnin Hnd].
  destruct (String.eqb_spec (server_id sx) id) as [Hid|Hne].
  - intros [= <-]. rewrite Nat.eqb_refl.
    apply (find_by_id_none h refs id Hb). rewrite <- Hid. exact Hnin.
  - intros Hfind. destruct (Nat.eqb_spec x l) as [->|Hxl].
    + destruct (find_by_id_some _ _ _ _ Hfind) as (s & Hs & Hid).
      rewrite Hsx in Hs. injection Hs as <-. congruence.
    + simpl. rewrite Hsx.
      destruct (String.eqb_spec (server_id sx) id) as [|_]; [congruence|].
      apply IH; assumption.
Qed.

Lemma appended_unscheduled s e w :
  wf w ->
  length (heap w) ∉ target <$> calls (clock (collection (appended s e w))).
Proof.
  intros Hwf Hin. simpl in Hin. apply list_elem_of_fmap in Hin as (c & Hc & Hin).
  pose proof (wf_pending w Hwf) as Hp. rewrite Forall_forall in Hp.
  destruct (Hp c Hin) as [_ Hst]. apply status_at_bound in Hst. lia.
Qed.

Lemma string_mapping_lookup md k v :
  string_mapping (JObj md) = true ->
  dict_lookup md k = Some v ->
  exists s, v = JStr s.
Proof.
  simpl. induction md as [|[k' v'] md IH]; simpl; [discriminate|].
  intros H. apply andb_prop in H as [Hv Hmd].
  destruct (String.eqb k' k).
  - intros [= <-]. destruct v'; try discriminate. eauto.
  - apply IH, Hmd.
Qed.

Lemma dict_lookup_set kvs k v : dict_lookup (dict_set kvs k v) k = Some v.
Proof.
  induction kvs as [|[k' v'] kvs IH]; simpl.
  - rewrite String.eqb_refl. reflexivity.
  - destruct (String.eqb k' k) eqn:E; simpl; rewrite E; [reflexivity | exact IH].
Qed.

Lemma find_by_id_set_metadata h refs id md l :
  find_by_id (alter (set_metadata md) l h) refs id = find_by_id h refs id.
Proof.
  induction refs as [|x refs IH]; [reflexivity|]. simpl.
  destruct (decide (l = x)) as [->|Hne].
  - rewrite list_lookup_alter_eq. destruct (h !! x) as [s|]; simpl; [|exact IH].
    destruct (String.eqb (server_id s) id); [reflexivity | exact IH].
  - rewrite list_lookup_alter_ne by exact Hne.
    destruct (h !! x) as [s|]; [|exact IH].
    destruct (String.eqb (server_id s) id); [reflexivity | exact IH].
Qed.

(** What the store holds for a server once its metadata dict has become
    [md']: the attribute reads [md'], the request document shows it where it
    shares the dict, the other attributes are as they were. *)
Lemma stored_metadata md' l (h : list Server) server :
  h !! l = Some server ->
  exists server',
    alter (set_metadata md') l h !! l = Some server'
    /\ metadata server' = md'
    /\ creation_request_json server'
       = with_request_metadata md' (creation_request_json server)
    /\ server_id server' = server_id server
    /\ status server' = status server.
Proof.
  intros Hl. exists (set_metadata md' server).
  rewrite list_lookup_alter_eq, Hl. repeat split.
Qed.

Lemma find_by_id_holder h refs id l s :
  l ∈ refs -> h !! l = Some s -> server_id s = id ->
  exists l', find_by_id h refs id = Some l'.
Proof.
  intros Hin Hs Hid. induction refs as [|x refs IH]; [inversion Hin|].
  simpl. apply elem_of_cons in Hin as [<-|Hin].
  - rewrite Hs, Hid, String.eqb_refl. eauto.
  - destruct (h !! x) as [sx|]; [|auto].
    destruct (String.eqb (server_id sx) id); eauto.
Qed.

Lemma str_of_Z_inj n n' : str_of_Z n = str_of_Z n' -> n = n'.
Proof.
  unfold str_of_Z. intros H. apply DecimalZ.to_int_inj.
  assert (Hnn : forall z, Z.to_int z <> Decimal.Pos Decimal.Nil
                          /\ Z.to_int z <> Decimal.Neg Decimal.Nil).
  { intros [|p|p]; simpl; split; try discriminate;
      intros [= Hp]; exact (DecimalPos.Unsigned.to_uint_nonnil p Hp). }
  destruct (Hnn n) as [Hp Hn]. destruct (Hnn n') as [Hp' Hn'].
  pose proof (NilZero.isi _ Hp Hn) as E. pose proof (NilZero.isi _ Hp' Hn') as E'.
  rewrite H in E. congruence.
Qed.

Lemma append_same_length (a b c d : string) :
  String.length a = String.length c -> (a ++ b = c ++ d)%string -> a = c.
Proof.
  revert c. induction a as [|x a IH]; intros [|y c]; simpl; try discriminate.
  - reflexivity.
  - intros [= Hlen] [= -> Happ]. f_equal. apply IH; assumption.
Qed.

Lemma append_length (a b : string) :
  String.length (a ++ b) = String.length a + String.length b.
Proof. induction a as [|x a IH]; simpl; [reflexivity | rewrite IH; reflexivity]. Qed.

Lemma append_inv_head (a b c : string) : (a ++ b = a ++ c)%string -> b = c.
Proof. induction a as [|x a IH]; simpl; [auto | intros [= H]; auto]. Qed.

Lemma server_id_inj r r' :
  "test-server" ++ str_of_Z r ++ "-id-" ++ str_of_Z r
  = "test-server" ++ str_of_Z r' ++ "-id-" ++ str_of_Z r' ->
  r = r'.
Proof.
  intros H. apply str_of_Z_inj.
  assert (H' : str_of_Z r ++ "-id-" ++ str_of_Z r
               = str_of_Z r' ++ "-id-" ++ str_of_Z r').
  { exact (append_inv_head "test-server" _ _ H). }
  apply (append_same_length _ _ _ _) with (2 := H').
  apply (f_equal String.length) in H'.
  rewrite !append_length in H'. simpl in H'. lia.
Qed.

Lemma filed_check_sound self : filed_check self = true -> filed self.
Proof.
  unfold filed_check, filed. rewrite forallb_forall.
  intros H name c Hc. apply elem_of_map_to_list in Hc.
  apply list_elem_of_In in Hc. apply H in Hc. simpl in Hc.
  apply andb_prop in Hc as [H1 H2].
  split; apply String.eqb_eq; assumption.
Qed.

Lemma collection_for_region_again region self :
  collection_for_region region (snd (collection_for_region region self))
  = collection_for_region region self.
Proof.
  unfold collection_for_region.
  destruct (regional_collections self !! region) as [c|] eqn:E; simpl.
  - rewrite E. reflexivity.
  - rewrite lookup_insert_eq. reflexivity.
Qed.

Section Properties.

Context `{RT : Runtime}.

Ltac munfold :=
  unfold default_ipsegment in *;
  unfold bind, lift, gets, modify, ret, raise, deref, draw in *.

Lemma required_inv check o :
  required check o = true -> exists v, o = Some v /\ check v = true.
Proof. destruct o as [v|]; simpl; [eauto | discriminate]. Qed.

Lemma server_json_of_inv cj sj :
  server_json_of cj = Some sj ->
  exists kvs, cj = JObj kvs /\ dict_lookup kvs "server" = Some (JObj sj).
Proof.
  destruct cj as [ | | | | | |kvs]; simpl; try discriminate.
  destruct (dict_lookup kvs "server") as [[ | | | | | |sj']|] eqn:E; try discriminate.
  intros [= ->]. eauto.
Qed.

Lemma metadata_of_valid cj sj :
  server_json_of cj = Some sj ->
  optional string_mapping (dict_lookup sj "metadata") = true ->
  py_or (match dict_lookup sj "metadata" with Some v => v | None => JNull end)
        (JObj []) = JObj (metadata_of cj).
Proof.
  intros Hsj Hmd. unfold metadata_of. rewrite Hsj.
  destruct (dict_lookup sj "metadata") as [[ | | | | | |md]|]; simpl in Hmd;
    try discriminate; try reflexivity.
  destruct md; reflexivity.
Qed.

Lemma from_creation_request_json_ok cj sj w :
  server_json_of cj = Some sj ->
  valid_fields sj = true ->
  auto_or_manual (chosen_disk_config sj) = true ->
  exists s e,
    from_creation_request_json cj default_ipsegment w
    = (Ok (length (heap w)), appended s e w)
    /\ status s = "ACTIVE"
    /\ creation_time s = seconds (clock (collection w))
    /\ update_time s = seconds (clock (collection w))
    /\ server_id s =
         (let r := fst (randrange 9999999999 (entropy w)) in
          "test-server" ++ str_of_Z r ++ "-id-" ++ str_of_Z r)
    /\ metadata s = JObj (metadata_of cj)
    /\ disk_config s = chosen_disk_config sj
    /\ dict_lookup sj "name" = Some (server_name s)
    /\ dict_lookup sj "flavorRef" = Some (flavor_ref s)
    /\ creation_request_json s = cj.
Proof.
  intros Hsj Hv Hd.
  destruct (server_json_of_inv _ _ Hsj) as (kvs & -> & Hk).
  unfold valid_fields in Hv.
  apply andb_prop in Hv as [Hv Himg]. apply andb_prop in Hv as [Hv Hfl].
  apply andb_prop in Hv as [Hname Hmd].
  apply required_inv in Hname as (nm & Hnm & _).
  apply required_inv in Hfl as (fl & Hfl & _).
  apply required_inv in Himg as (img & Himg & _).
  unfold from_creation_request_json. munfold. cbn [py_getitem py_get].
  rewrite Hk. cbn [py_get]. fold (chosen_disk_config sj). rewrite Hd. cbn [negb].
  unfold py_getitem. rewrite Hnm, Hfl, Himg. cbn -[str_of_Z String.append Z.modulo].
  destruct (random_string 12 _) as [p e'] eqn:Ers.
  eexists _, e'. split; [reflexivity|]. cbn -[str_of_Z String.append Z.modulo].
  repeat split; try reflexivity.
  apply (metadata_of_valid (JObj kvs)); assumption.
Qed.

(** Whatever the request, a call either raises having touched the random
    source only, or appends one new server in status [ACTIVE]. *)
Lemma from_creation_request_json_cases cj w :
  (exists x e, from_creation_request_json cj default_ipsegment w
               = (Raise x, with_entropy e w))
  \/ (exists s e, from_creation_request_json cj default_ipsegment w
                  = (Ok (length (heap w)), appended s e w)
                  /\ status s = "ACTIVE").
Proof.
  assert (Hw : forall x, (Raise x : result loc, w) = (Raise x, with_entropy (entropy w) w))
    by (destruct w; reflexivity).
  unfold from_creation_request_json. munfold.
  destruct (py_getitem cj "server") as [sj|x]; [|left; eauto].
  destruct (py_get sj _ _) as [given|x]; [|left; eauto].
  destruct (negb _); [left; eauto|].
  destruct (py_getitem sj "name") as [nm|x]; [|left; eauto].
  cbn -[str_of_Z String.append Z.modulo].
  destruct (py_get sj "metadata" JNull) as [md|x]; [|left; eauto].
  cbn -[str_of_Z String.append Z.modulo].
  destruct (py_getitem sj "flavorRef") as [fl|x]; [|left; eauto].
  destruct (py_getitem sj "imageRef") as [img|x]; [|left; eauto].
  cbn -[str_of_Z String.append Z.modulo].
  destruct (random_string 12 _) as [p e'] eqn:Ers.
  right. eexists _, e'. split; reflexivity.
Qed.

Lemma chosen_disk_config_falsy sj :
  match dict_lookup sj "OS-DCF:diskConfig" with
  | Some v => py_truthy v = false
  | None => True
  end ->
  chosen_disk_config sj = JStr "AUTO".
Proof.
  unfold chosen_disk_config, py_or.
  destruct (dict_lookup sj "OS-DCF:diskConfig") as [v|]; [|reflexivity].
  intros ->. reflexivity.
Qed.

Lemma chosen_disk_config_truthy sj v :
  dict_lookup sj "OS-DCF:diskConfig" = Some v ->
  py_truthy v = true ->
  chosen_disk_config sj = v.
Proof. unfold chosen_disk_config, py_or. intros -> ->. reflexivity. Qed.

Lemma from_creation_request_json_rejects cj sj ipsegment w :
  server_json_of cj = Some sj ->
  auto_or_manual (chosen_disk_config sj) = false ->
  from_creation_request_json cj ipsegment w
  = (Raise (ValueError "OS-DCF:diskConfig not either AUTO or MANUAL"), w).
Proof.
  intros Hsj Hd. destruct (server_json_of_inv _ _ Hsj) as (kvs & -> & Hk).
  unfold from_creation_request_json. munfold. cbn [py_getitem py_get].
  rewrite Hk. cbn [py_get]. fold (chosen_disk_config sj). rewrite Hd. reflexivity.
Qed.

Lemma default_create_behavior_cases http cj abs hook w :
  exists r w',
    default_create_behavior http cj abs default_ipsegment hook w = (r, w')
    /\ creation_effect w w'.
Proof.
  unfold default_create_behavior.
  destruct (from_creation_request_json_cases cj w)
    as [(x & e & Hc) | (s & e & Hc & Hs)].
  - unfold bind at 1. rewrite Hc. eexists _, _. split; [reflexivity|]. constructor.
  - unfold bind at 1. rewrite Hc.
    destruct hook as [[duration|]|].
    + unfold run_hook, bind, modify, lift, deref, gets, ret. cbn [fst snd].
      destruct (py_number duration) as [delay|x].
      * cbn. rewrite alter_snoc, lookup_snoc.
        eexists _, _. split; [reflexivity|].
        apply (effect_scheduled w delay (set_status "BUILD" s) e). reflexivity.
      * cbn. rewrite alter_snoc.
        eexists _, _. split; [reflexivity|].
        apply (effect_created w (set_status "BUILD" s) e). auto.
    + unfold run_hook, bind, modify, lift, deref, gets, ret. cbn.
      rewrite alter_snoc, lookup_snoc.
      eexists _, _. split; [reflexivity|].
      apply (effect_created w (set_status "ERROR" s) e). auto.
    + unfold run_hook, bind, modify, lift, deref, gets, ret. cbn.
      rewrite lookup_snoc.
      eexists _, _. split; [reflexivity|].
      apply (effect_created w s e). auto.
Qed.

Lemma call_behavior_cases b http cj abs w :
  exists r w', call_behavior b http cj abs w = (r, w') /\ creation_effect w w'.
Proof.
  destruct b as [|function|status_code failure_message]; simpl.
  - apply default_create_behavior_cases.
  - apply default_create_behavior_cases.
  - eexists _, _. split; [reflexivity|].
    rewrite <- (with_entropy_same w) at 2. constructor.
Qed.

Lemma request_creation_cases http cj abs w :
  exists r w', request_creation http cj abs w = (r, w') /\ creation_effect w w'.
Proof.
  assert (Hnone : creation_effect w w).
  { rewrite <- (with_entropy_same w) at 2. constructor. }
  unfold request_creation. munfold.
  destruct (py_get cj "server" (JObj [])) as [sp|x]; [|eauto].
  destruct (py_get sp "metadata" (JObj [])) as [md|x]; [|eauto].
  destruct (metadata_to_creation_behavior md) as [[b|]|x]; [| |eauto].
  - apply call_behavior_cases.
  - destruct (py_getitem cj "server") as [sj|x]; [|eauto].
    destruct (py_getitem sj "name") as [nm|x]; [|eauto].
    destruct (py_get sj "metadata" JNull) as [md'|x]; [|eauto].
    destruct (behavior_for_attributes _ _) as [b|x]; [|eauto].
    apply call_behavior_cases.
Qed.

Lemma request_delete_cases http id w :
  exists r w', request_delete http id w = (r, w') /\ delete_effect w w'.
Proof.
  assert (Hnone : delete_effect w w) by constructor.
  unfold request_delete. munfold.
  destruct (server_by_id id w) as [l|]; [|eauto].
  destruct (heap w !! l) as [server|]; [|eauto].
  destruct (py_contains _ _) as [[|]|x]; [| |eauto].
  - destruct (py_getitem (metadata server) _) as [v|x]; [|eauto].
    destruct (py_loads v) as [srvfail|x]; [|eauto].
    destruct (py_getitem srvfail "times") as [times|x]; [|eauto].
    destruct (py_truthy times).
    + destruct (py_decrement times) as [times'|x]; [|eauto].
      destruct (py_setitem srvfail _ _) as [srvfail'|x]; [|eauto].
      destruct (py_setitem (metadata server) _ _) as [md'|x]; [|eauto].
      eexists _, _. split; [reflexivity|]. apply effect_counted.
    + eexists _, _. split; [reflexivity|]. apply effect_removed.
  - eexists _, _. split; [reflexivity|]. apply effect_removed.
Qed.

Lemma request_delete_204 http id w body w' :
  request_delete http id w = (Ok (body, {| code := JInt 204 |}), w') ->
  exists l, server_by_id id w = Some l
            /\ w' = with_servers (remove_first l (servers (collection w))) w.
Proof.
  unfold request_delete. munfold.
  destruct (server_by_id id w) as [l|]; [|discriminate].
  destruct (heap w !! l) as [server|]; [|discriminate].
  destruct (py_contains _ _) as [[|]|x]; [| |discriminate].
  - destruct (py_getitem (metadata server) _) as [v|x]; [|discriminate].
    destruct (py_loads v) as [srvfail|x]; [|discriminate].
    destruct (py_getitem srvfail "times") as [times|x]; [|discriminate].
    destruct (py_truthy times).
    + destruct (py_decrement times) as [times'|x]; [|discriminate].
      destruct (py_setitem srvfail _ _) as [srvfail'|x]; [|discriminate].
      destruct (py_setitem (metadata server) _ _) as [md'|x]; discriminate.
    + intros [= _ <-]. eauto.
  - intros [= _ <-]. eauto.
Qed.

Lemma request_read_world http id abs w : snd (request_read http id abs w) = w.
Proof.
  unfold request_read. munfold.
  destruct (server_by_id id w) as [l|]; [|reflexivity].
  destruct (heap w !! l) as [s|]; [|reflexivity].
  destruct (detail_json _ _ s); reflexivity.
Qed.

Lemma request_ips_world http id w : snd (request_ips http id w) = w.
Proof.
  unfold request_ips. munfold.
  destruct (server_by_id id w) as [l|]; [|reflexivity].
  destruct (heap w !! l); reflexivity.
Qed.

Lemma request_list_world http details abs filter_name w :
  snd (request_list http details abs filter_name w) = w.
Proof.
  unfold request_list. munfold.
  destruct (list_payloads _ _ _ _ _ _); reflexivity.
Qed.

Lemma metadata_to_creation_behavior_dict md :
  metadata_to_creation_behavior (JObj md) = resolve_by_priority md.
Proof.
  unfold metadata_to_creation_behavior, resolve_by_priority. simpl.
  destruct (dict_lookup md "create_server_failure") as [v|]; simpl.
  - destruct (py_loads v) as [p|x]; simpl; [|reflexivity].
    destruct (create_fail_behavior p); reflexivity.
  - destruct (dict_lookup md "server_building") as [v|]; simpl.
    + destruct (py_float v); reflexivity.
    + destruct (dict_lookup md "server_error"); reflexivity.
Qed.

Lemma resolve_none md :
  resolve_by_priority md = Ok None <-> no_override md = true.
Proof.
  unfold resolve_by_priority, no_override, has_key.
  destruct (dict_lookup md "create_server_failure") as [v|]; simpl.
  - split; [|discriminate].
    destruct (py_loads v) as [p|x]; simpl; [|discriminate].
    destruct (create_fail_behavior p); discriminate.
  - destruct (dict_lookup md "server_building") as [v|]; simpl.
    + split; [|discriminate]. destruct (py_float v); discriminate.
    + destruct (dict_lookup md "server_error"); simpl; split; congruence.
Qed.

(** The metadata the resolver is given, for a request whose [server] entry
    is an object. *)
Lemma request_creation_resolved http cj abs w sj :
  server_json_of cj = Some sj ->
  optional string_mapping (dict_lookup sj "metadata") = true ->
  request_creation http cj abs w =
  match resolve_by_priority (metadata_of cj) with
  | Ok (Some b) => call_behavior b http cj abs w
  | Ok None =>
      match dict_lookup sj "name" with
      | Some _ => dispatch_through_registry http cj sj abs w
      | None => (Raise (KeyError "name"), w)
      end
  | Raise x => (Raise x, w)
  end.
Proof.
  intros Hsj Hmd. unfold metadata_of. rewrite Hsj.
  destruct (server_json_of_inv _ _ Hsj) as (kvs & -> & Hk).
  unfold request_creation, dispatch_through_registry, creation_attributes. munfold.
  cbn [py_get py_getitem]. rewrite Hk. cbn [py_get py_getitem].
  destruct (dict_lookup sj "metadata") as [[ | | | | | |md]|]; simpl in Hmd;
    try discriminate.
  - rewrite metadata_to_creation_behavior_dict.
    destruct (resolve_by_priority md) as [[b|]|x]; try reflexivity.
    destruct (dict_lookup sj "name"); [|reflexivity].
    destruct (behavior_for_attributes _ _); reflexivity.
  - rewrite metadata_to_creation_behavior_dict.
    change (resolve_by_priority []) with (Ok (@None Behavior)). cbv iota beta.
    destruct (dict_lookup sj "name"); [|reflexivity].
    destruct (behavior_for_attributes _ _); reflexivity.
Qed.

Lemma call_default_behavior_ok http cj abs w sj :
  server_json_of cj = Some sj ->
  valid_server_json sj = true ->
  exists s e body,
    call_behavior default_behavior http cj abs w
    = (Ok (body, setResponseCode ACCEPTED http), appended s e w)
    /\ status s = "ACTIVE"
    /\ creation_time s = seconds (clock (collection w))
    /\ update_time s = creation_time s
    /\ server_id s =
         (let r := fst (randrange 9999999999 (entropy w)) in
          "test-server" ++ str_of_Z r ++ "-id-" ++ str_of_Z r).
Proof.
  intros Hsj Hv. apply andb_prop in Hv as [Hf Hd].
  assert (Hd' : auto_or_manual (chosen_disk_config sj) = true).
  { unfold chosen_disk_config.
    destruct (dict_lookup sj "OS-DCF:diskConfig") as [v|]; [|reflexivity].
    simpl in Hd. unfold py_or.
    destruct v; simpl in Hd; try discriminate.
    destruct (py_truthy (JStr s)); [exact Hd | reflexivity]. }
  destruct (from_creation_request_json_ok cj sj w Hsj Hf Hd')
    as (s & e & Hc & Hst & Hct & Hut & Hid & _).
  exists s, e. eexists. split.
  - simpl. unfold default_create_behavior. unfold bind at 1. rewrite Hc.
    munfold. cbn. rewrite lookup_snoc. reflexivity.
  - repeat split; try assumption. congruence.
Qed.

Lemma call_hooked_build_ok http cj abs w sj delay :
  server_json_of cj = Some sj ->
  valid_server_json sj = true ->
  exists s e body,
    call_behavior (hooked (set_building (JFloat delay))) http cj abs w
    = (Ok (body, setResponseCode ACCEPTED http), scheduled delay s e w)
    /\ status s = "BUILD"
    /\ server_id s =
         (let r := fst (randrange 9999999999 (entropy w)) in
          "test-server" ++ str_of_Z r ++ "-id-" ++ str_of_Z r)
    /\ metadata s = JObj (metadata_of cj).
Proof.
  intros Hsj Hv. destruct (valid_server_json_disk sj Hv) as [Hf Hd].
  destruct (from_creation_request_json_ok cj sj w Hsj Hf Hd)
    as (s & e & Hc & _ & _ & _ & Hid & Hmd & _).
  exists (set_status "BUILD" s), e. eexists. split.
  - simpl. unfold default_create_behavior. unfold bind at 1. rewrite Hc.
    unfold run_hook. munfold. cbn. rewrite alter_snoc, lookup_snoc. reflexivity.
  - repeat split; assumption.
Qed.

Lemma request_creation_build http cj abs w sj text delay :
  server_json_of cj = Some sj ->
  valid_server_json sj = true ->
  dict_lookup (metadata_of cj) "create_server_failure" = None ->
  dict_lookup (metadata_of cj) "server_building" = Some (JStr text) ->
  float_of_string text = Some delay ->
  exists s e body,
    request_creation http cj abs w
    = (Ok (body, setResponseCode ACCEPTED http), scheduled delay s e w)
    /\ status s = "BUILD"
    /\ server_id s =
         (let r := fst (randrange 9999999999 (entropy w)) in
          "test-server" ++ str_of_Z r ++ "-id-" ++ str_of_Z r)
    /\ metadata s = JObj (metadata_of cj).
Proof.
  intros Hsj Hv Hnf Hb Hfloat.
  destruct (valid_server_json_disk sj Hv) as [Hf _].
  rewrite (request_creation_resolved http cj abs w sj Hsj
             (valid_fields_metadata sj Hf)).
  unfold resolve_by_priority. rewrite Hnf, Hb. cbn [py_float]. rewrite Hfloat.
  cbn [result_bind]. apply (call_hooked_build_ok http cj abs w sj delay Hsj Hv).
Qed.

Lemma metadata_predicate_no_metadata k v rest :
  re_compiles v = true ->
  metadata_predicate ((k, v) :: rest) JNull = Raise AttributeError.
Proof. intros Hv. simpl. rewrite Hv. reflexivity. Qed.

(** When no metadata key asks for an override and the request has no
    metadata, the registry is given [None] as the metadata attribute, and a
    registered metadata criterion with at least one pair raises. *)
Lemma request_creation_no_metadata http cj abs w sj nm b k v rest cs entries :
  server_json_of cj = Some sj ->
  dict_lookup sj "metadata" = None ->
  dict_lookup sj "name" = Some nm ->
  registered_behaviors (create_behavior_registry (collection w))
  = (b, metadata_criterion ((k, v) :: rest) :: cs) :: entries ->
  re_compiles v = true ->
  request_creation http cj abs w = (Raise AttributeError, w).
Proof.
  intros Hsj Hmd Hnm Hreg Hv.
  rewrite (request_creation_resolved http cj abs w sj Hsj)
    by (rewrite Hmd; reflexivity).
  unfold metadata_of. rewrite Hsj, Hmd.
  change (resolve_by_priority []) with (Ok (@None Behavior)). cbv iota beta.
  rewrite Hnm. unfold dispatch_through_registry, behavior_for_attributes.
  rewrite Hreg. unfold creation_attributes. rewrite Hmd.
  cbn [scan_entries all_criteria]. unfold evaluate at 1.
  cbn [name metadata_criterion predicate dict_lookup String.eqb Ascii.eqb Bool.eqb].
  simpl dict_lookup. rewrite metadata_predicate_no_metadata by exact Hv.
  reflexivity.
Qed.

Lemma status_step_same w : status_step w w.
Proof. split; [eauto | congruence]. Qed.

Lemma perform_wf_status a w :
  wf w -> wf (perform a w) /\ status_step w (perform a w).
Proof.
  intros Hwf.
  destruct a as [http cj abs|http id|http id abs|http id|http d abs f|amount];
    simpl.
  - destruct (request_creation_cases http cj abs w) as (r & w1 & -> & Heff).
    simpl. split; [eapply wf_creation_effect; eauto|].
    destruct (creation_effect_heap w w1 Heff) as [H1 H2].
    split; [|exact H2]. intros l s Hl. exists s. split; [auto | left; reflexivity].
  - destruct (request_delete_cases http id w) as (r & w1 & -> & Heff).
    simpl. split; [eapply wf_delete_effect; eauto|].
    destruct (delete_effect_heap w w1 Heff) as [H1 H2].
    split.
    + intros l s Hl. destruct (H1 l s Hl) as (s' & Hs' & Hst). eauto.
    + intros l s' Hl Hl'. rewrite (H2 l Hl) in Hl'. discriminate.
  - rewrite request_read_world. split; [exact Hwf | apply status_step_same].
  - rewrite request_ips_world. split; [exact Hwf | apply status_step_same].
  - rewrite request_list_world. split; [exact Hwf | apply status_step_same].
  - split; [apply wf_advance, Hwf|]. split.
    + intros l s Hl. destruct (advance_heap amount w l s Hwf Hl) as [H|[Hb H]].
      * exists s. split; [exact H | left; reflexivity].
      * exists (set_status "ACTIVE" s). split; [exact H | right; auto].
    + intros l s' Hl Hl'. rewrite (advance_heap_none amount w l Hl) in Hl'.
      discriminate.
Qed.

Lemma wf_perform a w : wf w -> wf (perform a w).
Proof. intros Hwf. apply (perform_wf_status a w Hwf). Qed.

Lemma reachable_wf w : reachable w -> wf w.
Proof.
  induction 1 as [tenant region now registry e|w a _ IH].
  - apply wf_empty_world.
  - apply wf_perform, IH.
Qed.

Lemma wf_run actions w : wf w -> wf (run actions w).
Proof.
  revert w. induction actions as [|a actions IH]; intros w Hwf; [exact Hwf|].
  simpl. apply IH, wf_perform, Hwf.
Qed.

(** Every action but an advance of the clock is quiet. *)
Lemma perform_quiet a w :
  match a with do_advance _ => True | _ => quiet w (perform a w) end.
Proof.
  destruct a as [http cj abs|http id|http id abs|http id|http d abs f|amount];
    simpl; [| | | | |exact I].
  - destruct (request_creation_cases http cj abs w) as (r & w' & -> & Heff).
    apply quiet_creation_effect, Heff.
  - destruct (request_delete_cases http id w) as (r & w' & -> & Heff).
    apply quiet_delete_effect, Heff.
  - rewrite request_read_world. apply quiet_same.
  - rewrite request_ips_world. apply quiet_same.
  - rewrite request_list_world. apply quiet_same.
Qed.

(** A server without a scheduled call keeps its status along a run. *)
Lemma run_settled actions w l :
  wf w ->
  l < length (heap w) ->
  l ∉ target <$> calls (clock (collection w)) ->
  status_at (run actions w) l = status_at w l.
Proof.
  revert w. induction actions as [|a actions IH]; intros w Hwf Hl Hnin; [reflexivity|].
  simpl. pose proof (wf_perform a w Hwf) as Hwf'.
  pose proof (perform_quiet a w) as Hq.
  destruct a as [http cj abs|http id|http id abs|http id|http d abs f|amount].
  1-5: rewrite IH;
    [ apply (quiet_status _ _ Hq l Hl)
    | exact Hwf'
    | pose proof (quiet_heap _ _ Hq); lia
    | intros Hin; apply Hnin, (quiet_targets _ _ Hq l Hl Hin) ].
  rewrite IH.
  - unfold status_at. cbn [perform]. rewrite advance_unscheduled; auto.
  - exact Hwf'.
  - simpl. rewrite run_calls_length. exact Hl.
  - cbn [perform]. intros Hin. apply Hnin.
    apply list_elem_of_fmap in Hin as (c & -> & Hc).
    apply list_elem_of_fmap. exists c. split; [reflexivity|].
    apply (advance_calls_subseteq amount w c Hc).
Qed.

(** A scheduled call along a run: its server is in [BUILD] as long as no
    advance has left the clock at the time of the call or later, and
    [ACTIVE] from the first advance that does, whatever the requests in
    between and whatever the advances after it. *)
Lemma run_pending actions w c :
  wf w ->
  c ∈ calls (clock (collection w)) ->
  status_at (run actions w) (target c)
  = Some (if reached (time c) (rightNow (clock (collection w))) actions
          then "ACTIVE" else "BUILD").
Proof.
  revert w. induction actions as [|a actions IH]; intros w Hwf Hc.
  - pose proof (wf_pending w Hwf) as Hp.
    rewrite Forall_forall in Hp. apply (Hp c Hc).
  - pose proof (wf_perform a w Hwf) as Hwf'.
    pose proof (perform_quiet a w) as Hq.
    change (run (a :: actions) w) with (run actions (perform a w)).
    destruct a as [http cj abs|http id|http id abs|http id|http d abs f|amount].
    1-5: rewrite (IH _ Hwf' (quiet_calls _ _ Hq c Hc)), (quiet_time _ _ Hq);
      reflexivity.
    destruct (advance_pending amount w c Hwf Hc) as [Hdue Hlate].
    change (perform (do_advance amount) w) with (advance amount w) in *.
    unfold reached. cbn [readings existsb].
    fold (reached (time c) (rightNow (clock (collection w)) + amount) actions).
    fold (due (rightNow (clock (collection w)) + amount) c).
    destruct (due (rightNow (clock (collection w)) + amount) c) eqn:E.
    + destruct (Hdue eq_refl) as [Hst Hnin]. cbn [orb].
      rewrite run_settled; [exact Hst | exact Hwf' | | exact Hnin].
      apply (status_at_bound _ _ _ Hst).
    + destruct (Hlate eq_refl) as [_ Hin]. cbn [orb].
      rewrite (IH _ Hwf' Hin), advance_reading. reflexivity.
Qed.

(** ** The order of the calls

    Floats that are numbers are totally ordered, so that a clock on which
    every time is a number keeps its calls in the order of the times, and
    an advance fires the calls at the front of the sequence. *)

Lemma SFleb_trans a b c :
  SpecFloat.SFleb a b = true -> SpecFloat.SFleb b c = true ->
  SpecFloat.SFleb a c = true.
Proof.
  unfold SpecFloat.SFleb, SpecFloat.SFcompare.
  destruct a as [[]|[]| |[] ma ea], b as [[]|[]| |[] mb eb],
    c as [[]|[]| |[] mc ec]; try reflexivity; try discriminate;
  change (Pos.compare_cont Eq) with Pos.compare;
  destruct (Z.compare_spec ea eb), (Z.compare_spec eb ec),
           (Z.compare_spec ea ec); try reflexivity; try discriminate;
    try lia; subst;
  destruct (Pos.compare_spec ma mb), (Pos.compare_spec mb mc),
           (Pos.compare_spec ma mc); try reflexivity; try discriminate; lia.
Qed.

Lemma SFleb_total a b :
  SpecFloat.SFeqb a a = true -> SpecFloat.SFeqb b b = true ->
  SpecFloat.SFleb a b = true \/ SpecFloat.SFleb b a = true.
Proof.
  unfold SpecFloat.SFleb, SpecFloat.SFeqb, SpecFloat.SFcompare.
  destruct a as [[]|[]| |[] ma ea], b as [[]|[]| |[] mb eb];
    try discriminate; auto;
  change (Pos.compare_cont Eq) with Pos.compare; intros _ _;
  rewrite (Z.compare_antisym ea eb), (Pos.compare_antisym ma mb);
  destruct (ea ?= eb)%Z; simpl; auto; destruct (ma ?= mb)%positive; simpl; auto.
Qed.

Lemma leb_trans x y z :
  (x <=? y)%float = true -> (y <=? z)%float = true -> (x <=? z)%float = true.
Proof. rewrite !FloatAxioms.leb_spec. apply SFleb_trans. Qed.

Lemma leb_total x y :
  is_nan x = false -> is_nan y = false ->
  (x <=? y)%float = true \/ (y <=? x)%float = true.
Proof.
  unfold is_nan. rewrite !FloatAxioms.leb_spec, !FloatAxioms.eqb_spec.
  intros Hx Hy. apply SFleb_total.
  - destruct (SpecFloat.SFeqb (FloatOps.Prim2SF x) _); [reflexivity|discriminate].
  - destruct (SpecFloat.SFeqb (FloatOps.Prim2SF y) _); [reflexivity|discriminate].
Qed.

Lemma timely_number w c :
  timely w = true -> c ∈ calls (clock (collection w)) ->
  is_nan (time c) = false.
Proof.
  unfold timely. rewrite forallb_forall. intros Hall Hc.
  apply list_elem_of_In in Hc. apply Hall in Hc.
  destruct (is_nan (time c)); [discriminate|reflexivity].
Qed.

Lemma in_order_cons c cs :
  in_order (c :: cs) = true
  <-> Forall (fun c' => (time c <=? time c')%float = true) cs
      /\ in_order cs = true.
Proof.
  cbn [in_order]. rewrite andb_true_iff, forallb_forall, Forall_forall.
  split; intros [H1 H2]; (split; [|exact H2]); intros x Hx; apply H1.
  - apply list_elem_of_In, Hx.
  - apply list_elem_of_In, Hx.
Qed.

Lemma insert_call_in_order dc cs :
  is_nan (time dc) = false ->
  Forall (fun c => is_nan (time c) = false) cs ->
  in_order cs = true -> in_order (insert_call dc cs) = true.
Proof.
  intros Hdc. induction cs as [|c rest IH]; intros Hcs Hord; [reflexivity|].
  apply in_order_cons in Hord as [Hc Hrest].
  apply Forall_cons in Hcs as [Hnc Hnrest].
  cbn [insert_call]. destruct (time c <=? time dc)%float eqn:E.
  - apply in_order_cons. split; [|apply IH; assumption].
    rewrite insert_call_perm. apply Forall_cons. split; assumption.
  - assert (Hdcc : (time dc <=? time c)%float = true).
    { destruct (leb_total (time dc) (time c) Hdc Hnc) as [H|H];
        [exact H|congruence]. }
    apply in_order_cons. split.
    + apply Forall_cons. split; [exact Hdcc|].
      eapply Forall_impl; [exact Hc|]. intros c' Hc'. cbv beta in *.
      apply (leb_trans _ _ _ Hdcc Hc').
    + apply in_order_cons. split; assumption.
Qed.

Lemma in_order_filter (f : DelayedCall -> bool) cs :
  in_order cs = true -> in_order (List.filter f cs) = true.
Proof.
  induction cs as [|c rest IH]; intros Hord; [reflexivity|].
  apply in_order_cons in Hord as [Hc Hrest]. cbn [List.filter].
  destruct (f c); [|apply IH, Hrest].
  apply in_order_cons. split; [|apply IH, Hrest].
  rewrite Forall_forall in *. intros c' Hc'.
  apply Hc, (filter_elem f rest c'), Hc'.
Qed.

(** On a sequence in the order of the times, the calls that are due are
    those the loop of the clock pops from its front. *)
Lemma pop_due_in_order now cs :
  in_order cs = true ->
  pop_due now cs
  = (List.filter (due now) cs, List.filter (fun c => negb (due now c)) cs).
Proof.
  induction cs as [|c rest IH]; intros Hord; [reflexivity|].
  apply in_order_cons in Hord as [Hc Hrest].
  cbn [pop_due List.filter]. destruct (due now c) eqn:E; cbn [negb].
  - rewrite (IH Hrest). reflexivity.
  - assert (Hnone : Forall (fun c' => due now c' = false) rest).
    { eapply Forall_impl; [exact Hc|]. intros c' Hc'. cbv beta in *.
      destruct (due now c') eqn:E'; [|reflexivity].
      unfold due in *. rewrite (leb_trans _ _ _ Hc' E') in E. discriminate. }
    clear -Hnone. f_equal.
    + induction Hnone as [|c' rest' Hc' _ IH]; [reflexivity|].
      cbn [List.filter]. rewrite Hc'. exact IH.
    + f_equal. induction Hnone as [|c' rest' Hc' _ IH]; [reflexivity|].
      cbn [List.filter]. rewrite Hc'. cbn [negb]. f_equal. exact IH.
Qed.

(** An advance of a clock whose calls are in the order of the times is the
    loop of the clock. *)
Lemma advance_pops_the_front amount w :
  in_order (calls (clock (collection w))) = true ->
  advance amount w
  = (let now := (rightNow (clock (collection w)) + amount)%float in
     let (fired, left) := pop_due now (calls (clock (collection w))) in
     with_heap (run_calls fired (heap w))
       (with_clock {| rightNow := now; calls := left |} w)).
Proof.
  intros Hord. cbv zeta. rewrite (pop_due_in_order _ _ Hord). reflexivity.
Qed.

Lemma creation_effect_in_order w w' :
  creation_effect w w' ->
  in_order (calls (clock (collection w))) = true ->
  timely w' = true ->
  in_order (calls (clock (collection w'))) = true.
Proof.
  intros Heff Hord Ht. destruct Heff as [e|s e _|delay s e _];
    [exact Hord|exact Hord|].
  assert (Hall : forall c, c ∈ calls (clock (collection (scheduled delay s e w)))
                           -> is_nan (time c) = false)
    by (intros c; apply timely_number, Ht).
  simpl in *. apply insert_call_in_order; [| |exact Hord].
  - apply Hall. rewrite insert_call_perm. left.
  - apply Forall_forall. intros c Hc. apply Hall.
    rewrite insert_call_perm. right. exact Hc.
Qed.

Lemma delete_effect_calls w w' :
  delete_effect w w' ->
  calls (clock (collection w')) = calls (clock (collection w)).
Proof. destruct 1; reflexivity. Qed.

Lemma perform_in_order a w :
  in_order (calls (clock (collection w))) = true ->
  timely (perform a w) = true ->
  in_order (calls (clock (collection (perform a w)))) = true.
Proof.
  intros Hord Ht.
  destruct a as [http cj abs|http id|http id abs|http id|http d abs f|amount];
    cbn [perform] in *.
  - destruct (request_creation_cases http cj abs w) as (r & w' & Hrun & Heff).
    rewrite Hrun in *. simpl in *.
    apply (creation_effect_in_order w w' Heff Hord Ht).
  - destruct (request_delete_cases http id w) as (r & w' & Hrun & Heff).
    rewrite Hrun. simpl. rewrite (delete_effect_calls w w' Heff). exact Hord.
  - rewrite request_read_world. exact Hord.
  - rewrite request_ips_world. exact Hord.
  - rewrite request_list_world. exact Hord.
  - simpl. apply in_order_filter, Hord.
Qed.

(** Along a run on which every scheduled time is a number, the calls stay
    in the order of the times. *)
Lemma run_in_order actions w :
  in_order (calls (clock (collection w))) = true ->
  timely_run actions w = true ->
  in_order (calls (clock (collection (run actions w)))) = true.
Proof.
  revert w. induction actions as [|a actions IH]; intros w Hord Ht;
    [exact Hord|].
  change (run (a :: actions) w) with (run actions (perform a w)).
  cbn [timely_run] in Ht. apply andb_prop in Ht as [_ Ht].
  apply IH; [|exact Ht].
  apply perform_in_order; [exact Hord|].
  destruct actions; cbn [timely_run] in Ht; apply andb_prop in Ht as [Ht _];
    exact Ht.
Qed.

(** So each advance of such a run, on a clock that starts with its calls in
    order, as an empty clock does, is the loop of the clock. *)
Lemma timely_run_pops_the_front actions amount w :
  in_order (calls (clock (collection w))) = true ->
  timely_run actions w = true ->
  advance amount (run actions w)
  = (let w' := run actions w in
     let now := (rightNow (clock (collection w')) + amount)%float in
     let (fired, left) := pop_due now (calls (clock (collection w'))) in
     with_heap (run_calls fired (heap w'))
       (with_clock {| rightNow := now; calls := left |} w')).
Proof.
  intros Hord Ht. apply advance_pops_the_front, run_in_order; assumption.
Qed.

(** ** The claims *)

(** C1: for a creation request the metadata override resolver is consulted
    before registry dispatch.  On the metadata mapping of the request it
    checks [create_server_failure] (value parsed as JSON, routed to the
    [fail] creator), then [server_building] (value parsed as a number,
    routed to the [build] creator as its duration), then [server_error]
    (routed to the [error] creator); it returns no behavior exactly when
    none of the three keys is present, and only then does the request go
    through the behavior registry. *)
Theorem C1_override_before_registry http cj abs w sj :
  server_json_of cj = Some sj ->
  optional string_mapping (dict_lookup sj "metadata") = true ->
  metadata_to_creation_behavior (JObj (metadata_of cj))
  = resolve_by_priority (metadata_of cj)
  /\ (resolve_by_priority (metadata_of cj) = Ok None
      <-> no_override (metadata_of cj) = true)
  /\ request_creation http cj abs w
     = match resolve_by_priority (metadata_of cj) with
       | Ok (Some b) => call_behavior b http cj abs w
       | Ok None =>
           match dict_lookup sj "name" with
           | Some _ => dispatch_through_registry http cj sj abs w
           | None => (Raise (KeyError "name"), w)
           end
       | Raise x => (Raise x, w)
       end.
Proof.
  intros Hsj Hmd. split; [apply metadata_to_creation_behavior_dict|].
  split; [apply resolve_none|].
  apply request_creation_resolved; assumption.
Qed.

(** C2, as the code has it: for a valid creation request with no override
    metadata and no matching registered behavior, the default creation
    behavior answers 202 and appends to the collection a new server whose
    status is ACTIVE and whose update time equals its creation time, the
    current time of the clock.  Its id is made of one draw of the random
    source and is not compared with the ids the collection holds: the ids of
    the collection are those it had, followed by the new one. *)
Theorem C2_default_creation http cj abs w sj :
  wf w ->
  server_json_of cj = Some sj ->
  valid_server_json sj = true ->
  no_override (metadata_of cj) = true ->
  behavior_for_attributes (create_behavior_registry (collection w))
    (creation_attributes (tenant_id (collection w)) sj) = Ok default_behavior ->
  exists s e body,
    request_creation http cj abs w
    = (Ok (body, setResponseCode ACCEPTED http), appended s e w)
    /\ servers (collection (appended s e w))
       = (servers (collection w) ++ [length (heap w)])%list
    /\ heap (appended s e w) !! length (heap w) = Some s
    /\ status s = "ACTIVE"
    /\ creation_time s = seconds (clock (collection w))
    /\ update_time s = creation_time s
    /\ server_id s =
         (let r := fst (randrange 9999999999 (entropy w)) in
          "test-server" ++ str_of_Z r ++ "-id-" ++ str_of_Z r)
    /\ collection_ids (appended s e w)
       = (collection_ids w ++ [server_id s])%list.
Proof.
  intros Hwf Hsj Hv Hno Hreg.
  assert (Hmd : optional string_mapping (dict_lookup sj "metadata") = true).
  { apply andb_prop in Hv as [Hf _]. unfold valid_fields in Hf.
    apply andb_prop in Hf as [Hf _]. apply andb_prop in Hf as [Hf _].
    apply andb_prop in Hf as [_ Hf]. exact Hf. }
  assert (Hname : exists nm, dict_lookup sj "name" = Some nm).
  { apply andb_prop in Hv as [Hf _]. unfold valid_fields in Hf.
    apply andb_prop in Hf as [Hf _]. apply andb_prop in Hf as [Hf _].
    apply andb_prop in Hf as [Hf _]. apply required_inv in Hf as (nm & Hnm & _).
    eauto. }
  destruct Hname as (nm & Hnm).
  rewrite (request_creation_resolved http cj abs w sj Hsj Hmd).
  apply resolve_none in Hno. rewrite Hno, Hnm.
  unfold dispatch_through_registry. rewrite Hreg.
  destruct (call_default_behavior_ok http cj abs w sj Hsj Hv)
    as (s & e & body & Hcall & Hst & Hct & Hut & Hid).
  exists s, e, body. split; [exact Hcall|].
  split; [reflexivity|]. split; [apply lookup_snoc|].
  repeat split; try assumption.
  apply collection_ids_appended, Hwf.
Qed.

(** C3, as the code has it: for a creation request whose metadata maps
    [server_building] to a numeric string N (and asks for no failure, which
    has priority), the created server is in the collection in status BUILD
    when the creation call returns, and the call that makes it ACTIVE is
    scheduled for the reading of the clock plus N, a sum of floats.
    Whatever the requests served afterwards, the server is in BUILD as long
    as no advance has left the clock reading that time or more, and it is
    ACTIVE from the first advance that does; the readings are those of the
    clock, which adds each amount to the last one in floating point.  This
    is for runs along which every scheduled time is a number. *)
Theorem C3_build_then_active http cj abs w sj text N :
  wf w ->
  server_json_of cj = Some sj ->
  valid_server_json sj = true ->
  dict_lookup (metadata_of cj) "create_server_failure" = None ->
  dict_lookup (metadata_of cj) "server_building" = Some (JStr text) ->
  float_of_string text = Some N ->
  exists s e body,
    let l := length (heap w) in
    let now := seconds (clock (collection w)) in
    let w1 := scheduled N s e w in
    request_creation http cj abs w
    = (Ok (body, setResponseCode ACCEPTED http), w1)
    /\ (l ∈ servers (collection w1))
    /\ status_at w1 l = Some "BUILD"
    /\ (build_call now N l ∈ calls (clock (collection w1)))
    /\ forall actions,
         timely_run actions w1 = true ->
         status_at (run actions w1) l
         = Some (if reached (now + N) now actions then "ACTIVE" else "BUILD").
Proof.
  intros Hwf Hsj Hv Hnf Hb Hfloat.
  destruct (request_creation_build http cj abs w sj text N Hsj Hv Hnf Hb Hfloat)
    as (s & e & body & Hrun & Hst & _).
  exists s, e, body. cbv zeta. split; [exact Hrun|].
  split; [simpl; apply elem_of_app; right; left|].
  pose proof (wf_scheduled N s e w Hwf Hst) as Hwf1.
  pose proof (build_call_scheduled N s e w) as Hin.
  split.
  - pose proof (wf_pending _ Hwf1) as Hp. rewrite Forall_forall in Hp.
    apply (Hp _ Hin).
  - split; [exact Hin|]. intros actions _.
    apply (run_pending actions _ _ Hwf1 Hin).
Qed.

(** C4: for a creation request whose metadata holds [create_server_failure]
    with parameters [{code, message}], the fail behavior leaves the store as
    it is (no server is created, the servers sequence is unchanged), sets
    the response status to [code] and returns the payload made of that code
    and message; a parameter that is absent defaults to 500, respectively
    to ["Server creation failed."]. *)
Theorem C4_fail_without_creating http cj abs w sj md text parameters :
  server_json_of cj = Some sj ->
  dict_lookup sj "metadata" = Some (JObj md) ->
  dict_lookup md "create_server_failure" = Some (JStr text) ->
  loads text = Some (JObj parameters) ->
  let status_code := match dict_lookup parameters "code" with
                     | Some c => c
                     | None => JInt 500
                     end in
  let failure_message := match dict_lookup parameters "message" with
                         | Some m => m
                         | None => JStr "Server creation failed."
                         end in
  request_creation http cj abs w
  = (Ok (dumps (JObj [("message", failure_message); ("code", status_code)]),
         {| code := status_code |}),
     w).
Proof.
  intros Hsj Hmd Hkey Hloads status_code failure_message.
  destruct (server_json_of_inv _ _ Hsj) as (kvs & -> & Hk).
  unfold request_creation. munfold. cbn [py_get]. rewrite Hk. cbn [py_get].
  rewrite Hmd. unfold metadata_to_creation_behavior.
  cbn [py_contains py_getitem result_bind]. rewrite Hkey.
  cbn [py_loads result_bind]. rewrite Hloads. reflexivity.
Qed.

(** C5: a delete of an id no server has answers 404 and changes nothing.
    When the server found has a [delete_server_failure] descriptor in its
    metadata whose count is greater than zero, the count is decremented and
    the descriptor written back into the metadata, the answer is 500 and the
    collection keeps the server: afterwards the id still leads to the
    server, its metadata reads the descriptor with the count less one, and
    so does the request document it keeps, which shares the dict.  When the
    count is zero the answer is 204
    and the server leaves the collection: the servers sequence, which the
    list operation runs over, no longer holds it and no lookup by id returns
    it. *)
Theorem C5_delete http id w :
  wf w ->
  (server_by_id id w = None ->
   request_delete http id w = (Ok ("", {| code := JInt 404 |}), w))
  /\ (forall l server md text srvfail n,
        server_by_id id w = Some l ->
        heap w !! l = Some server ->
        metadata server = JObj md ->
        dict_lookup md "delete_server_failure" = Some (JStr text) ->
        loads text = Some (JObj srvfail) ->
        dict_lookup srvfail "times" = Some (JInt n) ->
        ((0 < n)%Z ->
         let srvfail' := JObj (dict_set srvfail "times" (JInt (n - 1))) in
         let md' := JObj (dict_set md "delete_server_failure"
                            (JStr (dumps srvfail'))) in
         let w' := with_heap (alter (set_metadata md') l (heap w)) w in
         request_delete http id w = (Ok ("", {| code := JInt 500 |}), w')
         /\ servers (collection w') = servers (collection w)
         /\ (l ∈ servers (collection w'))
         /\ server_by_id id w' = Some l
         /\ exists server',
              heap w' !! l = Some server'
              /\ metadata server' = md'
              /\ py_getitem (metadata server') "delete_server_failure"
                 = Ok (JStr (dumps srvfail'))
              /\ py_getitem srvfail' "times" = Ok (JInt (n - 1))
              /\ creation_request_json server'
                 = with_request_metadata md' (creation_request_json server)
              /\ server_id server' = server_id server
              /\ status server' = status server)
        /\ (n = 0%Z ->
            let w' := with_servers (remove_first l (servers (collection w))) w in
            request_delete http id w = (Ok ("", {| code := JInt 204 |}), w')
            /\ (l ∉ servers (collection w'))
            /\ heap w' = heap w
            /\ forall id', server_by_id id' w' <> Some l)).
Proof.
  intros Hwf. split.
  - intros Hnone. unfold request_delete. munfold. rewrite Hnone. reflexivity.
  - intros l server md text srvfail n Hfind Hl Hmd Hkey Hloads Htimes.
    assert (Hrun : request_delete http id w =
      if negb (n =? 0)%Z then
        (Ok ("", {| code := JInt 500 |}),
         with_heap (alter (set_metadata
           (JObj (dict_set md "delete_server_failure"
              (JStr (dumps (JObj (dict_set srvfail "times" (JInt (n - 1))))))))) l
           (heap w)) w)
      else
        (Ok ("", {| code := JInt 204 |}),
         with_servers (remove_first l (servers (collection w))) w)).
    { unfold request_delete. munfold. rewrite Hfind, Hl, Hmd.
      cbn [py_contains py_getitem]. rewrite Hkey.
      cbn [py_loads]. rewrite Hloads. cbn [py_getitem]. rewrite Htimes.
      cbn [py_truthy]. destruct (negb (n =? 0)%Z); reflexivity. }
    split.
    + intros Hpos. rewrite Hrun.
      replace (n =? 0)%Z with false by (symmetry; apply Z.eqb_neq; lia).
      simpl. split; [reflexivity|]. split; [reflexivity|].
      split; [apply (find_by_id_elem _ _ _ _ Hfind)|].
      split.
      { unfold server_by_id. simpl. rewrite find_by_id_set_metadata. exact Hfind. }
      destruct (stored_metadata
                  (JObj (dict_set md "delete_server_failure"
                     (JStr (dumps (JObj (dict_set srvfail "times"
                                           (JInt (n - 1))))))))
                  l (heap w) server Hl)
        as (server' & Hl' & Hmd' & Hreq & Hid & Hst).
      exists server'. split; [exact Hl'|]. split; [exact Hmd'|].
      split; [rewrite Hmd'; cbn [py_getitem]; rewrite dict_lookup_set; reflexivity|].
      split; [cbn [py_getitem]; rewrite dict_lookup_set; reflexivity|].
      auto.
    + intros ->. rewrite Hrun. simpl. split; [reflexivity|].
      assert (Hgone : l ∉ remove_first l (servers (collection w)))
        by apply remove_first_gone, (wf_nodup w Hwf).
      split; [exact Hgone|]. split; [reflexivity|].
      intros id' Hfind'. apply Hgone.
      apply (find_by_id_elem _ _ _ _ Hfind').
Qed.

(** C6, as the code has it: a disk configuration that is absent, or present
    but empty or null (any value Python takes for false), defaults to AUTO;
    one that is AUTO or MANUAL is kept; any other value makes the creation
    raise [ValueError] to its caller before anything is drawn, created or
    added, whatever the creating behavior. *)
Theorem C6_disk_config http cj abs w sj :
  server_json_of cj = Some sj ->
  valid_fields sj = true ->
  (match dict_lookup sj "OS-DCF:diskConfig" with
   | Some v => py_truthy v = false
   | None => True
   end ->
   exists s e, from_creation_request_json cj default_ipsegment w
               = (Ok (length (heap w)), appended s e w)
               /\ disk_config s = JStr "AUTO")
  /\ (forall v,
        dict_lookup sj "OS-DCF:diskConfig" = Some (JStr v) ->
        v = "AUTO" \/ v = "MANUAL" ->
        exists s e, from_creation_request_json cj default_ipsegment w
                    = (Ok (length (heap w)), appended s e w)
                    /\ disk_config s = JStr v)
  /\ (forall v,
        dict_lookup sj "OS-DCF:diskConfig" = Some v ->
        py_truthy v = true ->
        v <> JStr "AUTO" -> v <> JStr "MANUAL" ->
        from_creation_request_json cj default_ipsegment w
        = (Raise (ValueError "OS-DCF:diskConfig not either AUTO or MANUAL"), w)
        /\ forall hook,
             default_create_behavior http cj abs default_ipsegment hook w
             = (Raise (ValueError "OS-DCF:diskConfig not either AUTO or MANUAL"),
                w)).
Proof.
  intros Hsj Hf. split; [|split].
  - intros Hfalsy. pose proof (chosen_disk_config_falsy sj Hfalsy) as Hc.
    destruct (from_creation_request_json_ok cj sj w Hsj Hf)
      as (s & e & H & _ & _ & _ & _ & _ & Hd & _); [rewrite Hc; reflexivity|].
    exists s, e. split; [exact H|]. congruence.
  - intros v Hv Hor.
    assert (Hc : chosen_disk_config sj = JStr v).
    { apply chosen_disk_config_truthy; [exact Hv|].
      destruct Hor as [-> | ->]; reflexivity. }
    destruct (from_creation_request_json_ok cj sj w Hsj Hf)
      as (s & e & H & _ & _ & _ & _ & _ & Hd & _).
    { rewrite Hc. destruct Hor as [-> | ->]; reflexivity. }
    exists s, e. split; [exact H|]. congruence.
  - intros v Hv Ht Hna Hnm.
    assert (Hc : auto_or_manual (chosen_disk_config sj) = false).
    { rewrite (chosen_disk_config_truthy sj v Hv Ht).
      destruct v; try reflexivity. simpl.
      destruct (String.eqb_spec s "AUTO") as [->|_]; [congruence|].
      destruct (String.eqb_spec s "MANUAL") as [->|_]; [congruence|].
      reflexivity. }
    split; [apply (from_creation_request_json_rejects cj sj _ w Hsj Hc)|].
    intros hook. unfold default_create_behavior. unfold bind at 1.
    rewrite (from_creation_request_json_rejects cj sj _ w Hsj Hc). reflexivity.
Qed.

(** C7, as the code has it: when a server created with the build behavior
    is deleted before its scheduled call fires, the call stays scheduled,
    and at the first advance that leaves the clock reading its time or more
    it fires and sets the status of the removed server object to ACTIVE,
    without looking whether the collection still holds it; until then the
    object stays in BUILD, along the runs on which every scheduled time is a
    number.  The delete took the server out of the servers sequence, so the
    call changes no server the collection holds. *)
Theorem C7_callback_after_delete http id w1 w2 c body :
  wf w1 ->
  c ∈ calls (clock (collection w1)) ->
  server_by_id id w1 = Some (target c) ->
  request_delete http id w1 = (Ok (body, {| code := JInt 204 |}), w2) ->
  (target c ∉ servers (collection w2))
  /\ (c ∈ calls (clock (collection w2)))
  /\ status_at w2 (target c) = Some "BUILD"
  /\ (forall actions,
        timely_run actions w2 = true ->
        status_at (run actions w2) (target c)
        = Some (if reached (time c) (rightNow (clock (collection w2))) actions
                then "ACTIVE" else "BUILD"))
  /\ (forall l', l' ∈ servers (collection w2) ->
                 run_callback (func c) (heap w2) !! l' = heap w2 !! l').
Proof.
  intros Hwf Hc Hfind Hdel.
  destruct (request_delete_204 _ _ _ _ _ Hdel) as (l & Hl & ->).
  rewrite Hfind in Hl. injection Hl as <-.
  assert (Hwf2 : wf (with_servers (remove_first (target c) (servers (collection w1))) w1)).
  { eapply wf_delete_effect; [exact Hwf|]. apply effect_removed. }
  assert (Hgone : target c ∉ remove_first (target c) (servers (collection w1)))
    by apply remove_first_gone, (wf_nodup w1 Hwf).
  split; [exact Hgone|]. split; [exact Hc|].
  split.
  { pose proof (wf_pending w1 Hwf) as Hp. rewrite Forall_forall in Hp.
    apply (Hp c Hc). }
  split.
  - intros actions _. apply (run_pending actions _ c Hwf2 Hc).
  - intros l' Hl'. simpl in *. unfold target in Hgone, Hl'.
    destruct (func c) as [l v]. simpl.
    apply list_lookup_alter_ne. intros ->. exact (Hgone Hl').
Qed.

(** C9: along the life of a collection, whatever the requests, the creation
    behaviors they select and the scheduled calls that fire, an action
    leaves the status of a server as it is or takes it from BUILD to ACTIVE,
    and a server an action creates is in ACTIVE, ERROR or BUILD; no action
    takes a status from BUILD to ERROR or from ACTIVE to BUILD. *)
Theorem C9_status_transitions w a :
  reachable w ->
  (forall l s, heap w !! l = Some s ->
     exists s', heap (perform a w) !! l = Some s'
                /\ (status s' = status s
                    \/ (status s = "BUILD" /\ status s' = "ACTIVE"))
                /\ ~ (status s = "BUILD" /\ status s' = "ERROR")
                /\ ~ (status s = "ACTIVE" /\ status s' = "BUILD"))
  /\ (forall l s', heap w !! l = None -> heap (perform a w) !! l = Some s' ->
        status s' = "ACTIVE" \/ status s' = "ERROR" \/ status s' = "BUILD").
Proof.
  intros Hreach.
  destruct (perform_wf_status a w (reachable_wf w Hreach)) as [_ [H1 H2]].
  split; [|exact H2].
  intros l s Hl. destruct (H1 l s Hl) as (s' & Hs' & Hst).
  exists s'. split; [exact Hs'|]. split; [exact Hst|].
  split; intros [Ha Hb]; destruct Hst as [Hst|[Hst1 Hst2]]; congruence.
Qed.

(** C10: for a server with an image reference, the [image] entry of the
    detail payload has the image reference as its [id] and one bookmark
    link whose [href] is built from the tenant and the server's
    [flavor_ref]; the payload is made whenever the two timestamps of the
    server can be; it is the payload a read returns, and each item of a
    detailed list. *)
Theorem C10_image_link_from_flavor_ref http id abs w l self :
  image_ref self <> JNull ->
  server_by_id id w = Some l ->
  heap w !! l = Some self ->
  let tenant := tenant_id (collection w) in
  (forall detail,
     detail_json tenant abs self = Ok detail ->
     py_getitem detail "image"
     = Ok (JObj [ ("id", image_ref self);
                  ("links", JArr [ JObj [
                     ("href", JStr (abs (tenant ++ "/images/"
                                           ++ format_arg (flavor_ref self))));
                     ("rel", JStr "bookmark") ] ]) ]))
  /\ (forall created updated,
        seconds_to_timestamp (creation_time self) = Ok created ->
        seconds_to_timestamp (update_time self) = Ok updated ->
        exists detail, detail_json tenant abs self = Ok detail)
  /\ request_read http id abs w
     = (match detail_json tenant abs self with
        | Ok detail => Ok (Some (dumps (JObj [("server", detail)])), http)
        | Raise x => Raise x
        end, w)
  /\ (forall filter_name items,
        list_payloads tenant abs true filter_name (heap w)
          (servers (collection w)) = Ok items ->
        forall item, item ∈ items ->
        exists l' s, l' ∈ servers (collection w) /\ heap w !! l' = Some s
                     /\ detail_json tenant abs s = Ok item).
Proof.
  intros Himg Hfind Hl tenant. split; [|split; [|split]].
  - intros detail. unfold detail_json.
    destruct (seconds_to_timestamp (creation_time self)) as [created|x];
      [|discriminate].
    destruct (seconds_to_timestamp (update_time self)) as [updated|x];
      [|discriminate].
    intros [= <-]. unfold image_json.
    destruct (image_ref self) eqn:E; try congruence; reflexivity.
  - intros created updated Hc Hu. unfold detail_json. rewrite Hc, Hu.
    simpl. eauto.
  - unfold request_read. munfold. rewrite Hfind, Hl.
    fold tenant. destruct (detail_json tenant abs self); reflexivity.
  - intros filter_name. generalize (servers (collection w)) as refs.
    induction refs as [|l' refs IH]; intros items Hitems item Hin;
      simpl in Hitems.
    + injection Hitems as <-. inversion Hin.
    + destruct (heap w !! l') as [s|] eqn:Hs; [|discriminate].
      destruct (py_contains filter_name (server_name s)) as [[|]|x]; simpl in Hitems;
        try discriminate.
      * destruct (detail_json tenant abs s) as [d|x] eqn:Hd;
          simpl in Hitems; [|discriminate].
        destruct (list_payloads _ _ _ _ _ refs) as [rest|x] eqn:Hrest;
          simpl in Hitems; [|discriminate].
        injection Hitems as <-. apply elem_of_cons in Hin as [->|Hin].
        -- exists l', s. split; [left|]. auto.
        -- destruct (IH rest eq_refl item Hin) as (l2 & s2 & H1 & H2 & H3).
           exists l2, s2. split; [right; exact H1|]. auto.
      * destruct (IH items Hitems item Hin) as (l2 & s2 & H1 & H2 & H3).
        exists l2, s2. split; [right; exact H1|]. auto.
Qed.

(** ** Further properties of the module *)

(** The list comprehension of [request_list] on servers whose names are
    strings: the payloads of the servers that pass the filter, in order, or
    the first exception the making of one raises. *)
Lemma list_payloads_strings tenant abs details filter_name h refs :
  Forall (fun l => l < length h) refs ->
  Forall (fun s => is_string (server_name s) = true)
    (omap (fun l => h !! l) refs) ->
  list_payloads tenant abs details filter_name h refs
  = collect (map (list_item tenant abs details)
               (List.filter (name_contains filter_name)
                  (omap (fun l => h !! l) refs))).
Proof.
  induction 1 as [|l refs Hl Hb IH]; [reflexivity|].
  cbn [omap list_omap list_payloads].
  apply lookup_lt_is_Some in Hl as [s Hs]. rewrite Hs. cbn [mbind option_bind].
  intros Hnames. fold (omap (fun l => h !! l) refs) in *.
  apply Forall_cons in Hnames as [Hname Hnames].
  specialize (IH Hnames). cbn [List.filter]. unfold name_contains at 1.
  destruct (server_name s) as [ | | | |n| |]; try discriminate.
  cbn [py_contains result_bind].
  destruct (str_contains filter_name n); rewrite IH; reflexivity.
Qed.

Lemma collect_brief tenant abs ss :
  collect (map (list_item tenant abs false) ss)
  = Ok (map (brief_json tenant abs) ss).
Proof.
  induction ss as [|s ss IH]; [reflexivity|].
  cbn [map collect list_item result_bind]. rewrite IH. reflexivity.
Qed.

(** The list comprehension never returns when a server has a name on which
    [in] raises; what it raises is that [TypeError], unless the payload of
    a server before it could not be made. *)
Lemma list_payloads_unsearchable tenant abs details filter_name h refs l s :
  Forall (fun l => l < length h) refs ->
  l ∈ refs ->
  h !! l = Some s ->
  unsearchable (server_name s) = true ->
  exists x,
    list_payloads tenant abs details filter_name h refs = Raise x
    /\ (x = TypeError
        \/ (details = true
            /\ exists l' s', l' ∈ refs /\ h !! l' = Some s'
                             /\ detail_json tenant abs s' = Raise x)).
Proof.
  intros Hb. revert l s. induction Hb as [|l0 refs Hl0 Hb IH]; intros l s Hin Hs Hbad.
  - inversion Hin.
  - cbn [list_payloads]. apply lookup_lt_is_Some in Hl0 as [s0 Hs0]. rewrite Hs0.
    destruct (py_contains filter_name (server_name s0)) as [keep|x] eqn:Hc.
    + apply elem_of_cons in Hin as [->|Hin].
      * rewrite Hs in Hs0. injection Hs0 as <-.
        destruct (server_name s); simpl in Hbad, Hc; discriminate.
      * cbn [result_bind].
        destruct (IH l s Hin Hs Hbad) as (x & Hx & Hor).
        assert (Hor' : x = TypeError
                  \/ (details = true
                      /\ exists l' s', l' ∈ l0 :: refs /\ h !! l' = Some s'
                                       /\ detail_json tenant abs s' = Raise x)).
        { destruct Hor as [->|(Hd & l' & s' & H1 & H2 & H3)]; [left; reflexivity|].
          right. split; [exact Hd|]. exists l', s'. split; [right; exact H1|]. auto. }
        destruct keep; [|exists x; split; [exact Hx | exact Hor']].
        unfold list_item. destruct details.
        -- destruct (detail_json tenant abs s0) as [d|y] eqn:Hd0.
           ++ cbn [result_bind]. rewrite Hx. exists x. split; [reflexivity | exact Hor'].
           ++ exists y. split; [reflexivity|]. right. split; [reflexivity|].
              exists l0, s0. split; [left|]. auto.
        -- cbn [result_bind]. rewrite Hx. exists x. split; [reflexivity | exact Hor'].
    + apply py_contains_raises in Hc. subst x. exists TypeError.
      split; [reflexivity | left; reflexivity].
Qed.

(** X1: on a collection whose servers all have string names, a list request
    leaves the store and the response code as they are and goes, in
    insertion order, through exactly the servers whose name contains the
    filter: it returns their payloads, or raises what the making of the
    first payload that cannot be made raises.  A brief payload can always
    be made, so a brief list always returns. *)
Theorem list_returns_the_matching_servers http details abs filter_name w :
  wf w ->
  Forall (fun s => is_string (server_name s) = true) (held w) ->
  request_list http details abs filter_name w
  = (match collect (map (list_item (tenant_id (collection w)) abs details)
                      (List.filter (name_contains filter_name) (held w))) with
     | Ok items => Ok (dumps (JObj [("servers", JArr items)]), http)
     | Raise x => Raise x
     end, w)
  /\ (details = false ->
      request_list http details abs filter_name w
      = (Ok (dumps (JObj [("servers", JArr
                (map (brief_json (tenant_id (collection w)) abs)
                   (List.filter (name_contains filter_name) (held w))))]),
             http),
         w)).
Proof.
  intros Hwf Hnames.
  assert (Hlist : request_list http details abs filter_name w
    = (match collect (map (list_item (tenant_id (collection w)) abs details)
                        (List.filter (name_contains filter_name) (held w))) with
       | Ok items => Ok (dumps (JObj [("servers", JArr items)]), http)
       | Raise x => Raise x
       end, w)).
  { unfold request_list. munfold.
    rewrite (list_payloads_strings _ _ _ _ _ _ (wf_bound w Hwf) Hnames).
    fold (held w). destruct (collect _); reflexivity. }
  split; [exact Hlist|].
  intros ->. rewrite Hlist, collect_brief. reflexivity.
Qed.

(** X2: with the empty filter, the default of the [name] parameter, every
    server of the collection is listed: the request goes through all of
    them, in insertion order. *)
Theorem list_with_empty_filter_returns_all http details abs w :
  wf w ->
  Forall (fun s => is_string (server_name s) = true) (held w) ->
  request_list http details abs "" w
  = (match collect (map (list_item (tenant_id (collection w)) abs details)
                      (held w)) with
     | Ok items => Ok (dumps (JObj [("servers", JArr items)]), http)
     | Raise x => Raise x
     end, w)
  /\ (details = false ->
      request_list http details abs "" w
      = (Ok (dumps (JObj [("servers", JArr
                (map (brief_json (tenant_id (collection w)) abs) (held w)))]),
             http),
         w)).
Proof.
  intros Hwf Hnames.
  assert (Hlist : request_list http details abs "" w
    = (match collect (map (list_item (tenant_id (collection w)) abs details)
                        (held w)) with
       | Ok items => Ok (dumps (JObj [("servers", JArr items)]), http)
       | Raise x => Raise x
       end, w)).
  { unfold request_list. munfold.
    rewrite (list_payloads_strings _ _ _ _ _ _ (wf_bound w Hwf) Hnames).
    fold (held w). rewrite (filter_name_contains_empty _ Hnames).
    destruct (collect _); reflexivity. }
  split; [exact Hlist|].
  intros ->. rewrite Hlist, collect_brief. reflexivity.
Qed.

(** X3: one server whose name is a number, a boolean or null makes every
    list request on its collection raise, whatever the filter, and leaves
    the store as it is.  A brief list raises [TypeError]; so does a
    detailed one, unless the payload of a server of the collection could
    not be made, and then it raises what the making of that payload
    raises. *)
Theorem list_raises_on_a_name_that_is_no_text http details abs filter_name w l s :
  wf w ->
  l ∈ servers (collection w) ->
  heap w !! l = Some s ->
  unsearchable (server_name s) = true ->
  exists x,
    request_list http details abs filter_name w = (Raise x, w)
    /\ (details = false -> x = TypeError)
    /\ (x = TypeError
        \/ exists l' s', l' ∈ servers (collection w) /\ heap w !! l' = Some s'
                         /\ detail_json (tenant_id (collection w)) abs s'
                            = Raise x).
Proof.
  intros Hwf Hin Hs Hbad.
  destruct (list_payloads_unsearchable (tenant_id (collection w)) abs details
              filter_name _ _ l s (wf_bound w Hwf) Hin Hs Hbad)
    as (x & Hx & Hor).
  exists x. split; [|split].
  - unfold request_list. munfold. rewrite Hx. reflexivity.
  - intros ->. destruct Hor as [->|[Hd _]]; [reflexivity | discriminate].
  - destruct Hor as [->|(_ & l' & s' & H)]; [left; reflexivity|].
    right. exists l', s'. exact H.
Qed.

(** X4: a lookup by id after a creation by the default behavior.  An id
    the collection already has still leads to the server that had it, so a
    new server that drew the same id cannot be read or deleted as long as
    the older one is there; the id of the new server leads to it when no
    server had it, and a read then answers with its detail payload, or
    raises what the making of the payload raises; any other id leads where
    it led. *)
Theorem lookup_after_creation http cj abs w sj :
  wf w ->
  server_json_of cj = Some sj ->
  valid_server_json sj = true ->
  exists s e body,
    call_behavior default_behavior http cj abs w
    = (Ok (body, setResponseCode ACCEPTED http), appended s e w)
    /\ (forall id l, server_by_id id w = Some l ->
                     server_by_id id (appended s e w) = Some l)
    /\ (server_id s ∉ collection_ids w ->
        server_by_id (server_id s) (appended s e w) = Some (length (heap w))
        /\ request_read http (server_id s) abs (appended s e w)
           = (match detail_json (tenant_id (collection w)) abs s with
              | Ok detail => Ok (Some (dumps (JObj [("server", detail)])), http)
              | Raise x => Raise x
              end, appended s e w))
    /\ (forall id, id <> server_id s ->
                   server_by_id id (appended s e w) = server_by_id id w).
Proof.
  intros Hwf Hsj Hv.
  destruct (call_default_behavior_ok http cj abs w sj Hsj Hv)
    as (s & e & body & Hcall & _).
  exists s, e, body. split; [exact Hcall|].
  assert (Hlook : forall id, server_by_id id (appended s e w)
            = match server_by_id id w with
              | Some l => Some l
              | None => if String.eqb (server_id s) id
                        then Some (length (heap w)) else None
              end).
  { intros id. unfold server_by_id. simpl.
    apply find_by_id_snoc, (wf_bound w Hwf). }
  split; [|split].
  - intros id l Hl. rewrite Hlook, Hl. reflexivity.
  - intros Hfresh.
    assert (Hnew : server_by_id (server_id s) (appended s e w)
                   = Some (length (heap w))).
    { rewrite Hlook.
      replace (server_by_id (server_id s) w) with (@None nat).
      - rewrite String.eqb_refl. reflexivity.
      - symmetry. apply (find_by_id_none _ _ _ (wf_bound w Hwf)). exact Hfresh. }
    split; [exact Hnew|].
    unfold request_read. munfold. rewrite Hnew. simpl.
    rewrite lookup_snoc. destruct (detail_json _ abs s); reflexivity.
  - intros id Hne. rewrite Hlook. destruct (server_by_id id w); [reflexivity|].
    destruct (String.eqb_spec (server_id s) id); [congruence | reflexivity].
Qed.

(** X5: a delete that answers 204 leaves the lookups of the other ids as
    they were.  When the ids of the collection are distinct the deleted id
    leads nowhere afterwards: a read of it and a second delete answer 404
    and change nothing. *)
Theorem lookups_after_delete http id w body w' :
  wf w ->
  request_delete http id w = (Ok (body, {| code := JInt 204 |}), w') ->
  (forall id', id' <> id -> server_by_id id' w' = server_by_id id' w)
  /\ (NoDup (collection_ids w) ->
      server_by_id id w' = None
      /\ (forall http' abs,
            request_read http' id abs w'
            = (Ok (None, {| code := JInt 404 |}), w'))
      /\ (forall http',
            request_delete http' id w'
            = (Ok ("", {| code := JInt 404 |}), w'))).
Proof.
  intros Hwf Hdel.
  destruct (request_delete_204 _ _ _ _ _ Hdel) as (l & Hfind & ->).
  destruct (find_by_id_some _ _ _ _ Hfind) as (s & Hs & Hid).
  split.
  - intros id' Hne. unfold server_by_id. simpl.
    apply (find_by_id_remove_other _ _ l s id id' Hs Hid Hne).
  - intros Hnd.
    assert (Hnone : server_by_id id
              (with_servers (remove_first l (servers (collection w))) w) = None).
    { unfold server_by_id. simpl.
      apply find_by_id_remove_same; [apply (wf_bound w Hwf) | exact Hnd | exact Hfind]. }
    split; [exact Hnone|]. split.
    + intros http' abs. unfold request_read. munfold. rewrite Hnone. reflexivity.
    + intros http'. unfold request_delete. munfold. rewrite Hnone. reflexivity.
Qed.

Lemma call_hooked_error_ok http cj abs w sj :
  server_json_of cj = Some sj ->
  valid_server_json sj = true ->
  exists s e body,
    call_behavior (hooked set_error) http cj abs w
    = (Ok (body, setResponseCode ACCEPTED http), appended s e w)
    /\ status s = "ERROR".
Proof.
  intros Hsj Hv. destruct (valid_server_json_disk sj Hv) as [Hf Hd].
  destruct (from_creation_request_json_ok cj sj w Hsj Hf Hd)
    as (s & e & Hc & _).
  exists (set_status "ERROR" s), e. eexists. split; [|reflexivity].
  simpl. unfold default_create_behavior. unfold bind at 1. rewrite Hc.
  unfold run_hook. munfold. cbn. rewrite alter_snoc, lookup_snoc. reflexivity.
Qed.

(** Once a creation is over, a server that has no call scheduled keeps its
    status along every run. *)
Lemma appended_settled s e w actions :
  wf w ->
  status_at (run actions (appended s e w)) (length (heap w)) = Some (status s).
Proof.
  intros Hwf. rewrite run_settled.
  - apply status_at_new.
  - apply wf_appended, Hwf.
  - simpl. rewrite length_app. simpl. lia.
  - apply appended_unscheduled, Hwf.
Qed.

(** X6: a creation request whose metadata has [server_error], and neither
    of the two keys that come before it, creates a server in status ERROR,
    and the server is in ERROR after every run of requests and advances of
    the clock: nothing is scheduled for it. *)
Theorem error_status_is_final http cj abs w sj v :
  wf w ->
  server_json_of cj = Some sj ->
  valid_server_json sj = true ->
  dict_lookup (metadata_of cj) "create_server_failure" = None ->
  dict_lookup (metadata_of cj) "server_building" = None ->
  dict_lookup (metadata_of cj) "server_error" = Some v ->
  exists s e body,
    request_creation http cj abs w
    = (Ok (body, setResponseCode ACCEPTED http), appended s e w)
    /\ status s = "ERROR"
    /\ calls (clock (collection (appended s e w))) = calls (clock (collection w))
    /\ forall actions,
         status_at (run actions (appended s e w)) (length (heap w))
         = Some "ERROR".
Proof.
  intros Hwf Hsj Hv Hnf Hnb He.
  destruct (valid_server_json_disk sj Hv) as [Hf _].
  destruct (call_hooked_error_ok http cj abs w sj Hsj Hv)
    as (s & e & body & Hcall & Hst).
  exists s, e, body. split.
  - rewrite (request_creation_resolved http cj abs w sj Hsj
               (valid_fields_metadata sj Hf)).
    unfold resolve_by_priority. rewrite Hnf, Hnb, He. exact Hcall.
  - split; [exact Hst|]. split; [reflexivity|].
    intros actions. rewrite (appended_settled s e w actions Hwf), Hst.
    reflexivity.
Qed.

(** X7: a server created by the default behavior is in ACTIVE after every
    run of requests and advances of the clock. *)
Theorem active_status_is_final http cj abs w sj :
  wf w ->
  server_json_of cj = Some sj ->
  valid_server_json sj = true ->
  exists s e body,
    call_behavior default_behavior http cj abs w
    = (Ok (body, setResponseCode ACCEPTED http), appended s e w)
    /\ forall actions,
         status_at (run actions (appended s e w)) (length (heap w))
         = Some "ACTIVE".
Proof.
  intros Hwf Hsj Hv.
  destruct (call_default_behavior_ok http cj abs w sj Hsj Hv)
    as (s & e & body & Hcall & Hst & _).
  exists s, e, body. split; [exact Hcall|].
  intros actions. rewrite (appended_settled s e w actions Hwf), Hst.
  reflexivity.
Qed.

(** X8: [Server.from_creation_request_json] adds a server or nothing: when
    it raises, whatever the request, the collection and the servers are as
    they were; only the random source may have been drawn from. *)
Theorem creation_that_raises_adds_nothing cj w x w' :
  from_creation_request_json cj default_ipsegment w = (Raise x, w') ->
  collection w' = collection w
  /\ heap w' = heap w
  /\ forall http abs hook,
       exists w'', default_create_behavior http cj abs default_ipsegment hook w
                   = (Raise x, w'')
                   /\ collection w'' = collection w /\ heap w'' = heap w.
Proof.
  intros Hraise.
  assert (H : collection w' = collection w /\ heap w' = heap w).
  { destruct (from_creation_request_json_cases cj w)
      as [(x0 & e & Hc) | (s & e & Hc & _)];
      rewrite Hc in Hraise; [|discriminate].
    injection Hraise as _ <-. split; reflexivity. }
  destruct H as [H1 H2]. split; [exact H1|]. split; [exact H2|].
  intros http abs hook. exists w'.
  unfold default_create_behavior. unfold bind at 1. rewrite Hraise. auto.
Qed.

(** X9: the fields a creation needs.  Without a [server] entry the request
    raises [KeyError] for it; with one, [from_creation_request_json] raises
    [KeyError] for the first of [name], [flavorRef] and [imageRef] that is
    missing, and no server is added.  A missing [name] is found before
    anything is drawn; a missing [flavorRef] or [imageRef] only after the
    draws of the id and of the three address segments, four draws the
    random source has then lost. *)
Theorem missing_fields_raise_key_errors http abs w :
  (forall kvs,
     dict_lookup kvs "server" = None ->
     request_creation http (JObj kvs) abs w = (Raise (KeyError "server"), w))
  /\ (forall cj sj,
        server_json_of cj = Some sj ->
        auto_or_manual (chosen_disk_config sj) = true ->
        (dict_lookup sj "name" = None ->
         from_creation_request_json cj default_ipsegment w
         = (Raise (KeyError "name"), w))
        /\ (forall nm,
              dict_lookup sj "name" = Some nm ->
              (dict_lookup sj "flavorRef" = None ->
               from_creation_request_json cj default_ipsegment w
               = (Raise (KeyError "flavorRef"),
                  with_entropy (drawn 4 (entropy w)) w))
              /\ (forall fl,
                    dict_lookup sj "flavorRef" = Some fl ->
                    dict_lookup sj "imageRef" = None ->
                    from_creation_request_json cj default_ipsegment w
                    = (Raise (KeyError "imageRef"),
                       with_entropy (drawn 4 (entropy w)) w)))).
Proof.
  split.
  - intros kvs Hnone. unfold request_creation. munfold.
    cbn [py_get py_getitem]. rewrite Hnone.
    cbn [py_get dict_lookup]. reflexivity.
  - intros cj sj Hsj Hd.
    destruct (server_json_of_inv _ _ Hsj) as (kvs & -> & Hk).
    split.
    + intros Hnm. unfold from_creation_request_json. munfold.
      cbn [py_getitem py_get]. rewrite Hk. cbn [py_get].
      fold (chosen_disk_config sj). rewrite Hd. cbn [negb].
      unfold py_getitem. rewrite Hnm. reflexivity.
    + intros nm Hnm. split.
      * intros Hfl.
        unfold from_creation_request_json. munfold.
        cbn [py_getitem py_get]. rewrite Hk. cbn [py_get].
        fold (chosen_disk_config sj). rewrite Hd. cbn [negb].
        unfold py_getitem. rewrite Hnm, Hfl.
        cbn -[str_of_Z String.append Z.modulo]. reflexivity.
      * intros fl Hfl Himg.
        unfold from_creation_request_json. munfold.
        cbn [py_getitem py_get]. rewrite Hk. cbn [py_get].
        fold (chosen_disk_config sj). rewrite Hd. cbn [negb].
        unfold py_getitem. rewrite Hnm, Hfl, Himg.
        cbn -[str_of_Z String.append Z.modulo]. reflexivity.
Qed.

(** X10: the predicate of [metadata_criterion].  On a metadata mapping of
    strings, when the patterns compile, it holds exactly when every pattern
    matches the value its key has in the metadata, a key the metadata does
    not have counting as the empty string. *)
Theorem metadata_criterion_matches_every_pair value md :
  Forall (fun kv => re_compiles (snd kv) = true) value ->
  string_mapping (JObj md) = true ->
  predicate (metadata_criterion value) (JObj md)
  = Ok (forallb (fun kv => re_match (snd kv) (text_at md (fst kv))) value).
Proof.
  intros Hc Hmd. simpl. induction Hc as [|[k v] value Hv Hc IH]; [reflexivity|].
  simpl in Hv. cbn [metadata_predicate forallb fst snd]. rewrite Hv.
  cbn [py_get result_bind]. unfold text_at at 1.
  destruct (dict_lookup md k) as [j|] eqn:Hk.
  - destruct (string_mapping_lookup md k j Hmd Hk) as (s & ->).
    destruct (re_match v s); [exact IH | reflexivity].
  - destruct (re_match v ""); [exact IH | reflexivity].
Qed.

(** X11: an override value that cannot be read makes the request raise
    with the store untouched: a [create_server_failure] text that is not
    JSON raises [ValueError], one that is JSON but not an object raises
    [AttributeError], and a [server_building] text that is not a number
    raises [ValueError]. *)
Theorem unreadable_override_values_raise http cj abs w sj md :
  server_json_of cj = Some sj ->
  dict_lookup sj "metadata" = Some (JObj md) ->
  (forall text,
     dict_lookup md "create_server_failure" = Some (JStr text) ->
     (loads text = None ->
      request_creation http cj abs w
      = (Raise (ValueError "No JSON object could be decoded"), w))
     /\ (forall v, loads text = Some v ->
                   (forall parameters, v <> JObj parameters) ->
                   request_creation http cj abs w = (Raise AttributeError, w)))
  /\ (forall text,
        dict_lookup md "create_server_failure" = None ->
        dict_lookup md "server_building" = Some (JStr text) ->
        float_of_string text = None ->
        request_creation http cj abs w
        = (Raise (ValueError "could not convert string to float"), w)).
Proof.
  intros Hsj Hmd.
  destruct (server_json_of_inv _ _ Hsj) as (kvs & -> & Hk).
  assert (Hrun : request_creation http (JObj kvs) abs w
                 = match metadata_to_creation_behavior (JObj md) with
                   | Raise x => (Raise x, w)
                   | Ok o => request_creation http (JObj kvs) abs w
                   end).
  { unfold request_creation. munfold. cbn [py_get]. rewrite Hk. cbn [py_get].
    rewrite Hmd. destruct (metadata_to_creation_behavior (JObj md)); reflexivity. }
  split.
  - intros text Hkey. split.
    + intros Hloads. rewrite Hrun. unfold metadata_to_creation_behavior.
      cbn [py_contains py_getitem result_bind]. rewrite Hkey.
      cbn [py_loads result_bind]. rewrite Hloads. reflexivity.
    + intros v Hloads Hnot. rewrite Hrun. unfold metadata_to_creation_behavior.
      cbn [py_contains py_getitem result_bind]. rewrite Hkey.
      cbn [py_loads result_bind]. rewrite Hloads. cbn [result_bind].
      destruct v; try reflexivity. exfalso. apply (Hnot kvs0). reflexivity.
  - intros text Hnf Hkey Hfloat. rewrite Hrun.
    unfold metadata_to_creation_behavior.
    cbn [py_contains py_getitem result_bind]. rewrite Hnf, Hkey.
    cbn [py_float result_bind]. rewrite Hfloat. reflexivity.
Qed.

(** X12: a request whose [metadata] is null raises [TypeError] before any
    behavior is chosen and nothing is created, although
    [from_creation_request_json] takes a null metadata for an empty one. *)
Theorem null_metadata_raises http cj abs w sj :
  server_json_of cj = Some sj ->
  dict_lookup sj "metadata" = Some JNull ->
  request_creation http cj abs w = (Raise TypeError, w)
  /\ (required is_string (dict_lookup sj "name") = true ->
      required is_string (dict_lookup sj "flavorRef") = true ->
      required string_or_null (dict_lookup sj "imageRef") = true ->
      auto_or_manual (chosen_disk_config sj) = true ->
      exists s e,
        from_creation_request_json cj default_ipsegment w
        = (Ok (length (heap w)), appended s e w)
        /\ metadata s = JObj []).
Proof.
  intros Hsj Hmd. destruct (server_json_of_inv _ _ Hsj) as (kvs & -> & Hk).
  split.
  - unfold request_creation. munfold. cbn [py_get]. rewrite Hk. cbn [py_get].
    rewrite Hmd. reflexivity.
  - intros Hname Hfl Himg Hd.
    apply required_inv in Hname as (nm & Hnm & _).
    apply required_inv in Hfl as (fl & Hfl & _).
    apply required_inv in Himg as (img & Himg & _).
    unfold from_creation_request_json. munfold. cbn [py_getitem py_get].
    rewrite Hk. cbn [py_get]. fold (chosen_disk_config sj). rewrite Hd.
    cbn [negb]. unfold py_getitem. rewrite Hnm, Hfl, Himg, Hmd.
    cbn -[str_of_Z String.append Z.modulo].
    destruct (random_string 12 _) as [p e'] eqn:Ers.
    eexists _, e'. split; reflexivity.
Qed.

(** One delete of a server whose metadata holds the descriptor text. *)
Lemma request_delete_counts http id w l server md n :
  server_by_id id w = Some l ->
  heap w !! l = Some server ->
  metadata server = JObj md ->
  dict_lookup md "delete_server_failure"
  = Some (JStr (dumps (failure_descriptor n))) ->
  loads (dumps (failure_descriptor n)) = Some (failure_descriptor n) ->
  request_delete http id w
  = if (n =? 0)%Z then
      (Ok ("", {| code := JInt 204 |}),
       with_servers (remove_first l (servers (collection w))) w)
    else
      (Ok ("", {| code := JInt 500 |}),
       with_heap
         (alter (set_metadata
                   (JObj (dict_set md "delete_server_failure"
                            (JStr (dumps (failure_descriptor (n - 1)))))))
            l (heap w)) w).
Proof.
  intros Hfind Hl Hmd Hkey Hloads.
  unfold request_delete. munfold. rewrite Hfind, Hl, Hmd.
  cbn [py_contains py_getitem]. rewrite Hkey.
  cbn [py_loads]. rewrite Hloads. unfold failure_descriptor.
  cbn [py_getitem dict_lookup String.eqb Ascii.eqb Bool.eqb py_truthy].
  simpl dict_lookup. cbn [py_truthy]. destruct (n =? 0)%Z; reflexivity.
Qed.

(** X13: the count of a delete.  A server whose metadata holds the
    descriptor [{"times": n}], on a runtime that reads back the descriptors
    it writes, answers 500 to the first [n] deletes and stays in the
    collection, and answers 204 to the next one and leaves it. *)
Theorem delete_fails_n_times_then_succeeds http id (n : nat) :
  (forall m : nat, m <= n ->
     loads (dumps (failure_descriptor (Z.of_nat m)))
     = Some (failure_descriptor (Z.of_nat m))) ->
  forall w l server md,
    wf w ->
    server_by_id id w = Some l ->
    heap w !! l = Some server ->
    metadata server = JObj md ->
    dict_lookup md "delete_server_failure"
    = Some (JStr (dumps (failure_descriptor (Z.of_nat n)))) ->
    (forall k, k < n ->
       let wk := run (repeat (do_delete http id) k) w in
       fst (request_delete http id wk) = Ok ("", {| code := JInt 500 |})
       /\ (l ∈ servers (collection (snd (request_delete http id wk)))))
    /\ (let wn := run (repeat (do_delete http id) n) w in
        fst (request_delete http id wn) = Ok ("", {| code := JInt 204 |})
        /\ (l ∉ servers (collection (snd (request_delete http id wn))))).
Proof.
  induction n as [|n IH]; intros Hrt w l server md Hwf Hfind Hl Hmd Hkey.
  - split; [intros k Hk; lia|]. cbn [repeat run fold_left].
    rewrite (request_delete_counts http id w l server md 0 Hfind Hl Hmd Hkey
               (Hrt 0 (le_n 0))).
    simpl. split; [reflexivity|]. apply remove_first_gone, (wf_nodup w Hwf).
  - pose proof (request_delete_counts http id w l server md (Z.of_nat (S n))
                  Hfind Hl Hmd Hkey (Hrt (S n) (le_n _))) as Hstep.
    replace (Z.of_nat (S n) =? 0)%Z with false in Hstep
      by (symmetry; apply Z.eqb_neq; lia).
    replace (Z.of_nat (S n) - 1)%Z with (Z.of_nat n) in Hstep by lia.
    set (md' := dict_set md "delete_server_failure"
                  (JStr (dumps (failure_descriptor (Z.of_nat n))))) in *.
    set (w' := with_heap (alter (set_metadata (JObj md')) l (heap w)) w) in *.
    assert (Hwf' : wf w').
    { eapply wf_delete_effect; [exact Hwf|]. apply effect_counted. }
    assert (Hfind' : server_by_id id w' = Some l).
    { unfold server_by_id, w'. simpl. rewrite find_by_id_set_metadata. exact Hfind. }
    assert (Hl' : heap w' !! l = Some (set_metadata (JObj md') server)).
    { unfold w'. simpl. rewrite list_lookup_alter_eq, Hl. reflexivity. }
    assert (Hkey' : dict_lookup md' "delete_server_failure"
                    = Some (JStr (dumps (failure_descriptor (Z.of_nat n)))))
      by apply dict_lookup_set.
    destruct (IH (fun m Hm => Hrt m (le_S _ _ Hm)) w' l _ md' Hwf' Hfind' Hl'
                eq_refl Hkey') as [IH1 IH2].
    assert (Hrun : forall k, run (repeat (do_delete http id) (S k)) w
                             = run (repeat (do_delete http id) k) w').
    { intros k. cbn [repeat run fold_left perform]. rewrite Hstep. reflexivity. }
    split.
    + intros [|k] Hk.
      * cbn [repeat run fold_left]. rewrite Hstep. simpl.
        split; [reflexivity|]. apply (find_by_id_elem _ _ _ _ Hfind).
      * cbv zeta. rewrite Hrun. apply IH1. lia.
    + cbv zeta. rewrite Hrun. exact IH2.
Qed.

(** X14: the count is tested for truth, not for being positive: with a
    negative count a delete answers 500, keeps the server and writes back
    the count less one, further from zero: afterwards the id still leads to
    the server and its metadata reads the descriptor with that count. *)
Theorem negative_count_fails_and_decreases http id w l server md text srvfail n :
  server_by_id id w = Some l ->
  heap w !! l = Some server ->
  metadata server = JObj md ->
  dict_lookup md "delete_server_failure" = Some (JStr text) ->
  loads text = Some (JObj srvfail) ->
  dict_lookup srvfail "times" = Some (JInt n) ->
  (n < 0)%Z ->
  let srvfail' := JObj (dict_set srvfail "times" (JInt (n - 1))) in
  let md' := JObj (dict_set md "delete_server_failure" (JStr (dumps srvfail'))) in
  let w' := with_heap (alter (set_metadata md') l (heap w)) w in
  request_delete http id w = (Ok ("", {| code := JInt 500 |}), w')
  /\ servers (collection w') = servers (collection w)
  /\ server_by_id id w' = Some l
  /\ exists server',
       heap w' !! l = Some server'
       /\ metadata server' = md'
       /\ py_getitem (metadata server') "delete_server_failure"
          = Ok (JStr (dumps srvfail'))
       /\ py_getitem srvfail' "times" = Ok (JInt (n - 1))
       /\ (n - 1 < n)%Z.
Proof.
  intros Hfind Hl Hmd Hkey Hloads Htimes Hneg. cbv zeta.
  split; [|split; [|split]].
  - unfold request_delete. munfold. rewrite Hfind, Hl, Hmd.
    cbn [py_contains py_getitem]. rewrite Hkey.
    cbn [py_loads]. rewrite Hloads. cbn [py_getitem]. rewrite Htimes.
    cbn [py_truthy].
    replace (n =? 0)%Z with false by (symmetry; apply Z.eqb_neq; lia).
    reflexivity.
  - reflexivity.
  - unfold server_by_id. simpl. rewrite find_by_id_set_metadata. exact Hfind.
  - destruct (stored_metadata
                (JObj (dict_set md "delete_server_failure"
                   (JStr (dumps (JObj (dict_set srvfail "times"
                                         (JInt (n - 1))))))))
                l (heap w) server Hl)
      as (server' & Hl' & Hmd' & _).
    exists server'. split; [exact Hl'|]. split; [exact Hmd'|].
    split; [rewrite Hmd'; cbn [py_getitem]; rewrite dict_lookup_set; reflexivity|].
    split; [cbn [py_getitem]; rewrite dict_lookup_set; reflexivity | lia].
Qed.

(** X15: a descriptor that cannot be used makes every delete of the server
    raise and leaves the store as it is, so the server cannot be deleted:
    a text that is not JSON raises [ValueError], a descriptor object without
    [times] raises [KeyError]. *)
Theorem unusable_descriptor_blocks_delete http id w l server md text :
  server_by_id id w = Some l ->
  heap w !! l = Some server ->
  metadata server = JObj md ->
  dict_lookup md "delete_server_failure" = Some (JStr text) ->
  (loads text = None ->
   request_delete http id w
   = (Raise (ValueError "No JSON object could be decoded"), w))
  /\ (forall srvfail,
        loads text = Some (JObj srvfail) ->
        dict_lookup srvfail "times" = None ->
        request_delete http id w = (Raise (KeyError "times"), w)).
Proof.
  intros Hfind Hl Hmd Hkey. split.
  - intros Hloads. unfold request_delete. munfold. rewrite Hfind, Hl, Hmd.
    cbn [py_contains py_getitem]. rewrite Hkey.
    cbn [py_loads]. rewrite Hloads. reflexivity.
  - intros srvfail Hloads Htimes. unfold request_delete. munfold.
    rewrite Hfind, Hl, Hmd. cbn [py_contains py_getitem]. rewrite Hkey.
    cbn [py_loads]. rewrite Hloads. cbn [py_getitem]. rewrite Htimes.
    reflexivity.
Qed.

(** X16: reads leave every store as it is.  For an id no server of the
    collection has, a read and an address request return no body with code
    404.  For the id of a server, the address request returns its addresses
    with code 200 and never raises; the read returns its detail payload
    with the response code it was given whenever the two timestamps of the
    server can be made, and raises what the making of the payload raises
    otherwise. *)
Theorem reads_answer_on_every_store http id abs w :
  match server_by_id id w with
  | Some l =>
      exists s,
        heap w !! l = Some s /\ server_id s = id
        /\ request_read http id abs w
           = (match detail_json (tenant_id (collection w)) abs s with
              | Ok detail => Ok (Some (dumps (JObj [("server", detail)])), http)
              | Raise x => Raise x
              end, w)
        /\ (forall created updated,
              seconds_to_timestamp (creation_time s) = Ok created ->
              seconds_to_timestamp (update_time s) = Ok updated ->
              exists body, request_read http id abs w = (Ok (Some body, http), w))
        /\ (forall x,
              seconds_to_timestamp (creation_time s) = Raise x ->
              request_read http id abs w = (Raise x, w))
        /\ request_ips http id w
           = (Ok (Some (dumps (JObj [("addresses", addresses_json s)])),
                  {| code := JInt 200 |}), w)
  | None =>
      request_read http id abs w = (Ok (None, {| code := JInt 404 |}), w)
      /\ request_ips http id w = (Ok (None, {| code := NOT_FOUND |}), w)
  end.
Proof.
  destruct (server_by_id id w) as [l|] eqn:Hfind.
  - destruct (find_by_id_some _ _ _ _ Hfind) as (s & Hs & Hid).
    exists s. split; [exact Hs|]. split; [exact Hid|].
    assert (Hread : request_read http id abs w
              = (match detail_json (tenant_id (collection w)) abs s with
                 | Ok detail => Ok (Some (dumps (JObj [("server", detail)])), http)
                 | Raise x => Raise x
                 end, w)).
    { unfold request_read. munfold. rewrite Hfind, Hs.
      destruct (detail_json _ abs s); reflexivity. }
    split; [exact Hread|]. split; [|split].
    + intros created updated Hc Hu. rewrite Hread. unfold detail_json.
      rewrite Hc, Hu. simpl. eauto.
    + intros x Hc. rewrite Hread. unfold detail_json. rewrite Hc. reflexivity.
    + unfold request_ips. munfold. rewrite Hfind, Hs. reflexivity.
  - split.
    + unfold request_read. munfold. rewrite Hfind. reflexivity.
    + unfold request_ips. munfold. rewrite Hfind. reflexivity.
Qed.

Lemma default_create_behavior_ignores http http' cj abs abs' hook w :
  snd (default_create_behavior http cj abs default_ipsegment hook w)
  = snd (default_create_behavior http' cj abs' default_ipsegment hook w)
  /\ same_outcome
       (fst (default_create_behavior http cj abs default_ipsegment hook w))
       (fst (default_create_behavior http' cj abs' default_ipsegment hook w)).
Proof.
  unfold default_create_behavior. unfold bind at 1 5 9 13.
  destruct (from_creation_request_json cj default_ipsegment w) as [[l|x] w1];
    [|split; reflexivity].
  unfold bind at 1 4 7 10.
  destruct (match hook with Some f => run_hook f l | None => ret tt end w1)
    as [[[]|x] w2]; [|split; reflexivity].
  unfold bind, deref, gets, ret.
  destruct (heap w2 !! l); split; reflexivity.
Qed.

(** X17: what a creation request does to the store depends on the request
    document alone: the request object and [absolutize_url] decide nothing
    but the links in the body of the response.  With two request objects
    and two URL functions the store left is the same, and the outcomes
    are the same exception or the same response code. *)
Theorem creation_ignores_the_url_function http http' cj abs abs' w :
  snd (request_creation http cj abs w) = snd (request_creation http' cj abs' w)
  /\ same_outcome (fst (request_creation http cj abs w))
                  (fst (request_creation http' cj abs' w)).
Proof.
  assert (Hcall : forall b,
    snd (call_behavior b http cj abs w) = snd (call_behavior b http' cj abs' w)
    /\ same_outcome (fst (call_behavior b http cj abs w))
                    (fst (call_behavior b http' cj abs' w))).
  { intros [|function|sc fm]; simpl.
    - apply default_create_behavior_ignores.
    - apply default_create_behavior_ignores.
    - unfold ret. split; reflexivity. }
  unfold request_creation. munfold.
  destruct (py_get cj "server" (JObj [])) as [sp|x]; [|split; reflexivity].
  destruct (py_get sp "metadata" (JObj [])) as [md|x]; [|split; reflexivity].
  destruct (metadata_to_creation_behavior md) as [[b|]|x]; [| |split; reflexivity].
  - apply Hcall.
  - destruct (py_getitem cj "server") as [sj|x]; [|split; reflexivity].
    destruct (py_getitem sj "name") as [nm|x]; [|split; reflexivity].
    destruct (py_get sj "metadata" JNull) as [md'|x]; [|split; reflexivity].
    destruct (behavior_for_attributes _ _) as [b|x]; [|split; reflexivity].
    apply Hcall.
Qed.

(** X18: the detailed payload of a server, when it can be made, extends
    the brief one: every entry of [brief_json] is an entry of the payload
    [detail_json] returns, with the same value. *)
Theorem detail_extends_brief tenant abs s detail k v :
  detail_json tenant abs s = Ok detail ->
  py_getitem (brief_json tenant abs s) k = Ok v ->
  py_getitem detail k = Ok v.
Proof.
  unfold detail_json.
  destruct (seconds_to_timestamp (creation_time s)) as [created|x];
    [|discriminate].
  destruct (seconds_to_timestamp (update_time s)) as [updated|x];
    [|discriminate].
  intros [= <-].
  unfold brief_json, py_getitem. cbn [dict_lookup].
  destruct (String.eqb_spec "name" k) as [<-|_]; [intros [= <-]; reflexivity|].
  destruct (String.eqb_spec "links" k) as [<-|_]; [intros [= <-]; reflexivity|].
  destruct (String.eqb_spec "id" k) as [<-|_]; [intros [= <-]; reflexivity|].
  discriminate.
Qed.

(** X19: a delete takes one server away.  When another server of the
    collection has the id of the one a delete removes, the id still leads
    to a server afterwards, one that is not the server removed. *)
Theorem delete_uncovers_the_next_holder http id w body w' l' s' :
  wf w ->
  request_delete http id w = (Ok (body, {| code := JInt 204 |}), w') ->
  l' ∈ servers (collection w) ->
  heap w !! l' = Some s' ->
  server_id s' = id ->
  server_by_id id w <> Some l' ->
  exists l'', server_by_id id w' = Some l''
              /\ server_by_id id w <> Some l''
              /\ id_at w' l'' = Some id.
Proof.
  intros Hwf Hdel Hin Hs Hid Hne.
  destruct (request_delete_204 _ _ _ _ _ Hdel) as (l & Hfind & ->).
  assert (Hl : l' <> l) by congruence.
  destruct (find_by_id_holder (heap w) (remove_first l (servers (collection w)))
              id l' s' (remove_first_other _ _ _ Hl Hin) Hs Hid) as (l'' & Hl'').
  exists l''. split; [exact Hl''|]. split.
  - rewrite Hfind. intros [= ->].
    apply (remove_first_gone l'' _ (wf_nodup w Hwf)).
    apply (find_by_id_elem _ _ _ _ Hl'').
  - destruct (find_by_id_some _ _ _ _ Hl'') as (s'' & Hs'' & Hid'').
    unfold id_at. simpl. rewrite Hs''. simpl. congruence.
Qed.

(** What a call of [from_creation_request_json] that returns has done. *)
Lemma from_creation_request_json_inv cj w l w' :
  from_creation_request_json cj default_ipsegment w = (Ok l, w') ->
  exists s e sj a b c given,
    l = length (heap w) /\ w' = appended s e w
    /\ py_getitem cj "server" = Ok sj
    /\ server_id s =
         (let r := fst (randrange 9999999999 (entropy w)) in
          "test-server" ++ str_of_Z r ++ "-id-" ++ str_of_Z r)
    /\ (0 <= a < 255)%Z /\ (0 <= b < 255)%Z /\ (0 <= c < 255)%Z
    /\ private_ips s
       = [IPv4Address ("10.180." ++ str_of_Z a ++ "." ++ str_of_Z b)]
    /\ public_ips s
       = [IPv4Address ("198.101.241." ++ str_of_Z c);
          IPv6Address "2001:4800:780e:0510:d87b:9cbc:ff04:513a"]
    /\ py_getitem sj "imageRef" = Ok given
    /\ image_ref s = py_or given (JStr "")
    /\ creation_time s = seconds (clock (collection w))
    /\ update_time s = seconds (clock (collection w)).
Proof.
  unfold from_creation_request_json. munfold.
  destruct (py_getitem cj "server") as [sj|x] eqn:Hsj; [|discriminate].
  destruct (py_get sj "OS-DCF:diskConfig" JNull) as [dc|x]; [|discriminate].
  destruct (negb (auto_or_manual (py_or dc (JStr "AUTO")))); [discriminate|].
  destruct (py_getitem sj "name") as [nm|x]; [|discriminate].
  cbn -[str_of_Z String.append Z.modulo].
  destruct (py_get sj "metadata" JNull) as [md|x]; [|discriminate].
  cbn -[str_of_Z String.append Z.modulo].
  destruct (py_getitem sj "flavorRef") as [fl|x]; [|discriminate].
  destruct (py_getitem sj "imageRef") as [img|x] eqn:Himg; [|discriminate].
  cbn -[str_of_Z String.append Z.modulo].
  destruct (random_string 12 _) as [p e'].
  intros [= <- <-].
  eexists _, e', sj, _, _, _, img.
  split; [reflexivity|]. split; [reflexivity|]. split; [reflexivity|].
  split; [reflexivity|].
  split; [apply Z.mod_pos_bound; lia|].
  split; [apply Z.mod_pos_bound; lia|].
  split; [apply Z.mod_pos_bound; lia|].
  cbn -[str_of_Z String.append Z.modulo].
  repeat split; try reflexivity. exact Himg.
Qed.

(** X20: the addresses of a new server.  A server that
    [from_creation_request_json] creates has one private address
    [10.180.a.b], the public address [198.101.241.c] and one fixed IPv6
    address, with [a], [b] and [c] in [0, 255); its address payload lists
    them with versions 4, 4 and 6. *)
Theorem new_server_addresses cj w l w' :
  from_creation_request_json cj default_ipsegment w = (Ok l, w') ->
  exists s a b c,
    heap w' !! l = Some s
    /\ (0 <= a < 255)%Z /\ (0 <= b < 255)%Z /\ (0 <= c < 255)%Z
    /\ addresses_json s
       = JObj [ ("private", JArr [ JObj
                  [ ("addr", JStr ("10.180." ++ str_of_Z a ++ "." ++ str_of_Z b));
                    ("version", JInt 4) ] ]);
                ("public", JArr [ JObj
                  [ ("addr", JStr ("198.101.241." ++ str_of_Z c));
                    ("version", JInt 4) ];
                  JObj
                  [ ("addr", JStr "2001:4800:780e:0510:d87b:9cbc:ff04:513a");
                    ("version", JInt 6) ] ]) ].
Proof.
  intros H.
  destruct (from_creation_request_json_inv _ _ _ _ H)
    as (s & e & sj & a & b & c & given & -> & -> & _ & _ & Ha & Hb & Hc
        & Hpriv & Hpub & _).
  exists s, a, b, c. split; [apply lookup_snoc|].
  split; [exact Ha|]. split; [exact Hb|]. split; [exact Hc|].
  unfold addresses_json. rewrite Hpriv, Hpub. reflexivity.
Qed.

(** X21: the ids of new servers.  Two servers that
    [from_creation_request_json] creates, in any two stores, have the same
    id exactly when the two draws below 9999999999 they are made from are
    the same number. *)
Theorem new_ids_repeat_only_with_the_draw cj1 cj2 w1 w2 l1 l2 w1' w2' :
  from_creation_request_json cj1 default_ipsegment w1 = (Ok l1, w1') ->
  from_creation_request_json cj2 default_ipsegment w2 = (Ok l2, w2') ->
  id_at w1' l1 = id_at w2' l2
  <-> fst (randrange 9999999999 (entropy w1))
      = fst (randrange 9999999999 (entropy w2)).
Proof.
  intros H1 H2.
  destruct (from_creation_request_json_inv _ _ _ _ H1)
    as (s1 & e1 & ? & ? & ? & ? & ? & -> & -> & _ & Hid1 & _).
  destruct (from_creation_request_json_inv _ _ _ _ H2)
    as (s2 & e2 & ? & ? & ? & ? & ? & -> & -> & _ & Hid2 & _).
  unfold id_at. simpl. rewrite !lookup_snoc. simpl. rewrite Hid1, Hid2.
  cbv zeta. split.
  - intros H. apply (inj Some) in H. apply server_id_inj. exact H.
  - intros H. simpl in H |- *. rewrite H. reflexivity.
Qed.

(** X22: the image of a new server.  [from_creation_request_json] never
    leaves [image_ref] null: a null or empty [imageRef] becomes the empty
    string.  So the detailed payload of a server it creates, which can be
    made whenever the time of its creation can be made a timestamp, always
    has an image object, never the empty string of the other branch. *)
Theorem new_server_has_an_image cj w l w' tenant abs :
  from_creation_request_json cj default_ipsegment w = (Ok l, w') ->
  exists s sj given,
    heap w' !! l = Some s
    /\ py_getitem cj "server" = Ok sj
    /\ py_getitem sj "imageRef" = Ok given
    /\ image_ref s = (if py_truthy given then given else JStr "")
    /\ (forall stamp,
          seconds_to_timestamp (seconds (clock (collection w))) = Ok stamp ->
          exists detail, detail_json tenant abs s = Ok detail)
    /\ (forall detail,
          detail_json tenant abs s = Ok detail ->
          py_getitem detail "image"
          = Ok (JObj [ ("id", image_ref s);
                       ("links", JArr [ JObj [
                          ("href", JStr (abs (tenant ++ "/images/"
                                              ++ format_arg (flavor_ref s))));
                          ("rel", JStr "bookmark") ] ]) ])).
Proof.
  intros H.
  destruct (from_creation_request_json_inv _ _ _ _ H)
    as (s & e & sj & a & b & c & given & -> & -> & Hsj & _ & _ & _ & _
        & _ & _ & Himg & Href & Hct & Hut).
  exists s, sj, given. split; [apply lookup_snoc|].
  split; [exact Hsj|]. split; [exact Himg|]. split; [exact Href|].
  split.
  - intros stamp Hstamp. unfold detail_json. rewrite Hct, Hut, Hstamp.
    simpl. eauto.
  - intros detail. unfold detail_json.
    destruct (seconds_to_timestamp (creation_time s)) as [created|x];
      [|discriminate].
    destruct (seconds_to_timestamp (update_time s)) as [updated|x];
      [|discriminate].
    intros [= <-].
    unfold py_getitem. cbn [dict_update static_defaults fold_left
      dict_set dict_lookup fst snd String.eqb Ascii.eqb Bool.eqb].
    assert (Hnn : image_ref s <> JNull).
    { rewrite Href. unfold py_or.
      destruct (py_truthy given) eqn:E; [|discriminate].
      intros ->. discriminate E. }
    unfold image_json. destruct (image_ref s); try reflexivity. congruence.
Qed.

(** X23: asking for a region twice.  The second call returns the
    collection the first one returned and leaves the object as the first
    one left it; the object holds the collection under the region name. *)
Theorem collection_for_region_twice region self :
  collection_for_region region (snd (collection_for_region region self))
  = collection_for_region region self
  /\ regional_collections (snd (collection_for_region region self)) !! region
     = Some (fst (collection_for_region region self)).
Proof.
  split; [apply collection_for_region_again|].
  unfold collection_for_region.
  destruct (regional_collections self !! region) as [c|] eqn:E; simpl.
  - exact E.
  - apply lookup_insert_eq.
Qed.

(** X24: regions do not interfere.  The collection returned for a region
    is the same whether or not another region was asked for first, and
    asking for two regions in either order leaves the same object. *)
Theorem collection_for_region_independent region region' self :
  fst (collection_for_region region'
         (snd (collection_for_region region self)))
  = fst (collection_for_region region' self)
  /\ snd (collection_for_region region'
            (snd (collection_for_region region self)))
     = snd (collection_for_region region
              (snd (collection_for_region region' self))).
Proof.
  destruct (decide (region = region')) as [<-|Hne].
  { rewrite collection_for_region_again. split; reflexivity. }
  unfold collection_for_region.
  destruct (regional_collections self !! region) as [c|] eqn:E;
    destruct (regional_collections self !! region') as [c'|] eqn:E'; simpl;
    rewrite ?E, ?E', ?lookup_insert_ne, ?E, ?E' by congruence; simpl;
    try (split; reflexivity).
  split; [reflexivity|]. f_equal. apply insert_insert_ne. congruence.
Qed.

(** X25: the collection of a region belongs to the tenant.  When every
    collection the object holds is filed under its region with the tenant
    of the object, so it is after a call, and the collection returned has
    the region asked for and that tenant; a collection made by the call has
    no servers. *)
Theorem collection_for_region_filed region self :
  filed self ->
  let '(c, self') := collection_for_region region self in
  filed self'
  /\ region_name c = region
  /\ tenant_id c = global_tenant_id self
  /\ (regional_collections self !! region = None -> servers c = []).
Proof.
  intros Hf. unfold collection_for_region.
  destruct (regional_collections self !! region) as [c|] eqn:E.
  - destruct (Hf region c E) as [H1 H2].
    split; [exact Hf|]. split; [exact H1|]. split; [exact H2|]. discriminate.
  - split; [|split; [reflexivity|split; reflexivity]].
    unfold filed. simpl. apply map_Forall_insert_2; [split; reflexivity|].
    exact Hf.
Qed.

(** X26: the response of a creation.  When [default_create_behavior]
    returns, with a hook or without, the response code is 202 and the body
    is the creation payload of the server the call has stored, the last of
    the collection, whose disk configuration is AUTO or MANUAL. *)
Theorem creation_response_describes_the_stored_server
    http cj abs hook w body http' w' :
  default_create_behavior http cj abs default_ipsegment hook w
  = (Ok (body, http'), w') ->
  exists s,
    heap w' !! length (heap w) = Some s
    /\ servers (collection w')
       = (servers (collection w) ++ [length (heap w)])%list
    /\ http' = {| code := ACCEPTED |}
    /\ body = dumps (creation_response_json (tenant_id (collection w)) abs s)
    /\ auto_or_manual (disk_config s) = true.
Proof.
  unfold default_create_behavior. unfold bind at 1.
  destruct (from_creation_request_json cj default_ipsegment w)
    as [[l|x] w1] eqn:Hc; [|discriminate].
  assert (Hinv : exists s e, l = length (heap w) /\ w1 = appended s e w
                             /\ auto_or_manual (disk_config s) = true).
  { revert Hc. unfold from_creation_request_json. munfold.
    destruct (py_getitem cj "server") as [sj|x]; [|discriminate].
    destruct (py_get sj "OS-DCF:diskConfig" JNull) as [dc|x]; [|discriminate].
    destruct (auto_or_manual (py_or dc (JStr "AUTO"))) eqn:Hd; [|discriminate].
    cbn [negb].
    destruct (py_getitem sj "name") as [nm|x]; [|discriminate].
    cbn -[str_of_Z String.append Z.modulo].
    destruct (py_get sj "metadata" JNull) as [md|x]; [|discriminate].
    cbn -[str_of_Z String.append Z.modulo].
    destruct (py_getitem sj "flavorRef") as [fl|x]; [|discriminate].
    destruct (py_getitem sj "imageRef") as [img|x]; [|discriminate].
    cbn -[str_of_Z String.append Z.modulo].
    destruct (random_string 12 _) as [p e'].
    intros [= <- <-]. eexists _, e'.
    split; [reflexivity|]. split; [reflexivity|]. exact Hd. }
  destruct Hinv as (s & e & -> & -> & Hd).
  destruct hook as [[duration|]|].
  - unfold run_hook, bind, modify, lift, deref, gets, ret. cbn [fst snd].
    destruct (py_number duration) as [delay|x]; [|discriminate].
    cbn. rewrite alter_snoc, lookup_snoc. intros [= <- <- <-].
    exists (set_status "BUILD" s). cbn. rewrite lookup_snoc.
    repeat split; try reflexivity. exact Hd.
  - unfold run_hook, bind, modify, lift, deref, gets, ret. cbn.
    rewrite alter_snoc, lookup_snoc. intros [= <- <- <-].
    exists (set_status "ERROR" s). cbn. rewrite lookup_snoc.
    repeat split; try reflexivity. exact Hd.
  - unfold bind, modify, lift, deref, gets, ret. cbn.
    rewrite lookup_snoc. intros [= <- <- <-].
    exists s. cbn. rewrite lookup_snoc.
    repeat split; try reflexivity. exact Hd.
Qed.

End Properties.

(** * The claims on concrete requests *)

Section Concrete.

Import Scenario.

#[local] Existing Instance Sample.runtime.

Lemma C1_override_before_registry_witness :
  let cj := building_request in
  let sj := (server_fields
               ++ [("metadata", JObj [("server_building", JStr "5")])])%list in
  let w := fresh metadata_registry in
  server_json_of cj = Some sj
  /\ optional string_mapping (dict_lookup sj "metadata") = true
  /\ metadata_to_creation_behavior (JObj (metadata_of cj))
     = resolve_by_priority (metadata_of cj)
  /\ (resolve_by_priority (metadata_of cj) = Ok None
      <-> no_override (metadata_of cj) = true)
  /\ request_creation http cj absolutize_url w
     = match resolve_by_priority (metadata_of cj) with
       | Ok (Some b) => call_behavior b http cj absolutize_url w
       | Ok None =>
           match dict_lookup sj "name" with
           | Some _ => dispatch_through_registry http cj sj absolutize_url w
           | None => (Raise (KeyError "name"), w)
           end
       | Raise x => (Raise x, w)
       end.
Proof.
  intros cj sj w.
  split; [reflexivity|]. split; [reflexivity|].
  exact (C1_override_before_registry http cj absolutize_url w sj
           eq_refl eq_refl).
Defined.

Lemma C2_default_creation_witness :
  let cj := plain_request in
  let sj := (server_fields ++ [])%list in
  let w := fresh no_behaviors in
  wf w
  /\ server_json_of cj = Some sj
  /\ valid_server_json sj = true
  /\ no_override (metadata_of cj) = true
  /\ behavior_for_attributes (create_behavior_registry (collection w))
       (creation_attributes (tenant_id (collection w)) sj) = Ok default_behavior
  /\ exists s e body,
       request_creation http cj absolutize_url w
       = (Ok (body, setResponseCode ACCEPTED http), appended s e w)
       /\ servers (collection (appended s e w))
          = (servers (collection w) ++ [length (heap w)])%list
       /\ heap (appended s e w) !! length (heap w) = Some s
       /\ status s = "ACTIVE"
       /\ creation_time s = seconds (clock (collection w))
       /\ update_time s = creation_time s
       /\ server_id s =
            (let r := fst (randrange 9999999999 (entropy w)) in
             "test-server" ++ str_of_Z r ++ "-id-" ++ str_of_Z r)
       /\ collection_ids (appended s e w)
          = (collection_ids w ++ [server_id s])%list.
Proof.
  intros cj sj w.
  assert (Hwf : wf w) by (apply wf_check_sound; reflexivity).
  split; [exact Hwf|]. split; [reflexivity|]. split; [reflexivity|].
  split; [reflexivity|]. split; [reflexivity|].
  exact (C2_default_creation http cj absolutize_url w sj Hwf
           eq_refl eq_refl eq_refl eq_refl).
Defined.

(** C2, the claim as stated: two valid requests without override metadata,
    served by the default behavior, get the same id when the random source
    repeats a draw; the collection then holds two servers under one id. *)
Lemma C2_ids_collide :
  let w1 := Outcome.created in
  let w2 := snd (request_creation http plain_request absolutize_url w1) in
  valid_request plain_request = true
  /\ no_override (metadata_of plain_request) = true
  /\ servers (collection w2) = [0; 1]
  /\ status_at w2 1 = Some "ACTIVE"
  /\ id_at w2 0 = Some the_id
  /\ id_at w2 1 = Some the_id
  /\ ~ NoDup (collection_ids w2).
Proof.
  intros w1 w2. split; [reflexivity|]. split; [reflexivity|].
  split; [vm_compute; reflexivity|]. split; [vm_compute; reflexivity|].
  split; [vm_compute; reflexivity|]. split; [vm_compute; reflexivity|].
  assert (Hids : collection_ids w2 = [the_id; the_id]) by (vm_compute; reflexivity).
  rewrite Hids. intros Hnd. apply NoDup_cons in Hnd as [Hnin _].
  apply Hnin. left.
Qed.

Lemma C3_build_then_active_witness :
  let cj := building_request in
  let sj := (server_fields
               ++ [("metadata", JObj [("server_building", JStr "5")])])%list in
  let w := fresh no_behaviors in
  wf w
  /\ server_json_of cj = Some sj
  /\ valid_server_json sj = true
  /\ dict_lookup (metadata_of cj) "create_server_failure" = None
  /\ dict_lookup (metadata_of cj) "server_building" = Some (JStr "5")
  /\ float_of_string "5" = Some 5%float
  /\ exists s e body,
       let l := length (heap w) in
       let now := seconds (clock (collection w)) in
       let w1 := scheduled 5 s e w in
       request_creation http cj absolutize_url w
       = (Ok (body, setResponseCode ACCEPTED http), w1)
       /\ (l ∈ servers (collection w1))
       /\ status_at w1 l = Some "BUILD"
       /\ (build_call now 5 l ∈ calls (clock (collection w1)))
       /\ forall actions,
            timely_run actions w1 = true ->
            status_at (run actions w1) l
            = Some (if reached (now + 5) now actions
                    then "ACTIVE" else "BUILD").
Proof.
  intros cj sj w.
  assert (Hwf : wf w) by (apply wf_check_sound; reflexivity).
  split; [exact Hwf|]. split; [reflexivity|]. split; [reflexivity|].
  split; [reflexivity|]. split; [reflexivity|]. split; [reflexivity|].
  exact (C3_build_then_active http cj absolutize_url w sj "5" 5%float Hwf
           eq_refl eq_refl eq_refl eq_refl eq_refl).
Defined.

(** C3, the claim as stated, fails both ways, since the clock and the
    time of the call are floats.  A server that builds for 1 second is still
    in BUILD after ten advances of 0.1 second, which advance the clock by
    1 second and more: the clock then reads 0.99999999999999989.  And on a
    clock that reads 9007199254740992, where adding 1 changes nothing, a
    server that builds for 1 second is ACTIVE after an advance of 0
    second. *)
Lemma C3_threshold_is_in_floating_point :
  let w1 := snd (request_creation http one_second_request absolutize_url
                   (fresh no_behaviors)) in
  let tenth := repeat (do_advance 0.1) 10 in
  let late := advance 9007199254740992 (fresh no_behaviors) in
  let w2 := snd (request_creation http one_second_request absolutize_url late) in
  valid_request one_second_request = true
  /\ float_of_string "1" = Some 1%float
  /\ (status_at w1 0 = Some "BUILD"
      /\ (exact 1 <= advanced_by tenth)%Q
      /\ rightNow (clock (collection (run tenth w1))) = 0.99999999999999989%float
      /\ status_at (run tenth w1) 0 = Some "BUILD")
  /\ (status_at w2 0 = Some "BUILD"
      /\ (advanced_by [do_advance 0] < exact 1)%Q
      /\ status_at (run [do_advance 0] w2) 0 = Some "ACTIVE").
Proof.
  intros w1 tenth late w2.
  split; [reflexivity|]. split; [vm_compute; reflexivity|].
  split.
  - split; [vm_compute; reflexivity|].
    split; [vm_compute; discriminate|].
    split; vm_compute; reflexivity.
  - split; [vm_compute; reflexivity|].
    split; vm_compute; reflexivity.
Qed.

Lemma C4_fail_without_creating_witness :
  let cj := failing_request in
  let md := [("create_server_failure", JStr failure_text)] in
  let sj := (server_fields ++ [("metadata", JObj md)])%list in
  let parameters := [("code", JInt 503); ("message", JStr "boom")] in
  let w := fresh metadata_registry in
  server_json_of cj = Some sj
  /\ dict_lookup sj "metadata" = Some (JObj md)
  /\ dict_lookup md "create_server_failure" = Some (JStr failure_text)
  /\ loads failure_text = Some (JObj parameters)
  /\ request_creation http cj absolutize_url w
     = (Ok (dumps (JObj [("message", JStr "boom"); ("code", JInt 503)]),
            {| code := JInt 503 |}),
        w).
Proof.
  intros cj md sj parameters w.
  split; [reflexivity|]. split; [reflexivity|]. split; [reflexivity|].
  assert (Hloads : loads failure_text = Some (JObj parameters))
    by (vm_compute; reflexivity).
  split; [exact Hloads|].
  exact (C4_fail_without_creating http cj absolutize_url w sj md failure_text
           parameters eq_refl eq_refl eq_refl Hloads).
Defined.

Lemma C5_delete_witness :
  let w := Outcome.stubborn in
  let srvfail := [("times", JInt 2)] in
  let md := [("delete_server_failure", JStr (dumps (JObj srvfail)))] in
  wf w
  /\ server_by_id the_id w = Some 0
  /\ exists server,
       heap w !! 0 = Some server /\ metadata server = JObj md
       /\ let srvfail' := JObj (dict_set srvfail "times" (JInt (2 - 1))) in
          let md' := JObj (dict_set md "delete_server_failure"
                             (JStr (dumps srvfail'))) in
          let w' := with_heap (alter (set_metadata md') 0 (heap w)) w in
          request_delete http the_id w = (Ok ("", {| code := JInt 500 |}), w')
          /\ servers (collection w') = servers (collection w)
          /\ (0 ∈ servers (collection w'))
          /\ server_by_id the_id w' = Some 0
          /\ exists server',
               heap w' !! 0 = Some server'
               /\ metadata server' = md'
               /\ py_getitem (metadata server') "delete_server_failure"
                  = Ok (JStr (dumps srvfail'))
               /\ py_getitem srvfail' "times" = Ok (JInt (2 - 1))
               /\ creation_request_json server'
                  = with_request_metadata md' (creation_request_json server)
               /\ server_id server' = server_id server
               /\ status server' = status server.
Proof.
  intros w srvfail md.
  assert (Hwf : wf w) by (apply wf_check_sound; vm_compute; reflexivity).
  assert (Hfind : server_by_id the_id w = Some 0) by (vm_compute; reflexivity).
  destruct (heap w !! 0) as [server|] eqn:Hserver; [|vm_compute in Hserver; discriminate].
  assert (Hmd : metadata server = JObj md).
  { vm_compute in Hserver. injection Hserver as <-. reflexivity. }
  split; [exact Hwf|]. split; [exact Hfind|].
  exists server. split; [reflexivity|]. split; [exact Hmd|].
  destruct (C5_delete http the_id w Hwf) as [_ Hfound].
  destruct (Hfound 0 server md (dumps (JObj srvfail)) srvfail 2%Z
              Hfind Hserver Hmd eq_refl
              ltac:(vm_compute; reflexivity) eq_refl) as [Hfail _].
  exact (Hfail ltac:(lia)).
Defined.

(** What the first delete of the scenario leaves in the store: the metadata
    of the server and the request document it keeps both read the
    descriptor with the count 1. *)
Example delete_writes_the_count_back :
  let w' := snd (request_delete http the_id Outcome.stubborn) in
  let text := dumps (JObj [("times", JInt 1)]) in
  (metadata <$> heap Outcome.stubborn !! 0)
  = Some (JObj [("delete_server_failure",
                 JStr (dumps (JObj [("times", JInt 2)])))])
  /\ (metadata <$> heap w' !! 0)
     = Some (JObj [("delete_server_failure", JStr text)])
  /\ (creation_request_json <$> heap w' !! 0)
     = Some (request_with
               [("metadata", JObj [("delete_server_failure", JStr text)])]).
Proof. vm_compute. repeat split. Qed.

(** The delete scenario of the specification: with [{"times": 2}] the
    delete fails twice, the count going to 1 and then 0, and succeeds the
    third time, after which neither a read nor a list shows the server. *)
Example delete_fails_twice_then_succeeds :
  let r1 := request_delete http the_id Outcome.stubborn in
  let r2 := request_delete http the_id (snd r1) in
  let r3 := request_delete http the_id (snd r2) in
  fst r1 = Ok ("", {| code := JInt 500 |})
  /\ metadata <$> heap (snd r1)
     = [JObj [("delete_server_failure", JStr (dumps (JObj [("times", JInt 1)])))]]
  /\ fst r2 = Ok ("", {| code := JInt 500 |})
  /\ metadata <$> heap (snd r2)
     = [JObj [("delete_server_failure", JStr (dumps (JObj [("times", JInt 0)])))]]
  /\ servers (collection (snd r2)) = [0]
  /\ fst r3 = Ok ("", {| code := JInt 204 |})
  /\ servers (collection (snd r3)) = []
  /\ fst (request_read http the_id absolutize_url (snd r3))
     = Ok (None, {| code := JInt 404 |})
  /\ fst (request_list http true absolutize_url "" (snd r3))
     = Ok (dumps (JObj [("servers", JArr [])]), http).
Proof. vm_compute. repeat split. Qed.

Lemma C6_disk_config_witness :
  let cj := bad_disk_config_request in
  let sj := (server_fields ++ [("OS-DCF:diskConfig", JStr "FAST")])%list in
  let w := fresh no_behaviors in
  server_json_of cj = Some sj
  /\ valid_fields sj = true
  /\ dict_lookup sj "OS-DCF:diskConfig" = Some (JStr "FAST")
  /\ from_creation_request_json cj default_ipsegment w
     = (Raise (ValueError "OS-DCF:diskConfig not either AUTO or MANUAL"), w)
  /\ forall hook,
       default_create_behavior http cj absolutize_url default_ipsegment hook w
       = (Raise (ValueError "OS-DCF:diskConfig not either AUTO or MANUAL"), w).
Proof.
  intros cj sj w.
  split; [reflexivity|]. split; [reflexivity|]. split; [reflexivity|].
  destruct (C6_disk_config http cj absolutize_url w sj eq_refl eq_refl)
    as (_ & _ & Hother).
  apply (Hother (JStr "FAST") eq_refl eq_refl); discriminate.
Defined.

(** C6, the claim as stated: a disk configuration that is present and is
    neither AUTO nor MANUAL, here the empty string, is accepted, and the
    server is created with AUTO. *)
Lemma C6_empty_disk_config_accepted :
  let cj := empty_disk_config_request in
  let r := request_creation http cj absolutize_url (fresh no_behaviors) in
  (exists sj, server_json_of cj = Some sj
              /\ dict_lookup sj "OS-DCF:diskConfig" = Some (JStr ""))
  /\ (exists body, fst r = Ok (body, {| code := JInt 202 |}))
  /\ servers (collection (snd r)) = [0]
  /\ disk_config <$> heap (snd r) !! 0 = Some (JStr "AUTO").
Proof.
  intros cj r. split; [eexists; split; reflexivity|].
  split; [eexists; vm_compute; reflexivity|].
  split; vm_compute; reflexivity.
Qed.

Lemma C7_callback_after_delete_witness :
  let w1 := Outcome.building in
  let w2 := Outcome.building_deleted in
  let c := build_call 0 5 0 in
  wf w1
  /\ (c ∈ calls (clock (collection w1)))
  /\ server_by_id the_id w1 = Some (target c)
  /\ request_delete http the_id w1 = (Ok ("", {| code := JInt 204 |}), w2)
  /\ (target c ∉ servers (collection w2))
  /\ (c ∈ calls (clock (collection w2)))
  /\ status_at w2 (target c) = Some "BUILD"
  /\ (forall actions,
        timely_run actions w2 = true ->
        status_at (run actions w2) (target c)
        = Some (if reached (time c) (rightNow (clock (collection w2))) actions
                then "ACTIVE" else "BUILD"))
  /\ (forall l', l' ∈ servers (collection w2) ->
                 run_callback (func c) (heap w2) !! l' = heap w2 !! l').
Proof.
  intros w1 w2 c.
  assert (Hwf : wf w1) by (apply wf_check_sound; vm_compute; reflexivity).
  assert (Hc : c ∈ calls (clock (collection w1))) by (vm_compute; left).
  assert (Hfind : server_by_id the_id w1 = Some (target c))
    by (vm_compute; reflexivity).
  assert (Hdel : request_delete http the_id w1
                 = (Ok ("", {| code := JInt 204 |}), w2))
    by (vm_compute; reflexivity).
  split; [exact Hwf|]. split; [exact Hc|]. split; [exact Hfind|].
  split; [exact Hdel|].
  exact (C7_callback_after_delete http the_id w1 w2 c "" Hwf Hc Hfind Hdel).
Defined.

(** C7, the claim as stated: the server of [building_request] is deleted
    while its call is scheduled; five seconds later the call fires and takes
    the removed server from BUILD to ACTIVE: the call is not a no-op on the
    removed server, and nothing looked for it in the collection. *)
Lemma C7_callback_mutates_removed_server :
  let w2 := Outcome.building_deleted in
  let w3 := advance 5 w2 in
  fst (request_delete http the_id Outcome.building)
  = Ok ("", {| code := JInt 204 |})
  /\ servers (collection w2) = []
  /\ server_by_id the_id w2 = None
  /\ status_at w2 0 = Some "BUILD"
  /\ status_at w3 0 = Some "ACTIVE"
  /\ heap w3 <> heap w2.
Proof.
  intros w2 w3.
  split; [vm_compute; reflexivity|]. split; [vm_compute; reflexivity|].
  split; [vm_compute; reflexivity|]. split; [vm_compute; reflexivity|].
  split; [vm_compute; reflexivity|].
  intros Heq. apply (f_equal (fun h : list Server => status <$> h !! 0)) in Heq.
  vm_compute in Heq. discriminate.
Qed.

(** C8 on the code: a request without metadata, on a collection where a
    behavior is registered under a metadata criterion, raises
    [AttributeError]: the criterion is handed [None] and calls [get] on it. *)
Theorem C8_metadata_criterion_raises_without_metadata :
  server_json_of plain_request = Some server_fields
  /\ dict_lookup server_fields "metadata" = None
  /\ predicate (metadata_criterion [("role", "db")]) JNull = Raise AttributeError
  /\ request_creation http plain_request absolutize_url (fresh metadata_registry)
     = (Raise AttributeError, fresh metadata_registry).
Proof.
  split; [reflexivity|]. split; [reflexivity|]. split; [reflexivity|].
  apply (request_creation_no_metadata http plain_request absolutize_url
           (fresh metadata_registry) server_fields (JStr "web")
           (hooked set_error) "role" "db" [] [] []); reflexivity.
Qed.

Lemma C9_status_transitions_witness :
  let w := perform (do_creation http building_request absolutize_url)
             (fresh no_behaviors) in
  let a := do_advance 5 in
  reachable w
  /\ (forall l s, heap w !! l = Some s ->
        exists s', heap (perform a w) !! l = Some s'
                   /\ (status s' = status s
                       \/ (status s = "BUILD" /\ status s' = "ACTIVE"))
                   /\ ~ (status s = "BUILD" /\ status s' = "ERROR")
                   /\ ~ (status s = "ACTIVE" /\ status s' = "BUILD"))
  /\ (forall l s', heap w !! l = None -> heap (perform a w) !! l = Some s' ->
        status s' = "ACTIVE" \/ status s' = "ERROR" \/ status s' = "BUILD").
Proof.
  intros w a.
  assert (Hreach : reachable w)
    by apply reachable_perform, reachable_empty.
  split; [exact Hreach|].
  exact (C9_status_transitions w a Hreach).
Defined.

(** The build scenario of the specification: with [server_building] at 5
    the server is in BUILD after the creation, still in BUILD when the clock
    has been advanced by 3 and then 1 seconds with a list request in
    between, and ACTIVE when it has been advanced by 3 and then 2, and it
    stays ACTIVE when the clock is then set back. *)
Example building_for_five_seconds :
  let w1 := Outcome.building in
  status_at w1 0 = Some "BUILD"
  /\ status_at (run [ do_advance 3;
                      do_list http true absolutize_url "";
                      do_advance 1 ] w1) 0 = Some "BUILD"
  /\ status_at (run [ do_advance 3; do_advance 2 ] w1) 0 = Some "ACTIVE"
  /\ status_at (run [ do_advance 3; do_advance 2; do_advance (-4) ] w1) 0
     = Some "ACTIVE".
Proof. vm_compute. repeat split. Qed.

Lemma C10_image_link_from_flavor_ref_witness :
  let w := Outcome.created in
  let self := Outcome.web_server in
  let tenant := tenant_id (collection w) in
  image_ref self <> JNull
  /\ server_by_id the_id w = Some 0
  /\ heap w !! 0 = Some self
  /\ (forall detail,
        detail_json tenant absolutize_url self = Ok detail ->
        py_getitem detail "image"
        = Ok (JObj [ ("id", image_ref self);
                     ("links", JArr [ JObj [
                        ("href", JStr (absolutize_url
                                         (tenant ++ "/images/"
                                            ++ format_arg (flavor_ref self))));
                        ("rel", JStr "bookmark") ] ]) ]))
  /\ (forall created updated,
        seconds_to_timestamp (creation_time self) = Ok created ->
        seconds_to_timestamp (update_time self) = Ok updated ->
        exists detail, detail_json tenant absolutize_url self = Ok detail)
  /\ request_read http the_id absolutize_url w
     = (match detail_json tenant absolutize_url self with
        | Ok detail => Ok (Some (dumps (JObj [("server", detail)])), http)
        | Raise x => Raise x
        end, w)
  /\ (forall filter_name items,
        list_payloads tenant absolutize_url true filter_name (heap w)
          (servers (collection w)) = Ok items ->
        forall item, item ∈ items ->
        exists l' s, l' ∈ servers (collection w) /\ heap w !! l' = Some s
                     /\ detail_json tenant absolutize_url s = Ok item).
Proof.
  intros w self tenant.
  assert (Himg : image_ref self <> JNull) by discriminate.
  assert (Hfind : server_by_id the_id w = Some 0) by (vm_compute; reflexivity).
  assert (Hself : heap w !! 0 = Some self) by (vm_compute; reflexivity).
  split; [exact Himg|]. split; [exact Hfind|]. split; [exact Hself|].
  exact (C10_image_link_from_flavor_ref http the_id absolutize_url w 0 self
           Himg Hfind Hself).
Defined.

(** The bookmark link of the image of the server of [plain_request]: it
    ends in the flavor reference, 2, while the id is the image reference. *)
Example image_link_of_web_server :
  result_bind (detail_json "tenant" absolutize_url Outcome.web_server)
    (fun detail => py_getitem detail "image")
  = Ok (JObj [ ("id", JStr "img");
               ("links", JArr [ JObj [
                  ("href", JStr "http://mimic/tenant/images/2");
                  ("rel", JStr "bookmark") ] ]) ]).
Proof. vm_compute. reflexivity. Qed.

(** ** Further properties on concrete requests *)

Lemma list_returns_the_matching_servers_witness :
  let w := Outcome.created in
  wf w
  /\ Forall (fun s => is_string (server_name s) = true) (held w)
  /\ request_list http true absolutize_url "we" w
     = (match collect (map (list_item (tenant_id (collection w))
                              absolutize_url true)
                         (List.filter (name_contains "we") (held w))) with
        | Ok items => Ok (dumps (JObj [("servers", JArr items)]), http)
        | Raise x => Raise x
        end, w)
  /\ (true = false ->
      request_list http true absolutize_url "we" w
      = (Ok (dumps (JObj [("servers", JArr
                (map (brief_json (tenant_id (collection w)) absolutize_url)
                   (List.filter (name_contains "we") (held w))))]),
             http),
         w)).
Proof.
  intros w.
  assert (Hwf : wf w) by (apply wf_check_sound; vm_compute; reflexivity).
  assert (Hn : Forall (fun s => is_string (server_name s) = true) (held w)).
  { replace (held w) with [Outcome.web_server] by (vm_compute; reflexivity).
    repeat constructor. }
  split; [exact Hwf|]. split; [exact Hn|].
  exact (list_returns_the_matching_servers http true absolutize_url "we" w
           Hwf Hn).
Defined.

Lemma list_with_empty_filter_returns_all_witness :
  let w := Cases.twins in
  wf w
  /\ Forall (fun s => is_string (server_name s) = true) (held w)
  /\ request_list http false absolutize_url "" w
     = (match collect (map (list_item (tenant_id (collection w))
                              absolutize_url false)
                         (held w)) with
        | Ok items => Ok (dumps (JObj [("servers", JArr items)]), http)
        | Raise x => Raise x
        end, w)
  /\ (false = false ->
      request_list http false absolutize_url "" w
      = (Ok (dumps (JObj [("servers", JArr
                (map (brief_json (tenant_id (collection w)) absolutize_url)
                   (held w)))]),
             http),
         w)).
Proof.
  intros w.
  assert (Hwf : wf w) by (apply wf_check_sound; vm_compute; reflexivity).
  assert (Hn : Forall (fun s => is_string (server_name s) = true) (held w)).
  { replace (held w) with [Outcome.web_server; Outcome.web_server]
      by (vm_compute; reflexivity).
    repeat constructor. }
  split; [exact Hwf|]. split; [exact Hn|].
  exact (list_with_empty_filter_returns_all http false absolutize_url w Hwf Hn).
Defined.

Lemma list_raises_on_a_name_that_is_no_text_witness :
  let w := Cases.after Cases.numbered_request (fresh no_behaviors) in
  wf w
  /\ 0 ∈ servers (collection w)
  /\ exists s,
       heap w !! 0 = Some s /\ unsearchable (server_name s) = true
       /\ exists x,
            request_list http false absolutize_url "web" w = (Raise x, w)
            /\ (false = false -> x = TypeError)
            /\ (x = TypeError
                \/ exists l' s',
                     l' ∈ servers (collection w) /\ heap w !! l' = Some s'
                     /\ detail_json (tenant_id (collection w)) absolutize_url s'
                        = Raise x).
Proof.
  intros w.
  assert (Hwf : wf w) by (apply wf_check_sound; vm_compute; reflexivity).
  assert (Hin : 0 ∈ servers (collection w)).
  { replace (servers (collection w)) with [0] by (vm_compute; reflexivity).
    left. }
  destruct (heap w !! 0) as [s|] eqn:Hs; [|vm_compute in Hs; discriminate].
  assert (Hname : unsearchable (server_name s) = true).
  { vm_compute in Hs. injection Hs as <-. reflexivity. }
  split; [exact Hwf|]. split; [exact Hin|].
  exists s. split; [reflexivity|]. split; [exact Hname|].
  exact (list_raises_on_a_name_that_is_no_text http false absolutize_url "web"
           w 0 s Hwf Hin Hs Hname).
Defined.

(** A collection whose clock reads a time that cannot be made a timestamp,
    here 10^18 seconds: a read of a server created then, and a detailed
    list, raise what [seconds_to_timestamp] raises; a brief list and an
    address request return. *)
Example payloads_of_a_time_out_of_range :
  let w := Cases.after plain_request
             (advance 1000000000000000000 (fresh no_behaviors)) in
  fst (request_read http the_id absolutize_url w)
  = Raise (ValueError "year is out of range")
  /\ fst (request_list http true absolutize_url "" w)
     = Raise (ValueError "year is out of range")
  /\ (exists body, fst (request_list http false absolutize_url "" w)
                   = Ok (body, http))
  /\ (exists body, fst (request_ips http the_id w)
                   = Ok (Some body, {| code := JInt 200 |})).
Proof.
  intros w. split; [vm_compute; reflexivity|]. split; [vm_compute; reflexivity|].
  split; eexists; vm_compute; reflexivity.
Qed.

Lemma lookup_after_creation_witness :
  let w := Outcome.created in
  let cj := plain_request in
  let sj := (server_fields ++ [])%list in
  wf w
  /\ server_json_of cj = Some sj
  /\ valid_server_json sj = true
  /\ exists s e body,
       call_behavior default_behavior http cj absolutize_url w
       = (Ok (body, setResponseCode ACCEPTED http), appended s e w)
       /\ (forall id l, server_by_id id w = Some l ->
                        server_by_id id (appended s e w) = Some l)
       /\ (server_id s ∉ collection_ids w ->
           server_by_id (server_id s) (appended s e w) = Some (length (heap w))
           /\ request_read http (server_id s) absolutize_url (appended s e w)
              = (match detail_json (tenant_id (collection w))
                         absolutize_url s with
                 | Ok detail =>
                     Ok (Some (dumps (JObj [("server", detail)])), http)
                 | Raise x => Raise x
                 end, appended s e w))
       /\ (forall id, id <> server_id s ->
                      server_by_id id (appended s e w) = server_by_id id w).
Proof.
  intros w cj sj.
  assert (Hwf : wf w) by (apply wf_check_sound; vm_compute; reflexivity).
  split; [exact Hwf|]. split; [reflexivity|]. split; [reflexivity|].
  exact (lookup_after_creation http cj absolutize_url w sj Hwf eq_refl eq_refl).
Defined.

Lemma lookups_after_delete_witness :
  let w := Outcome.created in
  let w' := snd (request_delete http the_id w) in
  wf w
  /\ request_delete http the_id w = (Ok ("", {| code := JInt 204 |}), w')
  /\ (forall id', id' <> the_id -> server_by_id id' w' = server_by_id id' w)
  /\ (NoDup (collection_ids w) ->
      server_by_id the_id w' = None
      /\ (forall http' abs,
            request_read http' the_id abs w'
            = (Ok (None, {| code := JInt 404 |}), w'))
      /\ (forall http',
            request_delete http' the_id w'
            = (Ok ("", {| code := JInt 404 |}), w'))).
Proof.
  intros w w'.
  assert (Hwf : wf w) by (apply wf_check_sound; vm_compute; reflexivity).
  assert (Hdel : request_delete http the_id w
                 = (Ok ("", {| code := JInt 204 |}), w'))
    by (vm_compute; reflexivity).
  split; [exact Hwf|]. split; [exact Hdel|].
  exact (lookups_after_delete http the_id w "" w' Hwf Hdel).
Defined.

Lemma error_status_is_final_witness :
  let w := fresh no_behaviors in
  let cj := Cases.error_request in
  let sj := (server_fields
               ++ [("metadata", JObj [("server_error", JStr "1")])])%list in
  wf w
  /\ server_json_of cj = Some sj
  /\ valid_server_json sj = true
  /\ dict_lookup (metadata_of cj) "create_server_failure" = None
  /\ dict_lookup (metadata_of cj) "server_building" = None
  /\ dict_lookup (metadata_of cj) "server_error" = Some (JStr "1")
  /\ exists s e body,
       request_creation http cj absolutize_url w
       = (Ok (body, setResponseCode ACCEPTED http), appended s e w)
       /\ status s = "ERROR"
       /\ calls (clock (collection (appended s e w)))
          = calls (clock (collection w))
       /\ forall actions,
            status_at (run actions (appended s e w)) (length (heap w))
            = Some "ERROR".
Proof.
  intros w cj sj.
  assert (Hwf : wf w) by (apply wf_check_sound; reflexivity).
  split; [exact Hwf|]. split; [reflexivity|]. split; [reflexivity|].
  split; [reflexivity|]. split; [reflexivity|]. split; [reflexivity|].
  exact (error_status_is_final http cj absolutize_url w sj (JStr "1") Hwf
           eq_refl eq_refl eq_refl eq_refl eq_refl).
Defined.

Lemma active_status_is_final_witness :
  let w := fresh no_behaviors in
  let cj := plain_request in
  let sj := (server_fields ++ [])%list in
  wf w
  /\ server_json_of cj = Some sj
  /\ valid_server_json sj = true
  /\ exists s e body,
       call_behavior default_behavior http cj absolutize_url w
       = (Ok (body, setResponseCode ACCEPTED http), appended s e w)
       /\ forall actions,
            status_at (run actions (appended s e w)) (length (heap w))
            = Some "ACTIVE".
Proof.
  intros w cj sj.
  assert (Hwf : wf w) by (apply wf_check_sound; reflexivity).
  split; [exact Hwf|]. split; [reflexivity|]. split; [reflexivity|].
  exact (active_status_is_final http cj absolutize_url w sj Hwf eq_refl eq_refl).
Defined.

Lemma creation_that_raises_adds_nothing_witness :
  let w := Outcome.created in
  let cj := Cases.flavorless_request in
  let w' := snd (from_creation_request_json cj default_ipsegment w) in
  from_creation_request_json cj default_ipsegment w
  = (Raise (KeyError "flavorRef"), w')
  /\ entropy w' <> entropy w
  /\ collection w' = collection w
  /\ heap w' = heap w
  /\ forall http abs hook,
       exists w'', default_create_behavior http cj abs default_ipsegment hook w
                   = (Raise (KeyError "flavorRef"), w'')
                   /\ collection w'' = collection w /\ heap w'' = heap w.
Proof.
  intros w cj w'.
  assert (Hraise : from_creation_request_json cj default_ipsegment w
                   = (Raise (KeyError "flavorRef"), w'))
    by (vm_compute; reflexivity).
  split; [exact Hraise|].
  split.
  { intros Heq. apply (f_equal cursor) in Heq. vm_compute in Heq. discriminate. }
  exact (creation_that_raises_adds_nothing cj w (KeyError "flavorRef") w' Hraise).
Defined.

Lemma missing_fields_raise_key_errors_witness :
  let w := Outcome.created in
  let cj := Cases.flavorless_request in
  let sj := [("name", JStr "web")] in
  (dict_lookup [] "server" = None
   /\ request_creation http (JObj []) absolutize_url w
      = (Raise (KeyError "server"), w))
  /\ server_json_of cj = Some sj
  /\ auto_or_manual (chosen_disk_config sj) = true
  /\ dict_lookup sj "name" = Some (JStr "web")
  /\ dict_lookup sj "flavorRef" = None
  /\ from_creation_request_json cj default_ipsegment w
     = (Raise (KeyError "flavorRef"), with_entropy (drawn 4 (entropy w)) w)
  /\ cursor (entropy w) = 16
  /\ cursor (drawn 4 (entropy w)) = 20.
Proof.
  intros w cj sj.
  pose proof (missing_fields_raise_key_errors http absolutize_url w) as [H1 H2].
  split; [split; [reflexivity | exact (H1 [] eq_refl)]|].
  split; [reflexivity|]. split; [reflexivity|]. split; [reflexivity|].
  split; [reflexivity|].
  split; [exact (proj1 (proj2 (H2 cj sj eq_refl eq_refl) (JStr "web") eq_refl)
                   eq_refl)|].
  split; vm_compute; reflexivity.
Defined.

Lemma metadata_criterion_matches_every_pair_witness :
  let value := [("role", "db"); ("zone", "")] in
  let md := [("role", JStr "db-primary")] in
  Forall (fun kv => re_compiles (snd kv) = true) value
  /\ string_mapping (JObj md) = true
  /\ predicate (metadata_criterion value) (JObj md)
     = Ok (forallb (fun kv => re_match (snd kv) (text_at md (fst kv))) value).
Proof.
  intros value md.
  assert (Hc : Forall (fun kv => re_compiles (snd kv) = true) value)
    by (repeat constructor).
  split; [exact Hc|]. split; [reflexivity|].
  exact (metadata_criterion_matches_every_pair value md Hc eq_refl).
Defined.

Lemma unreadable_override_values_raise_witness :
  let w := Outcome.created in
  let cj := Cases.unreadable_failure_request in
  let md := [("create_server_failure", JStr "oops")] in
  let sj := (server_fields ++ [("metadata", JObj md)])%list in
  server_json_of cj = Some sj
  /\ dict_lookup sj "metadata" = Some (JObj md)
  /\ dict_lookup md "create_server_failure" = Some (JStr "oops")
  /\ loads "oops" = None
  /\ request_creation http cj absolutize_url w
     = (Raise (ValueError "No JSON object could be decoded"), w).
Proof.
  intros w cj md sj.
  assert (Hloads : loads "oops" = None) by (vm_compute; reflexivity).
  split; [reflexivity|]. split; [reflexivity|]. split; [reflexivity|].
  split; [exact Hloads|].
  exact (proj1 (proj1 (unreadable_override_values_raise http cj absolutize_url
                         w sj md eq_refl eq_refl) "oops" eq_refl) Hloads).
Defined.

Lemma null_metadata_raises_witness :
  let w := Outcome.created in
  let cj := Cases.null_metadata_request in
  let sj := (server_fields ++ [("metadata", JNull)])%list in
  server_json_of cj = Some sj
  /\ dict_lookup sj "metadata" = Some JNull
  /\ request_creation http cj absolutize_url w = (Raise TypeError, w)
  /\ (required is_string (dict_lookup sj "name") = true ->
      required is_string (dict_lookup sj "flavorRef") = true ->
      required string_or_null (dict_lookup sj "imageRef") = true ->
      auto_or_manual (chosen_disk_config sj) = true ->
      exists s e,
        from_creation_request_json cj default_ipsegment w
        = (Ok (length (heap w)), appended s e w)
        /\ metadata s = JObj []).
Proof.
  intros w cj sj. split; [reflexivity|]. split; [reflexivity|].
  exact (null_metadata_raises http cj absolutize_url w sj eq_refl eq_refl).
Defined.

Lemma delete_fails_n_times_then_succeeds_witness :
  let w := Outcome.stubborn in
  let md := [("delete_server_failure",
              JStr (dumps (failure_descriptor (Z.of_nat 2))))] in
  (forall m : nat, m <= 2 ->
     loads (dumps (failure_descriptor (Z.of_nat m)))
     = Some (failure_descriptor (Z.of_nat m)))
  /\ wf w
  /\ server_by_id the_id w = Some 0
  /\ (exists server, heap w !! 0 = Some server /\ metadata server = JObj md)
  /\ (forall k, k < 2 ->
        let wk := run (repeat (do_delete http the_id) k) w in
        fst (request_delete http the_id wk) = Ok ("", {| code := JInt 500 |})
        /\ (0 ∈ servers (collection (snd (request_delete http the_id wk)))))
  /\ (let wn := run (repeat (do_delete http the_id) 2) w in
      fst (request_delete http the_id wn) = Ok ("", {| code := JInt 204 |})
      /\ (0 ∉ servers (collection (snd (request_delete http the_id wn))))).
Proof.
  intros w md.
  assert (Hrt : forall m : nat, m <= 2 ->
            loads (dumps (failure_descriptor (Z.of_nat m)))
            = Some (failure_descriptor (Z.of_nat m))).
  { intros [|[|[|m]]] Hm; [vm_compute; reflexivity ..| lia]. }
  assert (Hwf : wf w) by (apply wf_check_sound; vm_compute; reflexivity).
  assert (Hfind : server_by_id the_id w = Some 0) by (vm_compute; reflexivity).
  destruct (heap w !! 0) as [server|] eqn:Hserver;
    [|vm_compute in Hserver; discriminate].
  assert (Hmd : metadata server = JObj md).
  { vm_compute in Hserver. injection Hserver as <-. reflexivity. }
  split; [exact Hrt|]. split; [exact Hwf|]. split; [exact Hfind|].
  split; [eauto|].
  exact (delete_fails_n_times_then_succeeds http the_id 2 Hrt w 0 server md
           Hwf Hfind Hserver Hmd eq_refl).
Defined.

Lemma negative_count_fails_and_decreases_witness :
  let w := Cases.after Cases.negative_request (fresh no_behaviors) in
  let text := dumps (JObj [("times", JInt (-1))]) in
  let md := [("delete_server_failure", JStr text)] in
  let srvfail := [("times", JInt (-1))] in
  server_by_id the_id w = Some 0
  /\ (exists server, heap w !! 0 = Some server /\ metadata server = JObj md)
  /\ dict_lookup md "delete_server_failure" = Some (JStr text)
  /\ loads text = Some (JObj srvfail)
  /\ dict_lookup srvfail "times" = Some (JInt (-1))
  /\ (-1 < 0)%Z
  /\ let srvfail' := JObj (dict_set srvfail "times" (JInt (-1 - 1))) in
     let md' := JObj (dict_set md "delete_server_failure"
                        (JStr (dumps srvfail'))) in
     let w' := with_heap (alter (set_metadata md') 0 (heap w)) w in
     request_delete http the_id w = (Ok ("", {| code := JInt 500 |}), w')
     /\ servers (collection w') = servers (collection w)
     /\ server_by_id the_id w' = Some 0
     /\ exists server',
          heap w' !! 0 = Some server'
          /\ metadata server' = md'
          /\ py_getitem (metadata server') "delete_server_failure"
             = Ok (JStr (dumps srvfail'))
          /\ py_getitem srvfail' "times" = Ok (JInt (-1 - 1))
          /\ (-1 - 1 < -1)%Z.
Proof.
  intros w text md srvfail.
  assert (Hfind : server_by_id the_id w = Some 0) by (vm_compute; reflexivity).
  destruct (heap w !! 0) as [server|] eqn:Hserver;
    [|vm_compute in Hserver; discriminate].
  assert (Hmd : metadata server = JObj md).
  { vm_compute in Hserver. injection Hserver as <-. reflexivity. }
  assert (Hloads : loads text = Some (JObj srvfail)) by (vm_compute; reflexivity).
  split; [exact Hfind|]. split; [eauto|]. split; [reflexivity|].
  split; [exact Hloads|]. split; [reflexivity|]. split; [lia|].
  exact (negative_count_fails_and_decreases http the_id w 0 server md text
           srvfail (-1) Hfind Hserver Hmd eq_refl Hloads eq_refl ltac:(lia)).
Defined.

Lemma unusable_descriptor_blocks_delete_witness :
  let w := Cases.after Cases.garbled_request (fresh no_behaviors) in
  let md := [("delete_server_failure", JStr "oops")] in
  server_by_id the_id w = Some 0
  /\ (exists server, heap w !! 0 = Some server /\ metadata server = JObj md)
  /\ dict_lookup md "delete_server_failure" = Some (JStr "oops")
  /\ loads "oops" = None
  /\ request_delete http the_id w
     = (Raise (ValueError "No JSON object could be decoded"), w).
Proof.
  intros w md.
  assert (Hfind : server_by_id the_id w = Some 0) by (vm_compute; reflexivity).
  destruct (heap w !! 0) as [server|] eqn:Hserver;
    [|vm_compute in Hserver; discriminate].
  assert (Hmd : metadata server = JObj md).
  { vm_compute in Hserver. injection Hserver as <-. reflexivity. }
  assert (Hloads : loads "oops" = None) by (vm_compute; reflexivity).
  split; [exact Hfind|]. split; [eauto|]. split; [reflexivity|].
  split; [exact Hloads|].
  exact (proj1 (unusable_descriptor_blocks_delete http the_id w 0 server md
                  "oops" Hfind Hserver Hmd eq_refl) Hloads).
Defined.

Lemma reads_answer_on_every_store_witness :
  let w := Outcome.created in
  server_by_id the_id w = Some 0
  /\ seconds_to_timestamp (creation_time Outcome.web_server) = Ok "0"
  /\ match server_by_id the_id w with
     | Some l =>
         exists s,
           heap w !! l = Some s /\ server_id s = the_id
           /\ request_read http the_id absolutize_url w
              = (match detail_json (tenant_id (collection w))
                         absolutize_url s with
                 | Ok detail =>
                     Ok (Some (dumps (JObj [("server", detail)])), http)
                 | Raise x => Raise x
                 end, w)
           /\ (forall created updated,
                 seconds_to_timestamp (creation_time s) = Ok created ->
                 seconds_to_timestamp (update_time s) = Ok updated ->
                 exists body,
                   request_read http the_id absolutize_url w
                   = (Ok (Some body, http), w))
           /\ (forall x,
                 seconds_to_timestamp (creation_time s) = Raise x ->
                 request_read http the_id absolutize_url w = (Raise x, w))
           /\ request_ips http the_id w
              = (Ok (Some (dumps (JObj [("addresses", addresses_json s)])),
                     {| code := JInt 200 |}), w)
     | None =>
         request_read http the_id absolutize_url w
         = (Ok (None, {| code := JInt 404 |}), w)
         /\ request_ips http the_id w = (Ok (None, {| code := NOT_FOUND |}), w)
     end.
Proof.
  intros w. split; [vm_compute; reflexivity|]. split; [vm_compute; reflexivity|].
  exact (reads_answer_on_every_store http the_id absolutize_url w).
Defined.

Lemma detail_extends_brief_witness :
  exists detail,
    detail_json "tenant" absolutize_url Outcome.web_server = Ok detail
    /\ py_getitem (brief_json "tenant" absolutize_url Outcome.web_server) "links"
       = Ok (links_json "tenant" absolutize_url Outcome.web_server)
    /\ py_getitem detail "links"
       = Ok (links_json "tenant" absolutize_url Outcome.web_server).
Proof.
  destruct (detail_json "tenant" absolutize_url Outcome.web_server)
    as [detail|x] eqn:Hd; [|vm_compute in Hd; discriminate].
  exists detail. split; [reflexivity|]. split; [reflexivity|].
  exact (detail_extends_brief "tenant" absolutize_url Outcome.web_server detail
           "links" (links_json "tenant" absolutize_url Outcome.web_server)
           Hd eq_refl).
Defined.

Lemma delete_uncovers_the_next_holder_witness :
  let w := Cases.twins in
  let w' := snd (request_delete http the_id w) in
  wf w
  /\ request_delete http the_id w = (Ok ("", {| code := JInt 204 |}), w')
  /\ 1 ∈ servers (collection w)
  /\ heap w !! 1 = Some Outcome.web_server
  /\ server_id Outcome.web_server = the_id
  /\ server_by_id the_id w <> Some 1
  /\ exists l'', server_by_id the_id w' = Some l''
                 /\ server_by_id the_id w <> Some l''
                 /\ id_at w' l'' = Some the_id.
Proof.
  intros w w'.
  assert (Hwf : wf w) by (apply wf_check_sound; vm_compute; reflexivity).
  assert (Hdel : request_delete http the_id w
                 = (Ok ("", {| code := JInt 204 |}), w'))
    by (vm_compute; reflexivity).
  assert (Hin : 1 ∈ servers (collection w)).
  { replace (servers (collection w)) with [0; 1] by (vm_compute; reflexivity).
    right. left. }
  assert (Hs : heap w !! 1 = Some Outcome.web_server) by (vm_compute; reflexivity).
  assert (Hne : server_by_id the_id w <> Some 1).
  { replace (server_by_id the_id w) with (Some 0) by (vm_compute; reflexivity).
    discriminate. }
  split; [exact Hwf|]. split; [exact Hdel|]. split; [exact Hin|].
  split; [exact Hs|]. split; [reflexivity|]. split; [exact Hne|].
  exact (delete_uncovers_the_next_holder http the_id w "" w' 1
           Outcome.web_server Hwf Hdel Hin Hs eq_refl Hne).
Defined.

Lemma new_server_addresses_witness :
  let w := Outcome.created in
  let w' := snd (from_creation_request_json plain_request default_ipsegment w) in
  from_creation_request_json plain_request default_ipsegment w = (Ok 1, w')
  /\ exists s a b c,
       heap w' !! 1 = Some s
       /\ (0 <= a < 255)%Z /\ (0 <= b < 255)%Z /\ (0 <= c < 255)%Z
       /\ addresses_json s
          = JObj [ ("private", JArr [ JObj
                     [ ("addr", JStr ("10.180." ++ str_of_Z a ++ "."
                                      ++ str_of_Z b));
                       ("version", JInt 4) ] ]);
                   ("public", JArr [ JObj
                     [ ("addr", JStr ("198.101.241." ++ str_of_Z c));
                       ("version", JInt 4) ];
                     JObj
                     [ ("addr", JStr "2001:4800:780e:0510:d87b:9cbc:ff04:513a");
                       ("version", JInt 6) ] ]) ].
Proof.
  intros w w'.
  assert (Hc : from_creation_request_json plain_request default_ipsegment w
               = (Ok 1, w')) by (vm_compute; reflexivity).
  split; [exact Hc|].
  exact (new_server_addresses plain_request w 1 w' Hc).
Defined.

Lemma new_ids_repeat_only_with_the_draw_witness :
  let w1 := fresh no_behaviors in
  let w2 := Outcome.created in
  let w1' := snd (from_creation_request_json plain_request default_ipsegment w1) in
  let w2' := snd (from_creation_request_json building_request
                    default_ipsegment w2) in
  from_creation_request_json plain_request default_ipsegment w1 = (Ok 0, w1')
  /\ from_creation_request_json building_request default_ipsegment w2
     = (Ok 1, w2')
  /\ (id_at w1' 0 = id_at w2' 1
      <-> fst (randrange 9999999999 (entropy w1))
          = fst (randrange 9999999999 (entropy w2))).
Proof.
  intros w1 w2 w1' w2'.
  assert (H1 : from_creation_request_json plain_request default_ipsegment w1
               = (Ok 0, w1')) by (vm_compute; reflexivity).
  assert (H2 : from_creation_request_json building_request default_ipsegment w2
               = (Ok 1, w2')) by (vm_compute; reflexivity).
  split; [exact H1|]. split; [exact H2|].
  exact (new_ids_repeat_only_with_the_draw plain_request building_request
           w1 w2 0 1 w1' w2' H1 H2).
Defined.

Lemma new_server_has_an_image_witness :
  let w := fresh no_behaviors in
  let cj := Cases.imageless_request in
  let w' := snd (from_creation_request_json cj default_ipsegment w) in
  from_creation_request_json cj default_ipsegment w = (Ok 0, w')
  /\ exists s sj given,
       heap w' !! 0 = Some s
       /\ py_getitem cj "server" = Ok sj
       /\ py_getitem sj "imageRef" = Ok given
       /\ image_ref s = (if py_truthy given then given else JStr "")
       /\ (forall stamp,
             seconds_to_timestamp (seconds (clock (collection w))) = Ok stamp ->
             exists detail, detail_json "tenant" absolutize_url s = Ok detail)
       /\ (forall detail,
             detail_json "tenant" absolutize_url s = Ok detail ->
             py_getitem detail "image"
             = Ok (JObj [ ("id", image_ref s);
                          ("links", JArr [ JObj [
                             ("href", JStr (absolutize_url ("tenant" ++ "/images/"
                                                 ++ format_arg (flavor_ref s))));
                             ("rel", JStr "bookmark") ] ]) ])).
Proof.
  intros w cj w'.
  assert (Hc : from_creation_request_json cj default_ipsegment w = (Ok 0, w'))
    by (vm_compute; reflexivity).
  split; [exact Hc|].
  exact (new_server_has_an_image cj w 0 w' "tenant" absolutize_url Hc).
Defined.

Lemma collection_for_region_filed_witness :
  let self := Cases.tenant in
  filed self
  /\ let '(c, self') := collection_for_region "DFW" self in
     filed self'
     /\ region_name c = "DFW"
     /\ tenant_id c = global_tenant_id self
     /\ (regional_collections self !! "DFW" = None -> servers c = []).
Proof.
  intros self.
  assert (Hf : filed self) by (apply filed_check_sound; vm_compute; reflexivity).
  split; [exact Hf|].
  exact (collection_for_region_filed "DFW" self Hf).
Defined.

Lemma creation_response_describes_the_stored_server_witness :
  let w := Outcome.created in
  let cj := building_request in
  let hook := Some (set_building (JInt 5)) in
  let r := default_create_behavior http cj absolutize_url default_ipsegment
             hook w in
  let body := "{" ++ Sample.quoted "server" ++ ": {"
              ++ Sample.quoted "OS-DCF:diskConfig" ++ ": "
              ++ Sample.quoted "AUTO" ++ ", "
              ++ Sample.quoted "id" ++ ": " ++ Sample.quoted the_id ++ ", "
              ++ Sample.quoted "links" ++ ": [{"
              ++ Sample.quoted "href" ++ ": "
              ++ Sample.quoted "http://mimic/v2/tenant/servers/test-server7-id-7"
              ++ ", " ++ Sample.quoted "rel" ++ ": " ++ Sample.quoted "self"
              ++ "}, {" ++ Sample.quoted "href" ++ ": "
              ++ Sample.quoted "http://mimic/tenant/servers/test-server7-id-7"
              ++ ", " ++ Sample.quoted "rel" ++ ": " ++ Sample.quoted "bookmark"
              ++ "}], " ++ Sample.quoted "adminPass" ++ ": "
              ++ Sample.quoted "hhhhhhhhhhhh" ++ "}}" in
  r = (Ok (body, {| code := JInt 202 |}), snd r)
  /\ exists s,
       heap (snd r) !! length (heap w) = Some s
       /\ servers (collection (snd r))
          = (servers (collection w) ++ [length (heap w)])%list
       /\ {| code := JInt 202 |} = {| code := ACCEPTED |}
       /\ body = dumps (creation_response_json (tenant_id (collection w))
                          absolutize_url s)
       /\ auto_or_manual (disk_config s) = true.
Proof.
  intros w cj hook r body.
  assert (Hr : r = (Ok (body, {| code := JInt 202 |}), snd r))
    by (vm_compute; reflexivity).
  split; [exact Hr|].
  exact (creation_response_describes_the_stored_server http cj absolutize_url
           hook w body {| code := JInt 202 |} (snd r) Hr).
Defined.

End Concrete.
